(** * ProjectV middleware: soft-delete policy, document gateway, audit log

    A shallow embedding of the JavaScript sources

      - [src/utils/softDelete.js]      (module [SoftDelete])
      - [src/routes/dbRoutes.js]       (module [DbRoutes])
      - [src/routes/actionsRoutes.js]  (module [ActionsRoutes])
      - [src/middleware/auth.js], [src/middleware/audit.js] and the
        mounting done in [src/index.js] (module [Middleware])

    together with the part of the JavaScript run time ([JS]) and of the
    MongoDB driver ([Mongo]) that these files call.  JavaScript objects
    are finite maps from property names to values; the database is a
    finite map from collection names to lists of documents. *)

From Stdlib Require Import ZArith Lia Ascii String.
From stdpp Require Import base option list gmap strings fin_maps.

#[local] Set Warnings "-register-all".
#[local] Open Scope Z_scope.

(** ** JavaScript values *)

(** JSON values as [express.json()] parses them, extended with the two
    BSON types the driver adds to stored documents ([Date], [ObjectId])
    and with built-in functions, which a handler meets when it reads
    [filter] or [sort] off an array body ([Array.prototype.filter]).
    [undefined] is the absence of a value ([option value]).  Numbers are
    the integers: the HTTP surface declares [limit] and [skip] as
    [integer], timestamps are milliseconds. *)
Inductive value : Type :=
| VNull
| VBool (b : bool)
| VNum (n : Z)
| VStr (s : string)
| VDate (t : Z)
| VOid (o : string)
| VArr (l : list value)
| VObj (m : gmap string value)
| VFun (name : string).

#[global] Instance value_eq_dec : EqDecision value.
Proof.
  refine (fix go (x y : value) {struct x} : Decision (x = y) :=
    let _ : EqDecision value := @go in
    match x, y with
    | VNull, VNull => left _
    | VBool a, VBool b => cast_if (decide (a = b))
    | VNum a, VNum b => cast_if (decide (a = b))
    | VStr a, VStr b => cast_if (decide (a = b))
    | VDate a, VDate b => cast_if (decide (a = b))
    | VOid a, VOid b => cast_if (decide (a = b))
    | VArr a, VArr b => cast_if (decide (a = b))
    | VObj a, VObj b => cast_if (decide (a = b))
    | VFun a, VFun b => cast_if (decide (a = b))
    | _, _ => right _
    end); try abstract congruence.
Defined.

(** A JavaScript object literal. *)
Abbreviation obj := (gmap string value).

(** The result of [Number(x)]: an integer or [NaN]. *)
Inductive jsnum : Type :=
| NaN
| Num (n : Z).

#[global] Instance jsnum_eq_dec : EqDecision jsnum.
Proof. solve_decision. Defined.

(** ** Field names

    A key of [$set] is a path: [a.b] names the field [b] of the
    embedded document [a], and a part that starts with [$] is an
    operator on arrays.  A key that is not empty and holds no [.], no
    [$] and no NUL names a top-level field. *)

Module Path.

Definition plain_char (c : ascii) : bool :=
  negb (Ascii.eqb c "."%char) && negb (Ascii.eqb c "$"%char)
  && negb (Ascii.eqb c Ascii.zero).

Fixpoint plain_chars (k : string) : bool :=
  match k with
  | EmptyString => true
  | String c rest => plain_char c && plain_chars rest
  end.

Definition plain (k : string) : bool :=
  negb (String.eqb k EmptyString) && plain_chars k.

(** The field a path starts in: the text before its first [.]. *)
Fixpoint root (k : string) : string :=
  match k with
  | EmptyString => EmptyString
  | String c rest =>
      if Ascii.eqb c "."%char then EmptyString else String c (root rest)
  end.

End Path.

(** What the platform provides and the repository only calls: the
    ECMAScript string-to-number conversion, the driver's [ObjectId]
    constructor (it throws on a malformed id: [None]), [jwt.verify]
    (it throws on a bad token: [None]), the cursor's sort and
    projection stages, and the number of documents the server puts in
    the single batch it returns for a negative limit.

    The repository pins no version of the driver, and two things the
    routes meet depend on it and on the server.

    [includeResultMetadata]: what [findOneAndUpdate] resolves to.  Up
    to version 5 of the driver it is [{ value, ok, lastErrorObject }],
    with [value] the document or [null]; from version 6 it is the
    document itself, or [null].

    [set_paths fields d]: what [{ $set: fields }] makes of the document
    [d] when some key of [fields] is not a plain field name; the server
    resolves such a key as a path, creates the embedded documents on
    the way, and rejects ([inr], with its message) paths that conflict
    or that it cannot follow.  Whatever the version, an update that
    succeeds leaves [_id] as it is, leaves alone every field that no
    key starts in, stores the value of a key that is a plain field
    name under that name, and leaves a value in the field every key
    starts in. *)
Class Platform := {
  StringToNumber : string → jsnum;
  ObjectId : string → option string;
  jwt_verify : string → option value;
  sortDocs : value → list obj → list obj;
  projectDoc : option value → obj → obj;
  firstBatch : nat;
  includeResultMetadata : bool;
  set_paths : obj → obj → obj + string;
  set_paths_id : ∀ fields d d',
    set_paths fields d = inl d' → d' !! "_id" = d !! "_id";
  set_paths_root : ∀ fields d d' k,
    set_paths fields d = inl d' →
    (∀ key, is_Some (fields !! key) → Path.root key ≠ k) →
    d' !! k = d !! k;
  set_paths_field : ∀ fields d d' k v,
    set_paths fields d = inl d' →
    Path.plain k = true → fields !! k = Some v → d' !! k = Some v;
  set_paths_path : ∀ fields d d' key,
    set_paths fields d = inl d' →
    is_Some (fields !! key) → is_Some (d' !! Path.root key)
}.

Module JS.

(** [ToBoolean]. *)
Definition truthy (v : value) : bool :=
  match v with
  | VNull => false
  | VBool b => b
  | VNum n => negb (n =? 0)
  | VStr s => negb (String.eqb s EmptyString)
  | VDate _ | VOid _ | VArr _ | VObj _ | VFun _ => true
  end.

(** [a || b] where [b] is a value. *)
Definition or_else (a : option value) (b : value) : value :=
  match a with
  | Some x => if truthy x then x else b
  | None => b
  end.

(** [o.k] (and [o?.k]) for the property names the repository reads:
    [filter], [projection], [sort], [limit], [skip], [username],
    [email].  An object has its own properties; an array inherits
    [filter] and [sort] from its prototype; other values have none of
    them. *)
Definition prop (o : option value) (k : string) : option value :=
  match o with
  | Some (VObj m) => m !! k
  | Some (VArr _) =>
      if String.eqb k "filter" || String.eqb k "sort" then Some (VFun k)
      else None
  | _ => None
  end.

(** [{...v}]: the own enumerable properties of [v].  Every spread in
    the repository is applied to a value that passed
    [typeof v === "object" && !Array.isArray(v)], so to an object or
    to [null]. *)
Definition spread (v : value) : obj :=
  match v with
  | VObj m => m
  | _ => ∅
  end.

(** [typeof v !== "object" || Array.isArray(v)], the body and filter
    check of the handlers ([typeof null] is ["object"]). *)
Definition not_plain_object (v : value) : bool :=
  match v with
  | VObj _ | VNull | VDate _ | VOid _ => false
  | VArr _ => true
  | VBool _ | VNum _ | VStr _ | VFun _ => true
  end.

Section Number.
Context `{Platform}.

(** [Number(v)], where it returns ([throws], below, says where it
    does not).  An array converts through its string form: the
    empty array is the empty string (0), a one-element array is the string of
    its element, a longer one contains a comma ([NaN]); inside an
    array [null] prints as the empty string and a boolean as its name. *)
Fixpoint Number (v : value) : jsnum :=
  match v with
  | VNull => Num 0
  | VBool b => Num (if b then 1 else 0)
  | VNum n => Num n
  | VStr s => StringToNumber s
  | VDate t => Num t
  | VOid o => StringToNumber o
  | VObj _ | VFun _ => NaN
  | VArr l =>
      match l with
      | [] => Num 0
      | [x] =>
          match x with
          | VNull => Num 0
          | VBool _ | VDate _ => NaN
          | _ => Number x
          end
      | _ => NaN
      end
  end.
End Number.

(** [n || d] for numbers: [NaN] and [0] are falsy. *)
Definition num_or (n : jsnum) (d : Z) : Z :=
  match n with
  | NaN => d
  | Num k => if k =? 0 then d else k
  end.

(** [Math.min(a, b)] on integers. *)
Definition Math_min (a b : Z) : Z := Z.min a b.

(** [typeof v === "object"] *)
Definition typeof_object (v : value) : bool :=
  match v with
  | VNull | VDate _ | VOid _ | VArr _ | VObj _ => true
  | VBool _ | VNum _ | VStr _ | VFun _ => false
  end.

(** [Number(v)] throws a [TypeError] ("Cannot convert object to
    primitive value") when [v] cannot be made a primitive: an object
    parsed from JSON whose own [toString] property is, as every parsed
    value, not callable, or an array that holds such an object, whose
    string form asks each element for its own. *)
Fixpoint throws (v : value) : bool :=
  match v with
  | VObj m => bool_decide (is_Some (m !! "toString"))
  | VArr l => existsb throws l
  | _ => false
  end.

(** [Array.isArray(v)] *)
Definition isArray (v : value) : bool :=
  match v with
  | VArr _ => true
  | _ => false
  end.

(** [ToBoolean] of a value that may be [undefined]. *)
Definition truthy_opt (v : option value) : bool :=
  match v with
  | Some x => truthy x
  | None => false
  end.

(** An object literal whose property values may be [undefined]: such
    a property is dropped when the object is serialised (JSON, BSON
    with [ignoreUndefined], a token payload). *)
Definition literal (props : list (string * option value)) : obj :=
  list_to_map (omap (λ p, (λ v, (p.1, v)) <$> p.2) props).

End JS.

(** ** [src/utils/softDelete.js] *)

Module SoftDelete.

(** [{ $exists: false }] *)
Definition not_exists : value := VObj {[ "$exists" := VBool false ]}.

(** [addSoftDeleteFilter(filter = {})]:
    [{ ...filter, deleted_at: { $exists: false } }]. *)
Definition addSoftDeleteFilter (filter : option value) : obj :=
  let filter := default (VObj ∅) filter in
  <[ "deleted_at" := not_exists ]> (JS.spread filter).

(** [user?.username || "system"] *)
Definition actor (user : option value) : value :=
  JS.or_else (JS.prop user "username") (VStr "system").

(** [getCreateMetadata(user)]; [now] is the reading of [new Date()]. *)
Definition getCreateMetadata (now : Z) (user : option value) : obj :=
  {[ "created_at" := VDate now; "created_by" := actor user ]}.

Definition getUpdateMetadata (now : Z) (user : option value) : obj :=
  {[ "updated_at" := VDate now; "updated_by" := actor user ]}.

Definition getDeleteMetadata (now : Z) (user : option value) : obj :=
  {[ "deleted_at" := VDate now; "deleted_by" := actor user ]}.

(** The same function on a heap of objects, where a JavaScript object
    is a reference: the object literal allocates a new object at the
    first free location and copies the properties of [filter] into
    it. *)
Abbreviation heap := (list obj).

Definition deref (h : heap) (r : option nat) : option value :=
  match r with
  | Some l => VObj <$> (h !! l)
  | None => None
  end.

Definition addSoftDeleteFilter_ref (h : heap) (filter : option nat)
  : heap * nat :=
  (h ++ [addSoftDeleteFilter (deref h filter)], length h).

End SoftDelete.

(** ** The MongoDB driver, as far as the routes use it *)

Module Mongo.

(** A collection is the list of its documents in insertion order; a
    database maps collection names to collections. *)
Abbreviation database := (gmap string (list obj)).

Definition collection (db : database) (name : string) : list obj :=
  default [] (db !! name).

(** A driver call resolves or throws. *)
Inductive result (A : Type) : Type :=
| Ok (a : A)
| Throw (message : string).
Arguments Ok {A} a.
Arguments Throw {A} message.

(** *** Query filters

    A filter maps field names to constraints; a document matches when
    every constraint holds of the field it names.  A constraint is a
    value to be equal to, or an operator document such as
    [{ $exists: false }] or [{ $gte: 21 }].  The fragment covers the
    equality, comparison and containment operators on top-level
    fields.  It does not cover the logical operators ([$or], [$and],
    [$nor], [$not]) and [$regex], which no document satisfies here,
    paths into embedded documents (a key is read as a field name),
    equality with an element of an array-valued field (an array is
    compared as a whole), and the server's rejection of a malformed
    filter. *)

Definition is_operator (k : string) : bool :=
  match k with
  | String "$"%char _ => true
  | _ => false
  end.

Definition operator_doc (c : value) : option obj :=
  match c with
  | VObj ops =>
      if bool_decide (ops ≠ ∅ ∧ map_Forall (λ k _, is_operator k = true) ops)
      then Some ops else None
  | _ => None
  end.

(** Equality: a missing field equals only [null]. *)
Definition eq_match (c : value) (f : option value) : bool :=
  match f with
  | Some x => bool_decide (x = c)
  | None => bool_decide (c = VNull)
  end.

(** Order comparison is within one type. *)
Definition compare_field (f : option value) (c : value) : option comparison :=
  match f, c with
  | Some (VNum a), VNum b => Some (a ?= b)
  | Some (VDate a), VDate b => Some (a ?= b)
  | Some (VStr a), VStr b => Some (String.compare a b)
  | _, _ => None
  end.

Definition is_in (arg : value) (f : option value) : bool :=
  match arg with
  | VArr vs => existsb (λ v, eq_match v f) vs
  | _ => false
  end.

Definition holds_op (op : string) (arg : value) (f : option value) : bool :=
  if String.eqb op "$exists" then Bool.eqb (JS.truthy arg) (bool_decide (is_Some f))
  else if String.eqb op "$eq" then eq_match arg f
  else if String.eqb op "$ne" then negb (eq_match arg f)
  else if String.eqb op "$gt" then bool_decide (compare_field f arg = Some Gt)
  else if String.eqb op "$gte" then
    bool_decide (compare_field f arg = Some Gt ∨ compare_field f arg = Some Eq)
  else if String.eqb op "$lt" then bool_decide (compare_field f arg = Some Lt)
  else if String.eqb op "$lte" then
    bool_decide (compare_field f arg = Some Lt ∨ compare_field f arg = Some Eq)
  else if String.eqb op "$in" then is_in arg f
  else if String.eqb op "$nin" then negb (is_in arg f)
  else false.

Definition holds (c : value) (f : option value) : bool :=
  match operator_doc c with
  | Some ops => bool_decide (map_Forall (λ op arg, holds_op op arg f = true) ops)
  | None => eq_match c f
  end.

Definition matches (filter : obj) (d : obj) : bool :=
  bool_decide (map_Forall (λ k c, holds c (d !! k) = true) filter).

(** *** Reads *)

Definition findOne (filter : obj) (c : list obj) : option obj :=
  head (List.filter (matches filter) c).

(** [cursor.skip(n)]: the server rejects a negative skip. *)
Definition cursor_skip (n : Z) (l : list obj) : result (list obj) :=
  if n <? 0 then Throw "skip value must be non-negative"
  else Ok (drop (Z.to_nat n) l).

(** [cursor.limit(n)]: 0 is no limit; a negative [n] asks for at most
    [-n] documents in a single batch. *)
Definition cursor_limit `{Platform} (n : Z) (l : list obj) : list obj :=
  if n =? 0 then l
  else if 0 <? n then take (Z.to_nat n) l
  else take (Nat.min (Z.to_nat (- n)) firstBatch) l.

(** [col.find(filter, { projection }).sort(sort).skip(skip).limit(limit)
    .toArray()] *)
Definition find `{Platform} (filter : obj) (projection : option value)
    (sort : value) (skip limit : Z) (c : list obj) : result (list obj) :=
  match cursor_skip skip (sortDocs sort (List.filter (matches filter) c)) with
  | Throw m => Throw m
  | Ok l => Ok (projectDoc projection <$> cursor_limit limit l)
  end.

(** *** Writes *)

(** [insertOne(doc)]: the driver adds [_id] when the document has none
    ([fresh] is the id it generates); [_id] is unique in a collection. *)
Definition insertOne (fresh : string) (doc : obj) (c : list obj)
  : result (list obj * value) :=
  let id := default (VOid fresh) (doc !! "_id") in
  if bool_decide (Exists (λ d, d !! "_id" = Some id) c)
  then Throw "E11000 duplicate key error"
  else Ok (c ++ [<[ "_id" := id ]> doc], id).

(** [{ $set: fields }] on one document.  When every key is a plain
    field name the listed fields are overwritten and the others kept,
    and [_id] cannot be changed; otherwise the server resolves the
    paths ([set_paths]). *)
Definition set_fields `{Platform} (fields d : obj) : result obj :=
  if bool_decide (map_Forall (λ k _, Path.plain k = true) fields) then
    match fields !! "_id" with
    | Some v =>
        if bool_decide (d !! "_id" = Some v) then Ok (fields ∪ d)
        else Throw "Performing an update on the path '_id' would modify the immutable field '_id'"
    | None => Ok (fields ∪ d)
    end
  else
    match set_paths fields d with
    | inl d' => Ok d'
    | inr m => Throw m
    end.

Definition changed (d d' : obj) : Z :=
  if bool_decide (d' = d) then 0 else 1.

(** [findOneAndUpdate(filter, { $set: fields }, { returnDocument:
    "after" })]: the first match is updated; the collection it leaves,
    and the updated document, or nothing when no document matched.
    What the driver makes of the latter is the handler's concern
    ([DbRoutes.patch_answer]). *)
Fixpoint findOneAndUpdate `{Platform} (filter fields : obj) (c : list obj)
  : result (list obj * option obj) :=
  match c with
  | [] => Ok ([], None)
  | d :: rest =>
      if matches filter d then
        match set_fields fields d with
        | Ok d' => Ok (d' :: rest, Some d')
        | Throw m => Throw m
        end
      else
        match findOneAndUpdate filter fields rest with
        | Ok (rest', r) => Ok (d :: rest', r)
        | Throw m => Throw m
        end
  end.

(** [updateOne(filter, { $set: fields })], with its [modifiedCount]. *)
Fixpoint updateOne `{Platform} (filter fields : obj) (c : list obj)
  : result (list obj * Z) :=
  match c with
  | [] => Ok ([], 0)
  | d :: rest =>
      if matches filter d then
        match set_fields fields d with
        | Ok d' => Ok (d' :: rest, changed d d')
        | Throw m => Throw m
        end
      else
        match updateOne filter fields rest with
        | Ok (rest', n) => Ok (d :: rest', n)
        | Throw m => Throw m
        end
  end.

(** [updateMany(filter, { $set: fields })], with its [modifiedCount]. *)
Fixpoint updateMany `{Platform} (filter fields : obj) (c : list obj)
  : result (list obj * Z) :=
  match c with
  | [] => Ok ([], 0)
  | d :: rest =>
      match updateMany filter fields rest with
      | Throw m => Throw m
      | Ok (rest', n) =>
          if matches filter d then
            match set_fields fields d with
            | Ok d' => Ok (d' :: rest', changed d d' + n)
            | Throw m => Throw m
            end
          else Ok (d :: rest', n)
      end
  end.

(** *** Collections *)

(** [db.listCollections().toArray()], as the names. *)
Definition listCollections (db : database) : list string := (map_to_list db).*1.

(** [db.listCollections({ name }).toArray()] *)
Definition listCollections_named (name : string) (db : database) : list string :=
  List.filter (String.eqb name) (listCollections db).

(** [db.createCollection(name)]: the server rejects the names it does
    not allow ([invalid] gives its message for them) and a name that
    is taken. *)
Definition createCollection (invalid : string → option string)
    (name : string) (db : database) : result database :=
  match invalid name with
  | Some m => Throw m
  | None =>
      match db !! name with
      | Some _ => Throw "Collection already exists"
      | None => Ok (<[ name := [] ]> db)
      end
  end.

(** [deleteMany(filter)], with its [deletedCount]: the matching
    documents are removed. *)
Definition deleteMany (filter : obj) (c : list obj) : list obj * Z :=
  (List.filter (λ d, negb (matches filter d)) c,
   Z.of_nat (length (List.filter (matches filter) c))).

End Mongo.

(** The other libraries the repository calls: [String.prototype.trim],
    [JSON.parse] (it throws on malformed text: [None]),
    [bcrypt.compare] (it rejects arguments that are not strings) and
    [jwt.sign] with the process's secret. *)
Class Libraries := {
  String_trim : string → string;
  JSON_parse : string → option value;
  bcrypt_compare : value → option value → Mongo.result bool;
  jwt_sign : value → string → string
}.

(** ** Requests and responses (Express) *)

Module Express.

Record Request : Type := {
  user : option value;            (* req.user, set by [authenticate] *)
  method : string;
  originalUrl : option string;
  url : string;
  params : gmap string string;
  query : obj;
  body : option value;
  ip : option string;
  remoteAddress : option string;  (* req.connection?.remoteAddress *)
  headers : gmap string string
}.

(** [res.status(statusCode).json(payload)] *)
Record Response : Type := {
  statusCode : Z;
  payload : value
}.

#[global] Instance Response_eq_dec : EqDecision Response.
Proof. solve_decision. Defined.

(** A route handler ends by sending a response or by [next(err)]. *)
Inductive outcome : Type :=
| Sent (r : Response)
| Next (message : string).

#[global] Instance outcome_eq_dec : EqDecision outcome.
Proof. solve_decision. Defined.

(** [res.status(code).json({ error: message })] *)
Definition error (code : Z) (message : string) : Response :=
  {| statusCode := code; payload := VObj {[ "error" := VStr message ]} |}.

(** [res.json({ ok: true, ...fields })] *)
Definition ok (code : Z) (fields : obj) : Response :=
  {| statusCode := code; payload := VObj (<[ "ok" := VBool true ]> fields) |}.

(** [req.params.k]; a missing parameter and the empty string are both
    falsy. *)
Definition param (req : Request) (k : string) : string :=
  default EmptyString (params req !! k).

(** [req.body || {}] *)
Definition body_or_empty (req : Request) : value :=
  JS.or_else (body req) (VObj ∅).

End Express.

(** ** [src/routes/dbRoutes.js]

    Each handler is a function of the database it finds (the handle
    [getDb()] resolves to) and of the request; it gives the database it
    leaves and what it sends.  [now] is the reading of [new Date()].
    A write the driver resolved is stored under the collection's name
    whatever it matched; a write it rejected leaves the database as it
    was. *)

Module DbRoutes.
Import Express.
Import Mongo.
Import SoftDelete.

(** [{ _id }] *)
Definition by_id (oid : string) : value := VObj {[ "_id" := VOid oid ]}.

(** [router.post("/collections/:name/documents")] *)
Definition post_document (now : Z) (fresh : string)
    (db : database) (req : Request) : database * outcome :=
  let name := param req "name" in
  let body := body_or_empty req in
  if String.eqb name EmptyString then (db, Sent (error 400 "Collection name is required"))
  else if JS.not_plain_object body then
    (db, Sent (error 400 "Body must be an object"))
  else
    let docWithMetadata := getCreateMetadata now (user req) ∪ JS.spread body in
    match insertOne fresh docWithMetadata (collection db name) with
    | Ok (c, insertedId) =>
        (<[ name := c ]> db, Sent (ok 201 {[ "insertedId" := insertedId ]}))
    | Throw m => (db, Next m)
    end.

(** [if (!result.value) return res.status(404)...; res.json({ ok:
    true, document: result.value })] on what [findOneAndUpdate]
    resolved to.  With the result metadata, [result.value] is the
    updated document, or [null].  Without it, [result] is the document
    and [result.value] is that document's own field [value], if it has
    one; and when nothing matched [result] is [null], and reading
    [result.value] throws a [TypeError], which the [catch] hands to
    [next]. *)
Definition patch_answer `{Platform} (matched : option obj) : outcome :=
  if includeResultMetadata then
    match matched with
    | None => Sent (error 404 "Document not found")
    | Some d => Sent (ok 200 {[ "document" := VObj d ]})
    end
  else
    match matched with
    | None => Next "Cannot read properties of null (reading 'value')"
    | Some d =>
        match d !! "value" with
        | Some v =>
            if JS.truthy v then Sent (ok 200 {[ "document" := v ]})
            else Sent (error 404 "Document not found")
        | None => Sent (error 404 "Document not found")
        end
    end.

(** [router.patch("/collections/:name/documents/:id")] *)
Definition patch_document `{Platform} (now : Z)
    (db : database) (req : Request) : database * outcome :=
  let name := param req "name" in
  let id := param req "id" in
  let updates := body_or_empty req in
  if String.eqb name EmptyString then (db, Sent (error 400 "Collection name is required"))
  else if String.eqb id EmptyString then (db, Sent (error 400 "Document id is required"))
  else
    match ObjectId id with
    | None => (db, Sent (error 400 "Invalid id format"))
    | Some _id =>
        if JS.not_plain_object updates then
          (db, Sent (error 400 "Body must be an object"))
        else
          let updatesWithMetadata :=
            getUpdateMetadata now (user req) ∪ JS.spread updates in
          match findOneAndUpdate (addSoftDeleteFilter (Some (by_id _id)))
                  updatesWithMetadata (collection db name) with
          | Throw m => (db, Next m)
          | Ok (c, matched) => (<[ name := c ]> db, patch_answer matched)
          end
    end.

(** [Math.min(Number(limit) || 50, 500)] with [limit = 50] when the
    body has no [limit]. *)
Definition find_limit `{Platform} (b : value) : Z :=
  let limit := default (VNum 50) (JS.prop (Some b) "limit") in
  JS.Math_min (JS.num_or (JS.Number limit) 50) 500.

(** [Number(skip) || 0] with [skip = 0] when the body has no [skip]. *)
Definition find_skip `{Platform} (b : value) : Z :=
  let skip := default (VNum 0) (JS.prop (Some b) "skip") in
  JS.num_or (JS.Number skip) 0.

(** Whether [Number(skip)] or [Number(limit)] throws (the defaults are
    numbers); the [catch] hands the [TypeError] to [next]. *)
Definition find_throws (b : value) : bool :=
  from_option JS.throws false (JS.prop (Some b) "skip")
  || from_option JS.throws false (JS.prop (Some b) "limit").

Definition find_result (docs : list obj) : Response :=
  ok 200 {[ "count" := VNum (Z.of_nat (length docs));
            "documents" := VArr (VObj <$> docs) ]}.

(** [router.post("/collections/:name/find")] *)
Definition post_find `{Platform}
    (db : database) (req : Request) : database * outcome :=
  let name := param req "name" in
  let b := body_or_empty req in
  let filter := default (VObj ∅) (JS.prop (Some b) "filter") in
  let projection := JS.prop (Some b) "projection" in
  let sort := JS.prop (Some b) "sort" in
  if JS.not_plain_object filter then
    (db, Sent (error 400 "filter must be an object"))
  else if find_throws b then
    (db, Next "Cannot convert object to primitive value")
  else
    let softDeleteFilter := addSoftDeleteFilter (Some filter) in
    match find softDeleteFilter projection (JS.or_else sort (VObj ∅))
            (find_skip b) (find_limit b) (collection db name) with
    | Ok docs => (db, Sent (find_result docs))
    | Throw m => (db, Next m)
    end.

(** [router.delete("/collections/:name/documents")] *)
Definition delete_documents `{Platform} (now : Z)
    (db : database) (req : Request) : database * outcome :=
  let name := param req "name" in
  let b := body_or_empty req in
  let filter := default (VObj ∅) (JS.prop (Some b) "filter") in
  if JS.not_plain_object filter then
    (db, Sent (error 400 "filter must be an object"))
  else
    let softDeleteFilter := addSoftDeleteFilter (Some filter) in
    match updateMany softDeleteFilter (getDeleteMetadata now (user req))
            (collection db name) with
    | Ok (c, modifiedCount) =>
        (<[ name := c ]> db, Sent (ok 200 {[ "deleted" := VNum modifiedCount ]}))
    | Throw m => (db, Next m)
    end.

(** [router.post("/collections/:name/documents/delete")]: the same body
    as the DELETE route. *)
Definition post_documents_delete `{Platform} (now : Z)
    (db : database) (req : Request) : database * outcome :=
  delete_documents now db req.

(** [router.get("/collections/:name/documents/:id")] *)
Definition get_document `{Platform}
    (db : database) (req : Request) : database * outcome :=
  let name := param req "name" in
  let id := param req "id" in
  match ObjectId id with
  | None => (db, Sent (error 400 "Invalid id format"))
  | Some _id =>
      match findOne (addSoftDeleteFilter (Some (by_id _id))) (collection db name) with
      | None => (db, Sent (error 404 "Document not found"))
      | Some doc => (db, Sent (ok 200 {[ "document" := VObj doc ]}))
      end
  end.

(** [router.delete("/collections/:name/documents/:id")] *)
Definition delete_document `{Platform} (now : Z)
    (db : database) (req : Request) : database * outcome :=
  let name := param req "name" in
  let id := param req "id" in
  match ObjectId id with
  | None => (db, Sent (error 400 "Invalid id format"))
  | Some _id =>
      match updateOne (addSoftDeleteFilter (Some (by_id _id)))
              (getDeleteMetadata now (user req)) (collection db name) with
      | Throw m => (db, Next m)
      | Ok (c, modifiedCount) =>
          let db' := <[ name := c ]> db in
          if modifiedCount =? 0 then (db', Sent (error 404 "Document not found"))
          else (db', Sent (ok 200 {[ "deleted" := VNum modifiedCount ]}))
      end
  end.

(** [coerceValue(value)] *)
Definition coerceValue `{Platform} `{Libraries} (v : value) : value :=
  match v with
  | VStr s =>
      if String.eqb s "true" then VBool true
      else if String.eqb s "false" then VBool false
      else if String.eqb s "null" then VNull
      else if negb (String.eqb (String_trim s) EmptyString) then
        match StringToNumber s with
        | Num n => VNum n
        | NaN => v
        end
      else v
  | _ => v
  end.

(** [parseFilterInput(input)] *)
Definition parseFilterInput `{Libraries} (input : option value) : value :=
  if negb (JS.truthy_opt input) then VObj ∅
  else
    match input with
    | Some v =>
        if JS.typeof_object v then v
        else
          match v with
          | VStr text =>
              match JSON_parse text with
              | Some o =>
                  if JS.truthy o && JS.typeof_object o && negb (JS.isArray o)
                  then o else VObj ∅
              | None => VObj ∅
              end
          | _ => VObj ∅
          end
    | None => VObj ∅
    end.

(** [router.get("/collections")] *)
Definition get_collections (db : database) (req : Request) : database * outcome :=
  (db, Sent (ok 200 {[ "collections" := VArr (VStr <$> listCollections db) ]})).

(** [router.post("/collections/:name")] *)
Definition post_collection (invalid : string → option string)
    (db : database) (req : Request) : database * outcome :=
  let name := param req "name" in
  if String.eqb name EmptyString then
    (db, Sent (error 400 "Collection name is required"))
  else
    let existing := listCollections_named name db in
    if (0 <? length existing)%nat then
      (db, Sent (ok 200 {[ "message" := VStr "Collection already exists" ]}))
    else
      match createCollection invalid name db with
      | Ok db' => (db', Sent (ok 201 {[ "collection" := VStr name ]}))
      | Throw m => (db, Next m)
      end.

End DbRoutes.

(** ** [src/routes/actionsRoutes.js] *)

Module ActionsRoutes.
Import Express.
Import Mongo.

(** [Math.min(Number(limit) || 100, 1000)] with [limit = 100] when the
    body has no [limit]. *)
Definition actions_limit `{Platform} (b : value) : Z :=
  let limit := default (VNum 100) (JS.prop (Some b) "limit") in
  JS.Math_min (JS.num_or (JS.Number limit) 100) 1000.

Definition actions_skip `{Platform} (b : value) : Z :=
  let skip := default (VNum 0) (JS.prop (Some b) "skip") in
  JS.num_or (JS.Number skip) 0.

Definition actions_result (docs : list obj) : Response :=
  ok 200 {[ "count" := VNum (Z.of_nat (length docs));
            "actions" := VArr (VObj <$> docs) ]}.

(** [{ timestamp: -1 }] *)
Definition newest_first : value := VObj {[ "timestamp" := VNum (-1) ]}.

(** [router.post("/find")] *)
Definition post_actions_find `{Platform}
    (db : database) (req : Request) : database * outcome :=
  let b := body_or_empty req in
  let filter := default (VObj ∅) (JS.prop (Some b) "filter") in
  let projection := JS.prop (Some b) "projection" in
  let sort := JS.prop (Some b) "sort" in
  if JS.not_plain_object filter then
    (db, Sent (error 400 "filter must be an object"))
  else if DbRoutes.find_throws b then
    (db, Next "Cannot convert object to primitive value")
  else
    match find (JS.spread filter) projection (JS.or_else sort newest_first)
            (actions_skip b) (actions_limit b) (collection db "actions") with
    | Ok docs => (db, Sent (actions_result docs))
    | Throw m => (db, Next m)
    end.

End ActionsRoutes.

(** ** [src/middleware/auth.js], [src/middleware/audit.js] and the
    mounting of [src/index.js] *)

Module Middleware.
Import Express.
Import Mongo.

(** The value of [res.send]: Express's own method, or the function
    [auditLog] puts in its place, which keeps the previous value in
    [originalSend]. *)
Inductive send_impl : Type :=
| express_send
| audit_send (originalSend : send_impl).

(** The closure registered with [res.on("finish", ...)]: it captures
    [start] and [req]. *)
Record listener : Type := {
  start : Z;
  logged : Request
}.

(** What can be observed of one request. *)
Inductive event : Type :=
| ClientReceived (r : Response)
| AuditInserted (action : obj)
| ConsoleError (message : string)
| UnhandledRejection (message : string).

#[global] Instance event_eq_dec : EqDecision event.
Proof. solve_decision. Defined.

(** The response object [res], the database, and the events so far.
    [responseBody] is the variable the replaced [send] assigns. *)
Record State : Type := {
  db : database;
  res_statusCode : Z;
  res_send : send_impl;
  res_finish : list listener;
  responseBody : option value;
  trace : list event
}.

(** What the process reads from outside while it serves the request:
    the three clock readings of [auditLog], whether [getDb()] and
    [insertOne] of the audit entry reject (with which message), and the
    [_id] the driver generates for the entry. *)
Record Env : Type := {
  t_start : Z;
  t_finish : Z;
  t_stamp : Z;
  getDb_error : option string;
  insert_error : option string;
  fresh : string
}.

Definition initial (d : database) : State :=
  {| db := d; res_statusCode := 200; res_send := express_send;
     res_finish := []; responseBody := None; trace := [] |}.

Definition set_db (d : database) (st : State) : State :=
  {| db := d; res_statusCode := res_statusCode st; res_send := res_send st;
     res_finish := res_finish st; responseBody := responseBody st;
     trace := trace st |}.

Definition set_status (code : Z) (st : State) : State :=
  {| db := db st; res_statusCode := code; res_send := res_send st;
     res_finish := res_finish st; responseBody := responseBody st;
     trace := trace st |}.

Definition set_responseBody (data : value) (st : State) : State :=
  {| db := db st; res_statusCode := res_statusCode st; res_send := res_send st;
     res_finish := res_finish st; responseBody := Some data;
     trace := trace st |}.

Definition emit (e : event) (st : State) : State :=
  {| db := db st; res_statusCode := res_statusCode st; res_send := res_send st;
     res_finish := res_finish st; responseBody := responseBody st;
     trace := trace st ++ [e] |}.

(** Calling [res.send(data)]: Express's method writes the response
    with the current status code; the replacement records [data] and
    calls the method it replaced with the same [data]. *)
Fixpoint call_send (impl : send_impl) (data : value) (st : State) : State :=
  match impl with
  | express_send =>
      emit (ClientReceived {| statusCode := res_statusCode st; payload := data |}) st
  | audit_send originalSend =>
      call_send originalSend data (set_responseBody data st)
  end.

(** [res.status(code).json(payload)]: [json] ends in [this.send]. *)
Definition respond (r : Response) (st : State) : State :=
  let st := set_status (statusCode r) st in
  call_send (res_send st) (payload r) st.

(** *** [authenticate] *)

Fixpoint until_space (s : string) : string :=
  match s with
  | EmptyString => EmptyString
  | String c rest =>
      if Ascii.eqb c " "%char then EmptyString else String c (until_space rest)
  end.

(** [authHeader.split(" ")[1]] for a header that starts with
    ["Bearer "]. *)
Definition bearer_token (authHeader : string) : string :=
  until_space (String.substring 7 (String.length authHeader - 7) authHeader).

Definition with_user (decoded : value) (req : Request) : Request :=
  {| user := Some decoded; method := method req;
     originalUrl := originalUrl req; url := url req; params := params req;
     query := query req; body := body req; ip := ip req;
     remoteAddress := remoteAddress req; headers := headers req |}.

(** [req] after an error has left the router: Express puts back the
    [req.params] the request had when it entered the router, and the
    application's mount paths have no parameters. *)
Definition without_params (req : Request) : Request :=
  {| user := user req; method := method req;
     originalUrl := originalUrl req; url := url req; params := ∅;
     query := query req; body := body req; ip := ip req;
     remoteAddress := remoteAddress req; headers := headers req |}.

Definition authenticate `{Platform} (req : Request)
    (next : Request → State → State) (st : State) : State :=
  match headers req !! "authorization" with
  | None => respond (error 401 "Unauthorized: missing or invalid token") st
  | Some authHeader =>
      if negb (String.prefix "Bearer " authHeader) then
        respond (error 401 "Unauthorized: missing or invalid token") st
      else
        match jwt_verify (bearer_token authHeader) with
        | Some decoded => next (with_user decoded req) st
        | None => respond (error 401 "Unauthorized: invalid token") st
        end
  end.

(** *** [auditLog] *)

Definition str_or_null (s : option string) : value :=
  match s with
  | Some x => VStr x
  | None => VNull
  end.

(** [a || b] on optional strings. *)
Definition str_or (a b : option string) : option string :=
  match a with
  | Some x => if String.eqb x EmptyString then b else a
  | None => b
  end.

(** The [action] object literal.  An [undefined] property is stored as
    [null]. *)
Definition action (env : Env) (l : listener) (st : State) : obj :=
  let req := logged l in
  {[ "username" := JS.or_else (JS.prop (user req) "username") (VStr "anonymous");
     "email" := JS.or_else (JS.prop (user req) "email") VNull;
     "method" := VStr (method req);
     "path" := str_or_null (str_or (originalUrl req) (Some (url req)));
     "params" := VObj (VStr <$> params req);
     "query" := VObj (query req);
     "body" := default VNull (body req);
     "statusCode" := VNum (res_statusCode st);
     "duration" := VNum (t_finish env - start l);
     "timestamp" := VDate (t_stamp env);
     "ip" := str_or_null (str_or (ip req) (remoteAddress req));
     "userAgent" := str_or_null (headers req !! "user-agent") ]}.

(** The [try] block of the finish callback. *)
Definition audit_try (env : Env) (l : listener) (st : State) : result State :=
  match getDb_error env with
  | Some m => Throw m
  | None =>
      let a := action env l st in
      match insert_error env with
      | Some m => Throw m
      | None =>
          match insertOne (fresh env) a (collection (db st) "actions") with
          | Ok (c, _) =>
              Ok (emit (AuditInserted a) (set_db (<[ "actions" := c ]> (db st)) st))
          | Throw m => Throw m
          end
      end
  end.

(** The finish callback: [try { ... } catch (err) { console.error(...) }].
    As an [async] function it resolves or rejects. *)
Definition audit_finish (env : Env) (l : listener) (st : State) : result State :=
  match audit_try env l st with
  | Ok st' => Ok st'
  | Throw m => Ok (emit (ConsoleError ("Audit log error: " +:+ m)) st)
  end.

(** [auditLog(req, res, next)] *)
Definition auditLog (env : Env) (req : Request)
    (next : Request → State → State) (st : State) : State :=
  let l := {| start := t_start env; logged := req |} in
  let st :=
    {| db := db st; res_statusCode := res_statusCode st;
       res_send := audit_send (res_send st);
       res_finish := res_finish st ++ [l];
       responseBody := responseBody st; trace := trace st |} in
  next req st.

(** *** The application ([index.js]) *)

(** The error handler: [res.status(err.status || 500).json({ error:
    err.message || "Internal Server Error" })]; the errors of the
    driver carry no [status]. *)
Definition error_handler (message : string) : Response :=
  error 500 (if String.eqb message EmptyString then "Internal Server Error" else message).

(** What a handler's outcome puts on the wire. *)
Definition response_of (o : outcome) : Response :=
  match o with
  | Sent r => r
  | Next m => error_handler m
  end.

(** [next(err)] leaves the router before the error handler answers:
    the ["finish"] callbacks, which read [req] when they run, find it
    without the route's parameters. *)
Definition leave_router (st : State) : State :=
  {| db := db st; res_statusCode := res_statusCode st; res_send := res_send st;
     res_finish := (λ l, {| start := start l; logged := without_params (logged l) |})
                     <$> res_finish st;
     responseBody := responseBody st; trace := trace st |}.

(** A mounted router: the matched handler runs on the database, and
    its outcome is sent, through the error handler after [next(err)]. *)
Definition route (handler : database → Request → database * outcome)
    (req : Request) (st : State) : State :=
  let '(d, o) := handler (db st) req in
  match o with
  | Sent r => respond r (set_db d st)
  | Next m => respond (error_handler m) (leave_router (set_db d st))
  end.

(** The ["finish"] event of [res]: every registered callback runs; a
    callback that rejects is an unhandled rejection. *)
Definition finish (env : Env) (st : State) : State :=
  foldl (λ st l,
           match audit_finish env l st with
           | Ok st' => st'
           | Throw m => emit (UnhandledRejection m) st
           end) st (res_finish st).

(** [app.use("/api", authenticate, auditLog, dbRouter)] and
    [app.use("/actions", authenticate, auditLog, actionsRouter)]: the
    request runs through the chain, the response is written, and
    ["finish"] fires. *)
Definition protected `{Platform} (env : Env)
    (handler : database → Request → database * outcome)
    (req : Request) (d : database) : State :=
  finish env (authenticate req (λ req, auditLog env req (route handler)) (initial d)).

(** The same mount without [auditLog], to compare with. *)
Definition protected_without_audit `{Platform}
    (handler : database → Request → database * outcome)
    (req : Request) (d : database) : State :=
  authenticate req (route handler) (initial d).

(** The responses the client received, and the audit entries written. *)
Definition received (st : State) : list Response :=
  omap (λ e, match e with ClientReceived r => Some r | _ => None end) (trace st).

Definition audited (st : State) : list obj :=
  omap (λ e, match e with AuditInserted a => Some a | _ => None end) (trace st).

(** [generateToken(payload, expiresIn = "24h")] of [auth.js] *)
Definition generateToken `{Libraries} (payload : value)
    (expiresIn : option string) : string :=
  jwt_sign payload (default "24h" expiresIn).

End Middleware.

(** ** [src/routes/authRoutes.js] *)

Module AuthRoutes.
Import Express.
Import Mongo.

(** [router.post("/login")] *)
Definition post_login `{Libraries} (db : database) (req : Request)
  : database * outcome :=
  let b := body_or_empty req in
  let username := JS.prop (Some b) "username" in
  let password := JS.prop (Some b) "password" in
  match username, password with
  | Some username, Some password =>
      if negb (JS.truthy username) || negb (JS.truthy password) then
        (db, Sent (error 400 "username and password required"))
      else
        match findOne {[ "username" := username ]} (collection db "users") with
        | None => (db, Sent (error 401 "Invalid credentials"))
        | Some user =>
            match bcrypt_compare password (user !! "password") with
            | Throw m => (db, Next m)
            | Ok false => (db, Sent (error 401 "Invalid credentials"))
            | Ok true =>
                let identity :=
                  JS.literal [("username", user !! "username");
                              ("email", user !! "email")] in
                let token := Middleware.generateToken (VObj identity) None in
                (db, Sent (ok 200 {[ "token" := VStr token;
                                     "user" := VObj identity ]}))
            end
        end
  | _, _ => (db, Sent (error 400 "username and password required"))
  end.

End AuthRoutes.

(** ** [src/config/db.js] *)

Module DbConfig.
Import Mongo.

(** A connected client, as [client.connect()] resolves to it: the uri
    it was built with, and which connection of the process it is. *)
Record Client : Type := {
  uri : string;
  connection : nat
}.

(** [cachedClient.db(dbName)] *)
Record Db : Type := {
  client : Client;
  dbName : option string
}.

#[global] Instance Client_eq_dec : EqDecision Client.
Proof. solve_decision. Defined.

#[global] Instance Db_eq_dec : EqDecision Db.
Proof. solve_decision. Defined.

(** The two module variables, and what the process has done to the
    server: how often [connect()] was called, which clients were
    closed. *)
Record Cache : Type := {
  cachedClient : option Client;
  cachedDb : option Db;
  connects : nat;
  closed : list Client
}.

(** [process.env] *)
Record ProcessEnv : Type := {
  MONGODB_URI : option string;
  MONGODB_DB : option string
}.

(** What the driver does: whether [connect()] rejects, whether
    [client.db(dbName)] throws (it refuses some database names) and
    whether [close()] rejects, each with its message. *)
Record Server : Type := {
  connect_error : option string;
  db_error : option string;
  close_error : option string
}.

Definition empty : Cache :=
  {| cachedClient := None; cachedDb := None; connects := 0; closed := [] |}.

(** [getDb()] *)
Definition getDb (env : ProcessEnv) (srv : Server) (st : Cache)
  : Cache * result Db :=
  match cachedDb st with
  | Some d => (st, Ok d)
  | None =>
      match MONGODB_URI env with
      | None => (st, Throw "MONGODB_URI is not set")
      | Some u =>
          if String.eqb u EmptyString then (st, Throw "MONGODB_URI is not set")
          else
            match connect_error srv with
            | Some m =>
                ({| cachedClient := cachedClient st; cachedDb := cachedDb st;
                    connects := S (connects st); closed := closed st |}, Throw m)
            | None =>
                let c := {| uri := u; connection := connects st |} in
                match db_error srv with
                | Some m =>
                    ({| cachedClient := Some c; cachedDb := cachedDb st;
                        connects := S (connects st); closed := closed st |}, Throw m)
                | None =>
                    let d := {| client := c; dbName := MONGODB_DB env |} in
                    ({| cachedClient := Some c; cachedDb := Some d;
                        connects := S (connects st); closed := closed st |}, Ok d)
                end
            end
      end
  end.

(** [getClient()]: it returns the variable [cachedClient], whatever it
    holds after [getDb()]. *)
Definition getClient (env : ProcessEnv) (srv : Server) (st : Cache)
  : Cache * result (option Client) :=
  match cachedClient st with
  | Some c => (st, Ok (Some c))
  | None =>
      match getDb env srv st with
      | (st', Ok _) => (st', Ok (cachedClient st'))
      | (st', Throw m) => (st', Throw m)
      end
  end.

(** [closeDb()] *)
Definition closeDb (srv : Server) (st : Cache) : Cache * result unit :=
  match cachedClient st with
  | Some c =>
      match close_error srv with
      | Some m => (st, Throw m)
      | None =>
          ({| cachedClient := None; cachedDb := None;
              connects := connects st; closed := closed st ++ [c] |}, Ok tt)
      end
  | None => (st, Ok tt)
  end.

End DbConfig.

(** ** [scripts/cleanup.js] *)

Module Cleanup.
Import Mongo.

(** [{ _seeded: true }] *)
Definition seeded : obj := {[ "_seeded" := VBool true ]}.

(** [cleanupCollection(db, collectionName)]; [failing] tells for which
    collections the server rejects the [deleteMany]. *)
Definition cleanupCollection (failing : string → option string)
    (db : database) (collectionName : string) : result (database * Z) :=
  match failing collectionName with
  | Some m => Throw m
  | None =>
      let '(c, deletedCount) := deleteMany seeded (collection db collectionName) in
      Ok (<[ collectionName := c ]> db, deletedCount)
  end.

(** What the script prints. *)
Inductive line : Type :=
| Starting
| Connected
| Removed (deleted : Z) (collectionName : string)
| ErrorCleaning (collectionName message : string)
| NothingFound
| Completed (totalDeleted : Z)
| Fatal (message : string).

(** The variables of the loop. *)
Record Progress : Type := {
  db : database;
  results : gmap string Z;
  totalDeleted : Z;
  console : list line
}.

(** One turn of [for (const collectionName of collectionNames)]. *)
Definition clean_one (failing : string → option string)
    (p : Progress) (collectionName : string) : Progress :=
  match cleanupCollection failing (db p) collectionName with
  | Ok (db', deleted) =>
      if 0 <? deleted then
        {| db := db';
           results := <[ collectionName := deleted ]> (results p);
           totalDeleted := totalDeleted p + deleted;
           console := console p ++ [Removed deleted collectionName] |}
      else
        {| db := db'; results := results p; totalDeleted := totalDeleted p;
           console := console p |}
  | Throw m =>
      {| db := db p; results := results p; totalDeleted := totalDeleted p;
         console := console p ++ [ErrorCleaning collectionName m] |}
  end.

(** The loop over the names listed before it starts. *)
Definition clean_all (failing : string → option string) (d : database) : Progress :=
  foldl (clean_one failing)
    {| db := d; results := ∅; totalDeleted := 0; console := [Starting; Connected] |}
    (listCollections d).



End Cleanup.

(** ** A concrete platform, for the examples *)

Module Sample.

Definition is_digit (c : ascii) : bool :=
  let n := nat_of_ascii c in (48 <=? n)%nat && (n <=? 57)%nat.

Definition is_hex (c : ascii) : bool :=
  let n := nat_of_ascii c in
  is_digit c || ((97 <=? n)%nat && (n <=? 102)%nat)
             || ((65 <=? n)%nat && (n <=? 70)%nat).

Fixpoint digits (s : string) (acc : Z) : option Z :=
  match s with
  | EmptyString => Some acc
  | String c rest =>
      if is_digit c then digits rest (10 * acc + (Z.of_nat (nat_of_ascii c) - 48))
      else None
  end.

(** Decimal integers with an optional sign; the empty string is 0. *)
Definition parse_decimal (s : string) : jsnum :=
  match s with
  | EmptyString => Num 0
  | String "-"%char EmptyString => NaN
  | String "-"%char rest =>
      match digits rest 0 with Some n => Num (- n) | None => NaN end
  | _ => match digits s 0 with Some n => Num n | None => NaN end
  end.

Fixpoint all_hex (s : string) : bool :=
  match s with
  | EmptyString => true
  | String c rest => is_hex c && all_hex rest
  end.

(** Twenty-four hexadecimal digits. *)
Definition parse_oid (s : string) : option string :=
  if (String.length s =? 24)%nat && all_hex s then Some s else None.

(** One token is valid: it decodes to alice. *)
Definition verify (token : string) : option value :=
  if String.eqb token "alice.jwt" then
    Some (VObj {[ "username" := VStr "alice"; "email" := VStr "alice@example.com" ]})
  else None.

(** A server that follows no path: it rejects every update with a key
    that is not a plain field name. *)
Definition no_paths (fields d : obj) : obj + string :=
  inr "Cannot resolve the update path".

(** The driver and the server: which shape [findOneAndUpdate]
    resolves to, and how many documents a single batch holds. *)
Definition platform_with (metadata : bool) (batch : nat) : Platform.
Proof.
  refine {| StringToNumber := parse_decimal;
            ObjectId := parse_oid;
            jwt_verify := verify;
            sortDocs := λ _ docs, docs;
            projectDoc := λ _ d, d;
            firstBatch := batch;
            includeResultMetadata := metadata;
            set_paths := no_paths |}; intros; discriminate.
Defined.

(** Version 5 of the driver, and the server's default batch. *)
Definition platform : Platform := platform_with true 101.



(** A server that follows a path of two parts, [a.b], into the
    embedded document [a], which it creates when [a] is missing, and
    rejects every other key that is not a plain field name, a path into
    a field that holds something else than a document, a path into a
    field that the same update sets as a whole, and a change of
    [_id]. *)

(** The text after the first [.] of a key. *)
Fixpoint rest (k : string) : string :=
  match k with
  | EmptyString => EmptyString
  | String c r => if Ascii.eqb c "."%char then r else rest r
  end.

Definition two_parts (key : string) : bool :=
  Path.plain (Path.root key) && Path.plain (rest key).

(** The keys of [fields] that are plain field names, and the others. *)
Definition names (fields : obj) : obj :=
  filter (λ p : string * value, Path.plain p.1 = true) fields.

Definition paths (fields : obj) : obj :=
  filter (λ p : string * value, Path.plain p.1 = false) fields.

(** What the keys [k.b] of [fields] put in the embedded document [k]. *)
Definition inside (k : string) (fields : obj) : obj :=
  list_to_map (omap (λ p : string * value,
                       if two_parts p.1 && String.eqb (Path.root p.1) k
                       then Some (rest p.1, p.2) else None)
                 (map_to_list fields)).

(** The embedded document in field [k]: empty when [d] has no such
    field, none when the field holds something else. *)
Definition embedded (d : obj) (k : string) : option obj :=
  match d !! k with
  | None => Some ∅
  | Some (VObj m) => Some m
  | Some _ => None
  end.

Definition follows (fields d : obj) : Prop :=
  map_Forall (λ key _, two_parts key = true
                       ∧ Path.root key ≠ "_id"
                       ∧ fields !! Path.root key = None
                       ∧ is_Some (embedded d (Path.root key))) (paths fields)
  ∧ match fields !! "_id" with
    | Some v => d !! "_id" = Some v
    | None => True
    end.

#[global] Instance follows_dec (fields d : obj) : Decision (follows fields d).
Proof. unfold follows. destruct (fields !! "_id"); apply _. Defined.

Definition two_part_paths (fields d : obj) : obj + string :=
  if bool_decide (follows fields d) then
    inl (names fields
         ∪ map_imap (λ k _, Some (VObj (inside k fields ∪ default ∅ (embedded d k))))
             (gset_to_gmap tt (set_map (D:=gset string) Path.root (dom (paths fields))))
         ∪ d)
  else inr "Cannot create field in element".

(** Version 5 of the driver in front of that server. *)
Definition nested : Platform.
Proof.
  assert (Hplain : ∀ k, Path.plain k = true → Path.root k = k).
  { intros k [_ Hk]%andb_prop. induction k as [|c k IH]; [reflexivity|].
    cbn [Path.plain_chars Path.root] in *. apply andb_prop in Hk as [Hc Hk].
    unfold Path.plain_char in Hc.
    apply andb_prop in Hc as [[Hdot _]%andb_prop _]. apply negb_true_iff in Hdot.
    rewrite Hdot, IH by exact Hk. reflexivity. }
  assert (Hnames : ∀ fields k,
            names fields !! k = if Path.plain k then fields !! k else None).
  { intros fields k. unfold names. destruct (Path.plain k) eqn:Hp.
    - destruct (fields !! k) as [v|] eqn:Hk.
      + apply map_lookup_filter_Some. split; [exact Hk | exact Hp].
      + apply map_lookup_filter_None. left. exact Hk.
    - apply map_lookup_filter_None. right. intros v _. cbn. rewrite Hp. discriminate. }
  assert (Hroots : ∀ fields k,
            k ∈ set_map (D:=gset string) Path.root (dom (paths fields))
            ↔ ∃ key, is_Some (fields !! key) ∧ Path.plain key = false
                     ∧ Path.root key = k).
  { intros fields k. rewrite elem_of_map. split.
    - intros (key & -> & Hkey). apply elem_of_dom in Hkey as [v Hv].
      apply map_lookup_filter_Some in Hv as [Hv Hp]. exists key. eauto.
    - intros (key & [v Hv] & Hp & <-). exists key. split; [reflexivity|].
      apply elem_of_dom. exists v. apply map_lookup_filter_Some. split; assumption. }
  assert (Hlookup : ∀ fields d d' k, two_part_paths fields d = inl d' →
            d' !! k
            = match names fields !! k with
              | Some v => Some v
              | None =>
                  if bool_decide
                       (k ∈ set_map (D:=gset string) Path.root (dom (paths fields)))
                  then Some (VObj (inside k fields ∪ default ∅ (embedded d k)))
                  else d !! k
              end).
  { intros fields d d' k. unfold two_part_paths.
    case_bool_decide; [|discriminate]. intros Heq. injection Heq as <-.
    rewrite !lookup_union, map_lookup_imap, lookup_gset_to_gmap.
    case_bool_decide as Hk.
    - rewrite option_guard_True by exact Hk. cbn.
      destruct (names fields !! k), (d !! k); reflexivity.
    - rewrite option_guard_False by exact Hk. cbn.
      destruct (names fields !! k), (d !! k); reflexivity. }
  assert (Hroot : ∀ fields d d' k, two_part_paths fields d = inl d' →
            (∀ key, is_Some (fields !! key) → Path.root key ≠ k) →
            d' !! k = d !! k).
  { intros fields d d' k Hs Hk. rewrite (Hlookup fields d d' k Hs), Hnames.
    destruct (Path.plain k) eqn:Hp.
    - destruct (fields !! k) as [v|] eqn:Hv.
      { exfalso. apply (Hk k); [eauto | apply Hplain; exact Hp]. }
      rewrite bool_decide_eq_false_2; [reflexivity|].
      intros (key & Hkey & _ & Hr)%Hroots. exact (Hk key Hkey Hr).
    - rewrite bool_decide_eq_false_2; [reflexivity|].
      intros (key & Hkey & _ & Hr)%Hroots. exact (Hk key Hkey Hr). }
  assert (Hfield : ∀ fields d d' k v, two_part_paths fields d = inl d' →
            Path.plain k = true → fields !! k = Some v → d' !! k = Some v).
  { intros fields d d' k v Hs Hp Hv.
    rewrite (Hlookup fields d d' k Hs), Hnames, Hp, Hv. reflexivity. }
  refine {| StringToNumber := parse_decimal;
            ObjectId := parse_oid;
            jwt_verify := verify;
            sortDocs := λ _ docs, docs;
            projectDoc := λ _ d, d;
            firstBatch := 101;
            includeResultMetadata := true;
            set_paths := two_part_paths |}.
  - intros fields d d' Hs. assert (Hf : follows fields d).
    { unfold two_part_paths in Hs. case_bool_decide; [assumption | discriminate]. }
    destruct Hf as [Hpaths Hid]. destruct (fields !! "_id") as [v|] eqn:Hv.
    + rewrite Hid. apply (Hfield fields d d' _ v Hs); [reflexivity | exact Hv].
    + apply (Hroot fields d d' _ Hs). intros key [x Hx] Hr.
      destruct (Path.plain key) eqn:Hp.
      * rewrite (Hplain key Hp) in Hr. congruence.
      * assert (Hin : paths fields !! key = Some x)
          by (apply map_lookup_filter_Some; split; assumption).
        destruct (Hpaths key x Hin) as (_ & Hne & _). exact (Hne Hr).
  - exact Hroot.
  - exact Hfield.
  - intros fields d d' key Hs Hkey. rewrite (Hlookup fields d d' _ Hs).
    destruct (names fields !! Path.root key) as [v|] eqn:Hn; [eauto|].
    destruct (Path.plain key) eqn:Hp.
    + exfalso. rewrite (Hplain key Hp), Hnames, Hp in Hn.
      destruct Hkey as [v Hv]. congruence.
    + rewrite bool_decide_eq_true_2; [eauto|]. apply Hroots. exists key. auto.
Defined.

Definition alice : value :=
  VObj {[ "username" := VStr "alice"; "email" := VStr "alice@example.com" ]}.

Definition bob : value :=
  VObj {[ "username" := VStr "bob"; "email" := VStr "bob@example.com" ]}.

Definition widget_id : string := "64b7f0c2a1d3e4f5a6b7c8d9".

(** A request to [/api/collections/:name/documents/:id]. *)
Definition request (who : option value) (name id : string)
    (payload : option value) : Express.Request :=
  {| Express.user := who;
     Express.method := "POST";
     Express.originalUrl := Some ("/api/collections/" +:+ name);
     Express.url := "/collections/" +:+ name;
     Express.params := {[ "name" := name; "id" := id ]};
     Express.query := ∅;
     Express.body := payload;
     Express.ip := Some "127.0.0.1";
     Express.remoteAddress := None;
     Express.headers := {[ "authorization" := "Bearer alice.jwt";
                           "user-agent" := "jest" ]} |}.

(** The widget alice created at time 1000. *)
Definition widget : obj :=
  {[ "_id" := VOid widget_id; "name" := VStr "Widget";
     "created_at" := VDate 1000; "created_by" := VStr "alice" ]}.

(** The same widget after bob soft-deleted it at time 2000. *)
Definition deleted_widget : obj :=
  {[ "_id" := VOid widget_id; "name" := VStr "Widget";
     "created_at" := VDate 1000; "created_by" := VStr "alice";
     "deleted_at" := VDate 2000; "deleted_by" := VStr "bob" ]}.

Definition shop : Mongo.database := {[ "items" := [widget] ]}.


Definition shop_after_delete : Mongo.database := {[ "items" := [deleted_widget] ]}.

(** The clock moves forward and the store is up. *)
Definition calm : Middleware.Env :=
  {| Middleware.t_start := 5000; Middleware.t_finish := 5012;
     Middleware.t_stamp := 5012; Middleware.getDb_error := None;
     Middleware.insert_error := None;
     Middleware.fresh := "64b7f0c2a1d3e4f5a6b7c8da" |}.

(** The store drops the connection before the audit entry is written. *)
Definition outage : Middleware.Env :=
  {| Middleware.t_start := 5000; Middleware.t_finish := 5012;
     Middleware.t_stamp := 5012; Middleware.getDb_error := None;
     Middleware.insert_error := Some "connection closed";
     Middleware.fresh := "64b7f0c2a1d3e4f5a6b7c8da" |}.


(** [trim] on ASCII blanks. *)
Definition is_blank (c : ascii) : bool :=
  let n := nat_of_ascii c in
  ((9 <=? n)%nat && (n <=? 13)%nat) || (n =? 32)%nat.

Fixpoint trim_start (s : string) : string :=
  match s with
  | EmptyString => EmptyString
  | String c rest => if is_blank c then trim_start rest else s
  end.

Fixpoint trim_end (s : string) : string :=
  match s with
  | EmptyString => EmptyString
  | String c rest =>
      match trim_end rest with
      | EmptyString => if is_blank c then EmptyString else String c EmptyString
      | t => String c t
      end
  end.

(** The hash of a password is the password with a prefix; only
    strings compare. *)
Definition compare (password : value) (hash : option value) : Mongo.result bool :=
  match password, hash with
  | VStr p, Some (VStr h) => Mongo.Ok (String.eqb h ("hash:" +:+ p))
  | _, _ => Mongo.Throw "Illegal arguments"
  end.

(** Alice's identity signs to the one valid token. *)
Definition sign (payload : value) (expiresIn : string) : string :=
  if bool_decide (payload = alice) then "alice.jwt" else "other.jwt".

Definition libraries : Libraries :=
  {| String_trim := λ s, trim_end (trim_start s);
     JSON_parse := λ _, None;
     bcrypt_compare := compare;
     jwt_sign := sign |}.

(** The account of alice in the [users] collection. *)
Definition alice_account : obj :=
  {[ "_id" := VOid "64b7f0c2a1d3e4f5a6b7c8d0"; "username" := VStr "alice";
     "email" := VStr "alice@example.com"; "password" := VStr "hash:wonderland" ]}.

Definition realm : Mongo.database := {[ "users" := [alice_account] ]}.

(** Two seeded documents among three. *)
Definition seeded_shop : Mongo.database :=
  {[ "items" := [ widget;
                  {[ "_id" := VOid "64b7f0c2a1d3e4f5a6b7c8d1"; "_seeded" := VBool true ]};
                  {[ "_id" := VOid "64b7f0c2a1d3e4f5a6b7c8d2"; "_seeded" := VBool true;
                     "deleted_at" := VDate 2000 ]} ] ]}.

Definition production : DbConfig.ProcessEnv :=
  {| DbConfig.MONGODB_URI := Some "mongodb://localhost:27017";
     DbConfig.MONGODB_DB := Some "projectv" |}.

Definition server_up : DbConfig.Server :=
  {| DbConfig.connect_error := None; DbConfig.db_error := None;
     DbConfig.close_error := None |}.

End Sample.

(** * Properties *)

Import Express.
Import Mongo.
Import SoftDelete.

(** A document is active when it has no [deleted_at]. *)
Definition is_active (d : obj) : bool := bool_decide (d !! "deleted_at" = None).

(** No document of the collection has this [_id]. *)
Definition absent (c : list obj) (oid : string) : Prop :=
  Forall (λ d, d !! "_id" ≠ Some (VOid oid)) c.

(** The collection has a document with this [_id], and it carries
    [deleted_at]. *)
Definition soft_deleted (c : list obj) (oid : string) : Prop :=
  Exists (λ d, d !! "_id" = Some (VOid oid)) c
  ∧ Forall (λ d, d !! "_id" = Some (VOid oid) → d !! "deleted_at" ≠ None) c.

(** The request names a collection and a document and carries an
    object (or nothing) as its body: none of the handler's own checks
    rejects it. *)
Definition well_formed (req : Request) : Prop :=
  param req "name" ≠ EmptyString ∧ param req "id" ≠ EmptyString
  ∧ JS.not_plain_object (body_or_empty req) = false.

(** The filter a delete or find route takes from the body:
    [const { filter = {} } = req.body || {}]. *)
Definition requested_filter (req : Request) : value :=
  default (VObj ∅) (JS.prop (Some (body_or_empty req)) "filter").

(** Two databases hold the same documents in every collection. *)
Definition same_documents (db db' : database) : Prop :=
  ∀ n, collection db' n = collection db n.

(** Field [k] has the same value (or is missing) in [d] and [d']. *)
Definition same_field (k : string) (d d' : obj) : Prop := d' !! k = d !! k.

(** Every key of [fields] is a plain field name. *)
Definition plain_keys (fields : obj) : Prop :=
  map_Forall (λ key _, Path.plain key = true) fields.

(** No key of [fields] is the field [k] or a path that starts in it. *)
Definition untouched (k : string) (fields : obj) : Prop :=
  map_Forall (λ key _, Path.root key ≠ k) fields.

#[global] Instance plain_keys_dec (fields : obj) : Decision (plain_keys fields).
Proof. unfold plain_keys. apply _. Defined.

#[global] Instance untouched_dec (k : string) (fields : obj) :
  Decision (untouched k fields).
Proof. unfold untouched. apply _. Defined.

(** [d'] is [d] after an update by [who] at [now] whose body is
    [caller]: [updated_at] and [updated_by] hold the policy's values;
    each key of the body that is a plain field name, these two apart,
    holds the caller's value; and each other field that no key of the
    body starts in is as it was. *)
Definition updated (now : Z) (who : value) (caller d d' : obj) : Prop :=
  d' !! "updated_at" = Some (VDate now)
  ∧ d' !! "updated_by" = Some who
  ∧ (∀ k v, Path.plain k = true → k ≠ "updated_at" → k ≠ "updated_by" →
            caller !! k = Some v → d' !! k = Some v)
  ∧ (∀ k, k ≠ "updated_at" → k ≠ "updated_by" → untouched k caller →
          d' !! k = d !! k).

(** The collection holds an active document with this [_id]. *)
Definition visible (c : list obj) (oid : string) : Prop :=
  Exists (λ d, d !! "_id" = Some (VOid oid) ∧ is_active d = true) c.

(** The request carries a bearer token that [jwt.verify] accepts and
    decodes to [decoded]. *)
Definition authenticated `{Platform} (req : Request) (decoded : value) : Prop :=
  ∃ authHeader,
    headers req !! "authorization" = Some authHeader
    ∧ String.prefix "Bearer " authHeader = true
    ∧ jwt_verify (Middleware.bearer_token authHeader) = Some decoded.

(** The store takes the audit entry: [getDb()] resolves, [insertOne]
    resolves, and the generated [_id] is not taken. *)
Definition audit_write_ok (env : Middleware.Env) (d : database) : Prop :=
  Middleware.getDb_error env = None
  ∧ Middleware.insert_error env = None
  ∧ ¬ Exists (λ a : obj, a !! "_id" = Some (VOid (Middleware.fresh env)))
        (collection d "actions").

(** The store refuses the audit entry with message [m]: [getDb()]
    rejects, or it resolves and [insertOne] rejects. *)
Definition audit_write_fails (env : Middleware.Env) (m : string) : Prop :=
  Middleware.getDb_error env = Some m
  ∨ (Middleware.getDb_error env = None ∧ Middleware.insert_error env = Some m).

(** The request as the ["finish"] callback reads it, after the handler
    ended with [o]. *)
Definition logged_request (o : outcome) (req : Request) : Request :=
  match o with
  | Sent _ => req
  | Next _ => Middleware.without_params req
  end.

(** The response object after [auditLog] ran and the handler answered
    [r], when ["finish"] is about to fire. *)
Definition answered (env : Middleware.Env) (req : Request) (d : database)
    (r : Response) : Middleware.State :=
  {| Middleware.db := d;
     Middleware.res_statusCode := statusCode r;
     Middleware.res_send := Middleware.audit_send Middleware.express_send;
     Middleware.res_finish :=
       [ {| Middleware.start := Middleware.t_start env; Middleware.logged := req |} ];
     Middleware.responseBody := Some (payload r);
     Middleware.trace := [Middleware.ClientReceived r] |}.

(** The documents the client is sent by a find route. *)
Definition documents_sent (field : string) (o : outcome) : list value :=
  match o with
  | Sent {| statusCode := _; payload := VObj m |} =>
      match m !! field with
      | Some (VArr l) => l
      | _ => []
      end
  | _ => []
  end.

(** The [_id] of each document of a collection, in order. *)
Definition ids (c : list obj) : list (option value) := (λ d : obj, d !! "_id") <$> c.

(** The same request with another body. *)
Definition with_body (b : option value) (req : Request) : Request :=
  {| user := user req; method := method req; originalUrl := originalUrl req;
     url := url req; params := params req; query := query req; body := b;
     ip := ip req; remoteAddress := remoteAddress req; headers := headers req |}.

(** The same request with another [authorization] header. *)
Definition with_authorization (h : string) (req : Request) : Request :=
  {| user := user req; method := method req; originalUrl := originalUrl req;
     url := url req; params := params req; query := query req; body := body req;
     ip := ip req; remoteAddress := remoteAddress req;
     headers := <[ "authorization" := h ]> (headers req) |}.

(** The cursor's sort stage reorders its input and does nothing else. *)
Definition sort_permutes `{Platform} : Prop := ∀ s l, sortDocs s l ≡ₚ l.

(** The string has no space in it. *)
Fixpoint spaceless (s : string) : bool :=
  match s with
  | EmptyString => true
  | String c rest => negb (Ascii.eqb c " "%char) && spaceless rest
  end.

(** The connection cache of [db.js] is coherent: a cached database
    belongs to the cached client. *)
Definition coherent (st : DbConfig.Cache) : Prop :=
  ∀ d, DbConfig.cachedDb st = Some d → DbConfig.cachedClient st = Some (DbConfig.client d).

(** A document carries [_seeded: true]. *)
Definition is_seeded (d : obj) : bool := bool_decide (d !! "_seeded" = Some (VBool true)).

(** Two user documents carry the same [username], [password] and
    [email]. *)
Definition same_account (u u' : obj) : Prop :=
  same_field "username" u u' ∧ same_field "password" u u' ∧ same_field "email" u u'.

(** A call of one of the three exports of [db.js], with the
    environment and the server it finds. *)
Inductive call : Type :=
| GetDb (env : DbConfig.ProcessEnv) (srv : DbConfig.Server)
| GetClient (env : DbConfig.ProcessEnv) (srv : DbConfig.Server)
| CloseDb (srv : DbConfig.Server).

Definition after_call (st : DbConfig.Cache) (c : call) : DbConfig.Cache :=
  match c with
  | GetDb env srv => fst (DbConfig.getDb env srv st)
  | GetClient env srv => fst (DbConfig.getClient env srv st)
  | CloseDb srv => fst (DbConfig.closeDb srv st)
  end.

(** The module variables after a sequence of calls, in a process that
    starts with both of them [null]. *)
Definition after_calls (calls : list call) : DbConfig.Cache :=
  foldl after_call DbConfig.empty calls.

(** The cache is coherent and what it holds is open: connections are
    numbered in the order they were made, so a cached client, and every
    closed one, was made before now, and the cached client is not among
    the closed ones. *)
Definition sound_cache (st : DbConfig.Cache) : Prop :=
  coherent st
  ∧ (∀ c, c ∈ DbConfig.closed st → (DbConfig.connection c < DbConfig.connects st)%nat)
  ∧ (∀ c, DbConfig.cachedClient st = Some c →
          (DbConfig.connection c < DbConfig.connects st)%nat
          ∧ c ∉ DbConfig.closed st).

(** How many documents of the collections of [d] are gone in [d']. *)
Definition removed (d d' : database) : Z :=
  foldr Z.add 0
    ((λ n, Z.of_nat (length (collection d n)) - Z.of_nat (length (collection d' n)))
       <$> listCollections d).

(** ** The unit tests of [softDelete.test.js] *)

Example addSoftDeleteFilter_no_filter :
  addSoftDeleteFilter None = {[ "deleted_at" := VObj {[ "$exists" := VBool false ]} ]}.
Proof. vm_compute. reflexivity. Qed.

Example addSoftDeleteFilter_existing_filter :
  addSoftDeleteFilter
    (Some (VObj {[ "status" := VStr "active"; "age" := VObj {[ "$gte" := VNum 21 ]} ]}))
  = {[ "status" := VStr "active"; "age" := VObj {[ "$gte" := VNum 21 ]};
       "deleted_at" := VObj {[ "$exists" := VBool false ]} ]}.
Proof. vm_compute. reflexivity. Qed.

Example getCreateMetadata_user :
  getCreateMetadata 7 (Some (VObj {[ "username" := VStr "testuser";
                                     "email" := VStr "test@example.com" ]}))
  = {[ "created_at" := VDate 7; "created_by" := VStr "testuser" ]}.
Proof. vm_compute. reflexivity. Qed.

Example getUpdateMetadata_no_user :
  getUpdateMetadata 7 (Some VNull)
  = {[ "updated_at" := VDate 7; "updated_by" := VStr "system" ]}.
Proof. vm_compute. reflexivity. Qed.

Example getDeleteMetadata_no_username :
  getDeleteMetadata 7 (Some (VObj ∅))
  = {[ "deleted_at" := VDate 7; "deleted_by" := VStr "system" ]}.
Proof. vm_compute. reflexivity. Qed.

(** ** Filters *)

Lemma holds_not_exists (f : option value) :
  holds not_exists f = bool_decide (f = None).
Proof.
  unfold holds, not_exists.
  replace (operator_doc (VObj {[ "$exists" := VBool false ]}))
    with (Some ({[ "$exists" := VBool false ]} : obj)) by (vm_compute; reflexivity).
  apply bool_decide_ext. rewrite map_Forall_singleton.
  destruct f as [x|]; cbn; split; intros; congruence.
Qed.

Lemma matches_insert (k : string) (c : value) (P d : obj) :
  matches (<[ k := c ]> P) d = holds c (d !! k) && matches (delete k P) d.
Proof.
  unfold matches. rewrite <- (insert_delete_eq P k c).
  destruct (holds c (d !! k)) eqn:Hc; cbn.
  - apply bool_decide_ext. rewrite map_Forall_insert by apply lookup_delete_eq.
    tauto.
  - apply bool_decide_eq_false. rewrite map_Forall_insert by apply lookup_delete_eq.
    intros [Hk _]. congruence.
Qed.

Lemma matches_soft_delete_filter (v : value) (d : obj) :
  matches (addSoftDeleteFilter (Some v)) d
  = is_active d && matches (delete "deleted_at" (JS.spread v)) d.
Proof.
  unfold addSoftDeleteFilter. change (default (VObj ∅) (Some v)) with v.
  rewrite matches_insert, holds_not_exists. reflexivity.
Qed.

Lemma matches_singleton (k : string) (c : value) (d : obj) :
  matches {[ k := c ]} d = holds c (d !! k).
Proof.
  unfold matches. destruct (holds c (d !! k)) eqn:Hc.
  - apply bool_decide_eq_true. rewrite map_Forall_singleton. exact Hc.
  - apply bool_decide_eq_false. rewrite map_Forall_singleton. congruence.
Qed.

Lemma holds_oid (oid : string) (f : option value) :
  holds (VOid oid) f = bool_decide (f = Some (VOid oid)).
Proof.
  unfold holds; cbn. destruct f as [x|]; cbn.
  - apply bool_decide_ext. split; congruence.
  - symmetry. apply bool_decide_eq_false. congruence.
Qed.

Lemma matches_active_by_id (oid : string) (d : obj) :
  matches (addSoftDeleteFilter (Some (DbRoutes.by_id oid))) d
  = is_active d && bool_decide (d !! "_id" = Some (VOid oid)).
Proof.
  unfold DbRoutes.by_id. rewrite matches_soft_delete_filter. cbn [JS.spread].
  rewrite delete_singleton_ne by discriminate.
  rewrite matches_singleton, holds_oid. reflexivity.
Qed.

(** C1, as stated, fails: a filter that asks for deleted documents is
    overridden, not conjoined.  [{ deleted_at: { $exists: true } }]
    matches no active document, yet after [addSoftDeleteFilter] it
    matches the active document [{ name: "Widget" }]. *)
Lemma addSoftDeleteFilter_not_conjunction :
  let P : obj := {[ "deleted_at" := VObj {[ "$exists" := VBool true ]} ]} in
  let d : obj := {[ "name" := VStr "Widget" ]} in
  matches (addSoftDeleteFilter (Some (VObj P))) d = true
  ∧ matches P d && is_active d = false.
Proof. split; vm_compute; reflexivity. Qed.

(** C1 (amended): the filter [addSoftDeleteFilter] returns matches a
    document exactly when the document has no [deleted_at] and matches
    the caller's filter with its own [deleted_at] constraint dropped; for
    a filter without a [deleted_at] constraint this is the conjunction of
    the caller's filter with "[deleted_at] is absent".  On the heap, the
    result is a new object and every object that existed before the
    call, the argument included, is as it was. *)
Theorem addSoftDeleteFilter_overrides (P d : obj) (h : heap) (r : option nat) :
  matches (addSoftDeleteFilter (Some (VObj P))) d
    = matches (delete "deleted_at" P) d && is_active d
  ∧ (P !! "deleted_at" = None →
     matches (addSoftDeleteFilter (Some (VObj P))) d = matches P d && is_active d)
  ∧ take (length h) (fst (addSoftDeleteFilter_ref h r)) = h
  ∧ h !! snd (addSoftDeleteFilter_ref h r) = None
  ∧ fst (addSoftDeleteFilter_ref h r) !! snd (addSoftDeleteFilter_ref h r)
    = Some (addSoftDeleteFilter (deref h r)).
Proof.
  rewrite matches_soft_delete_filter. cbn [JS.spread]. repeat split.
  - apply andb_comm.
  - intros HP. rewrite delete_id by exact HP. apply andb_comm.
  - unfold addSoftDeleteFilter_ref, fst. apply take_app_length.
  - unfold addSoftDeleteFilter_ref, snd. apply lookup_ge_None. lia.
  - unfold addSoftDeleteFilter_ref, fst, snd.
    rewrite lookup_app_r by lia. rewrite Nat.sub_diag. reflexivity.
Qed.

Lemma addSoftDeleteFilter_overrides_witness :
  let P : obj := {[ "status" := VStr "active"; "age" := VObj {[ "$gte" := VNum 21 ]} ]} in
  let d : obj := {[ "status" := VStr "active"; "age" := VNum 30 ]} in
  P !! "deleted_at" = None
  ∧ matches (addSoftDeleteFilter (Some (VObj P))) d = matches P d && is_active d.
Proof.
  intros P d. split.
  - vm_compute. reflexivity.
  - apply (addSoftDeleteFilter_overrides P d [P] (Some 0%nat)).
    vm_compute. reflexivity.
Defined.

(** ** The driver on a collection where nothing matches *)

Lemma findOne_none (filter : obj) (c : list obj) :
  Forall (λ d, matches filter d = false) c → findOne filter c = None.
Proof.
  unfold findOne. induction 1 as [|d c Hd _ IH]; cbn; [reflexivity|].
  rewrite Hd. exact IH.
Qed.

Lemma findOneAndUpdate_none `{Platform} (filter fields : obj) (c : list obj) :
  Forall (λ d, matches filter d = false) c →
  findOneAndUpdate filter fields c = Ok (c, None).
Proof.
  induction 1 as [|d c Hd _ IH]; cbn; [reflexivity|].
  rewrite Hd, IH. reflexivity.
Qed.

Lemma updateOne_none `{Platform} (filter fields : obj) (c : list obj) :
  Forall (λ d, matches filter d = false) c →
  updateOne filter fields c = Ok (c, 0).
Proof.
  induction 1 as [|d c Hd _ IH]; cbn; [reflexivity|].
  rewrite Hd, IH. reflexivity.
Qed.

Lemma updateMany_none `{Platform} (filter fields : obj) (c : list obj) :
  Forall (λ d, matches filter d = false) c →
  updateMany filter fields c = Ok (c, 0).
Proof.
  induction 1 as [|d c Hd _ IH]; cbn; [reflexivity|].
  rewrite IH, Hd. reflexivity.
Qed.

Lemma absent_no_match (c : list obj) (oid : string) :
  absent c oid →
  Forall (λ d, matches (addSoftDeleteFilter (Some (DbRoutes.by_id oid))) d = false) c.
Proof.
  unfold absent. intros Hc. eapply Forall_impl; [exact Hc|]. intros d Hd. cbn beta in Hd.
  rewrite matches_active_by_id. apply andb_false_intro2.
  apply bool_decide_eq_false. exact Hd.
Qed.

Lemma soft_deleted_no_match (c : list obj) (oid : string) :
  soft_deleted c oid →
  Forall (λ d, matches (addSoftDeleteFilter (Some (DbRoutes.by_id oid))) d = false) c.
Proof.
  intros [_ Hall]. eapply Forall_impl; [exact Hall|]. intros d Hd. cbn beta in Hd.
  rewrite matches_active_by_id. unfold is_active.
  destruct (decide (d !! "_id" = Some (VOid oid))) as [Hid|Hid].
  - apply andb_false_intro1. apply bool_decide_eq_false. auto.
  - apply andb_false_intro2. apply bool_decide_eq_false. exact Hid.
Qed.

Lemma same_documents_rewrite (db : database) (name : string) :
  same_documents db (<[ name := collection db name ]> db).
Proof.
  intros n. unfold collection.
  destruct (decide (name = n)) as [->|Hn].
  - rewrite lookup_insert_eq. reflexivity.
  - rewrite lookup_insert_ne by exact Hn. reflexivity.
Qed.

Lemma collection_insert (db : database) (name n : string) (c : list obj) :
  collection (<[ name := c ]> db) n = if decide (name = n) then c else collection db n.
Proof.
  unfold collection. destruct (decide (name = n)) as [->|Hn].
  - rewrite lookup_insert_eq. reflexivity.
  - rewrite lookup_insert_ne by exact Hn. reflexivity.
Qed.


(** ** Handlers on a document that is missing or soft-deleted *)


Lemma get_document_hidden `{Platform} (db : database) (req : Request) (oid : string) :
  ObjectId (param req "id") = Some oid →
  Forall (λ d, matches (addSoftDeleteFilter (Some (DbRoutes.by_id oid))) d = false)
    (collection db (param req "name")) →
  DbRoutes.get_document db req = (db, Sent (error 404 "Document not found")).
Proof.
  intros Hoid Hc. unfold DbRoutes.get_document.
  rewrite Hoid, findOne_none by exact Hc. reflexivity.
Qed.

Lemma delete_document_hidden `{Platform} (now : Z) (db : database)
    (req : Request) (oid : string) :
  ObjectId (param req "id") = Some oid →
  Forall (λ d, matches (addSoftDeleteFilter (Some (DbRoutes.by_id oid))) d = false)
    (collection db (param req "name")) →
  DbRoutes.delete_document now db req
  = (<[ param req "name" := collection db (param req "name") ]> db,
     Sent (error 404 "Document not found")).
Proof.
  intros Hoid Hc. unfold DbRoutes.delete_document.
  rewrite Hoid, updateOne_none by exact Hc. reflexivity.
Qed.





(** C6: for the three by-identifier routes, the answer for a document
    that does not exist and the answer for a document that exists but
    is soft-deleted are the same response, status and body: 404
    "Document not found" from GET and DELETE, and from PATCH the same
    answer in both cases whatever the body. *)
Theorem not_found_hides_deletion `{Platform} (now : Z)
    (db_missing db_deleted : database) (req : Request) (oid : string) :
  ObjectId (param req "id") = Some oid →
  absent (collection db_missing (param req "name")) oid →
  soft_deleted (collection db_deleted (param req "name")) oid →
  snd (DbRoutes.get_document db_missing req) = snd (DbRoutes.get_document db_deleted req)
  ∧ snd (DbRoutes.patch_document now db_missing req)
    = snd (DbRoutes.patch_document now db_deleted req)
  ∧ snd (DbRoutes.delete_document now db_missing req)
    = snd (DbRoutes.delete_document now db_deleted req)
  ∧ snd (DbRoutes.get_document db_deleted req) = Sent (error 404 "Document not found")
  ∧ snd (DbRoutes.delete_document now db_deleted req)
    = Sent (error 404 "Document not found").
Proof.
  intros Hoid Hmiss Hdel.
  apply absent_no_match in Hmiss. apply soft_deleted_no_match in Hdel.
  rewrite !(get_document_hidden _ req oid Hoid) by assumption.
  rewrite !(delete_document_hidden now _ req oid Hoid) by assumption.
  repeat split.
  unfold DbRoutes.patch_document. rewrite Hoid.
  rewrite !findOneAndUpdate_none by assumption.
  repeat (case_match; try reflexivity).
Qed.

Lemma not_found_hides_deletion_witness :
  let req := Sample.request (Some Sample.alice) "items" Sample.widget_id None in
  let db_missing : database := {[ "items" := [] ]} in
  let db_deleted := Sample.shop_after_delete in
  absent (collection db_missing (param req "name")) Sample.widget_id
  ∧ soft_deleted (collection db_deleted (param req "name")) Sample.widget_id
  ∧ snd (@DbRoutes.get_document Sample.platform db_missing req)
    = snd (@DbRoutes.get_document Sample.platform db_deleted req).
Proof.
  intros req db_missing db_deleted.
  assert (Hmiss : absent (collection db_missing (param req "name")) Sample.widget_id)
    by compute_done.
  assert (Hdel : soft_deleted (collection db_deleted (param req "name")) Sample.widget_id)
    by (split; compute_done).
  split; [exact Hmiss|]. split; [exact Hdel|].
  apply (@not_found_hides_deletion Sample.platform 3000 db_missing db_deleted req
           Sample.widget_id); [vm_compute; reflexivity | exact Hmiss | exact Hdel].
Defined.

(** ** Soft delete by filter *)

Lemma root_plain_chars (k : string) : Path.plain_chars k = true → Path.root k = k.
Proof.
  induction k as [|c k IH]; cbn [Path.plain_chars Path.root]; [reflexivity|].
  intros [Hc Hk]%andb_prop. unfold Path.plain_char in Hc.
  apply andb_prop in Hc as [[Hdot _]%andb_prop _]. apply negb_true_iff in Hdot.
  rewrite Hdot, IH by exact Hk. reflexivity.
Qed.

Lemma root_plain (k : string) : Path.plain k = true → Path.root k = k.
Proof. intros [_ Hk]%andb_prop. apply root_plain_chars. exact Hk. Qed.

Lemma plain_untouched (k : string) (fields : obj) :
  plain_keys fields → untouched k fields → fields !! k = None.
Proof.
  intros Hp Hu. destruct (fields !! k) as [v|] eqn:Hk; [|reflexivity].
  exfalso. apply (Hu k v Hk), root_plain. exact (Hp k v Hk).
Qed.

Lemma set_fields_without_id `{Platform} (fields d : obj) :
  plain_keys fields → fields !! "_id" = None → set_fields fields d = Ok (fields ∪ d).
Proof.
  intros Hp Hf. unfold set_fields. rewrite bool_decide_eq_true_2 by exact Hp.
  rewrite Hf. reflexivity.
Qed.

Lemma updateMany_shape `{Platform} (filter fields : obj) (c : list obj) :
  plain_keys fields → fields !! "_id" = None →
  ∃ n, updateMany filter fields c
       = Ok ((λ d, if matches filter d then fields ∪ d else d) <$> c, n).
Proof.
  intros Hp Hf. induction c as [|d c [n IH]]; cbn.
  - exists 0. reflexivity.
  - rewrite IH. destruct (matches filter d).
    + rewrite set_fields_without_id by assumption. eexists. reflexivity.
    + eexists. reflexivity.
Qed.

Lemma delete_metadata_plain (now : Z) (u : option value) :
  plain_keys (getDeleteMetadata now u).
Proof.
  unfold plain_keys, getDeleteMetadata.
  apply map_Forall_insert_2; [reflexivity|]. apply map_Forall_singleton. reflexivity.
Qed.

Lemma delete_metadata_untouched (now : Z) (u : option value) (k : string) :
  k ≠ "deleted_at" → k ≠ "deleted_by" → untouched k (getDeleteMetadata now u).
Proof.
  intros H1 H2. unfold untouched, getDeleteMetadata.
  apply map_Forall_insert_2; [cbn; congruence|].
  apply map_Forall_singleton. cbn. congruence.
Qed.

Lemma update_metadata_untouched (now : Z) (u : option value) (k : string) :
  k ≠ "updated_at" → k ≠ "updated_by" → untouched k (getUpdateMetadata now u).
Proof.
  intros H1 H2. unfold untouched, getUpdateMetadata.
  apply map_Forall_insert_2; [cbn; congruence|].
  apply map_Forall_singleton. cbn. congruence.
Qed.

Lemma untouched_union (k : string) (a b : obj) :
  untouched k a → untouched k b → untouched k (a ∪ b).
Proof.
  intros Ha Hb key v Hv. apply lookup_union_Some_raw in Hv as [Hv | [_ Hv]].
  - exact (Ha key v Hv).
  - exact (Hb key v Hv).
Qed.

Lemma set_fields_id `{Platform} (fields d d' : obj) :
  set_fields fields d = Ok d' → d' !! "_id" = d !! "_id".
Proof.
  unfold set_fields. case_bool_decide as Hp.
  - destruct (fields !! "_id") as [v|] eqn:Hv.
    + case_bool_decide as Hd; [|discriminate]. intros Hd'. injection Hd' as <-.
      rewrite Hd. apply lookup_union_Some_l. exact Hv.
    + intros Hd'. injection Hd' as <-. apply lookup_union_r. exact Hv.
  - destruct (set_paths fields d) as [d1|m] eqn:Hs; [|discriminate].
    intros Hd'. injection Hd' as <-. eapply set_paths_id. exact Hs.
Qed.

Lemma set_fields_result `{Platform} (fields d d' : obj) :
  plain_keys fields → set_fields fields d = Ok d' → d' = fields ∪ d.
Proof.
  intros Hp. unfold set_fields. rewrite bool_decide_eq_true_2 by exact Hp.
  destruct (fields !! "_id"); [case_bool_decide|]; congruence.
Qed.

Lemma delete_metadata_no_id (now : Z) (u : option value) :
  getDeleteMetadata now u !! "_id" = None.
Proof. unfold getDeleteMetadata. by simplify_map_eq. Qed.

Lemma deleted_after_delete_metadata (now : Z) (u : option value) (d : obj) :
  is_active (getDeleteMetadata now u ∪ d) = false.
Proof.
  unfold is_active. apply bool_decide_eq_false.
  rewrite (lookup_union_Some_l _ d "deleted_at" (VDate now)); [discriminate|].
  unfold getDeleteMetadata. by simplify_map_eq.
Qed.

Lemma soft_delete_filter_inactive (f : option value) (d : obj) :
  is_active d = false → matches (addSoftDeleteFilter f) d = false.
Proof.
  intros Hd. unfold addSoftDeleteFilter.
  rewrite matches_insert, holds_not_exists. unfold is_active in Hd.
  rewrite Hd. reflexivity.
Qed.

Lemma no_match_after_delete (now : Z) (u f : option value) (c : list obj) :
  Forall (λ d, matches (addSoftDeleteFilter f) d = false)
    ((λ d, if matches (addSoftDeleteFilter f) d
           then getDeleteMetadata now u ∪ d else d) <$> c).
Proof.
  apply Forall_fmap, Forall_forall. intros d _. cbn.
  destruct (matches (addSoftDeleteFilter f) d) eqn:Hm; [|exact Hm].
  apply soft_delete_filter_inactive, deleted_after_delete_metadata.
Qed.

Lemma delete_documents_none `{Platform} (now : Z) (db : database) (req : Request) :
  JS.not_plain_object (requested_filter req) = false →
  Forall (λ d, matches (addSoftDeleteFilter (Some (requested_filter req))) d = false)
    (collection db (param req "name")) →
  DbRoutes.delete_documents now db req
  = (<[ param req "name" := collection db (param req "name") ]> db,
     Sent (ok 200 {[ "deleted" := VNum 0 ]})).
Proof.
  intros Hf Hc. unfold DbRoutes.delete_documents.
  fold (requested_filter req). rewrite Hf.
  rewrite updateMany_none by exact Hc. reflexivity.
Qed.

(** C5: soft delete again affects nothing.  On a document that is
    already soft-deleted the by-identifier route answers 404 "Document
    not found" and stores nothing new.  The by-filter route, when every
    document its filter selects is already soft-deleted, answers 200
    with [deleted: 0] and stores nothing new; so does any second call
    of the by-filter route with the same request. *)
Theorem soft_delete_again_affects_nothing `{Platform} (now now' : Z)
    (db : database) (req : Request) :
  (∀ oid, ObjectId (param req "id") = Some oid →
     soft_deleted (collection db (param req "name")) oid →
     snd (DbRoutes.delete_document now db req) = Sent (error 404 "Document not found")
     ∧ same_documents db (fst (DbRoutes.delete_document now db req)))
  ∧ (JS.not_plain_object (requested_filter req) = false →
     Forall (λ d, matches (delete "deleted_at" (JS.spread (requested_filter req))) d = true →
                  is_active d = false)
       (collection db (param req "name")) →
     snd (DbRoutes.delete_documents now db req) = Sent (ok 200 {[ "deleted" := VNum 0 ]})
     ∧ same_documents db (fst (DbRoutes.delete_documents now db req)))
  ∧ (JS.not_plain_object (requested_filter req) = false →
     let db1 := fst (DbRoutes.delete_documents now db req) in
     snd (DbRoutes.delete_documents now' db1 req) = Sent (ok 200 {[ "deleted" := VNum 0 ]})
     ∧ same_documents db1 (fst (DbRoutes.delete_documents now' db1 req))).
Proof.
  split; [|split].
  - intros oid Hoid Hdel. apply soft_deleted_no_match in Hdel.
    rewrite (delete_document_hidden now db req oid Hoid Hdel). cbn [fst snd].
    split; [reflexivity | apply same_documents_rewrite].
  - intros Hf Hc. rewrite delete_documents_none.
    + cbn [fst snd]. split; [reflexivity | apply same_documents_rewrite].
    + exact Hf.
    + eapply Forall_impl; [exact Hc|]. intros d Hd. cbn beta in Hd.
      rewrite matches_soft_delete_filter.
      destruct (matches (delete "deleted_at" (JS.spread (requested_filter req))) d).
      * rewrite Hd by reflexivity. reflexivity.
      * apply andb_false_r.
  - intros Hf db1. subst db1. rewrite (delete_documents_none now').
    + cbn [fst snd]. split; [reflexivity | apply same_documents_rewrite].
    + exact Hf.
    + unfold DbRoutes.delete_documents. fold (requested_filter req). rewrite Hf.
      destruct (updateMany_shape (addSoftDeleteFilter (Some (requested_filter req)))
                  (getDeleteMetadata now (user req)) (collection db (param req "name"))
                  (delete_metadata_plain _ _) (delete_metadata_no_id _ _)) as [n ->].
      cbn [fst]. rewrite collection_insert. rewrite decide_True by reflexivity.
      apply no_match_after_delete.
Qed.

Lemma soft_delete_again_affects_nothing_witness :
  let req := Sample.request (Some Sample.bob) "items" Sample.widget_id None in
  let db := Sample.shop_after_delete in
  soft_deleted (collection db (param req "name")) Sample.widget_id
  ∧ snd (@DbRoutes.delete_document Sample.platform 3000 db req)
    = Sent (error 404 "Document not found").
Proof.
  intros req db.
  assert (Hdel : soft_deleted (collection db (param req "name")) Sample.widget_id)
    by (split; compute_done).
  split; [exact Hdel|].
  apply (proj1 (@soft_delete_again_affects_nothing Sample.platform 3000 4000 db req)
           Sample.widget_id); [vm_compute; reflexivity | exact Hdel].
Defined.

(** ** Which fields a write leaves alone *)

Lemma same_field_refl (k : string) (c : list obj) : Forall2 (same_field k) c c.
Proof. induction c; constructor; [reflexivity | assumption]. Qed.

Lemma set_fields_same_field `{Platform} (k : string) (fields d d' : obj) :
  untouched k fields → set_fields fields d = Ok d' → same_field k d d'.
Proof.
  intros Hk Hset. unfold set_fields in Hset. case_bool_decide as Hp.
  - assert (d' = fields ∪ d) as ->.
    { destruct (fields !! "_id"); [case_bool_decide|]; congruence. }
    unfold same_field. apply lookup_union_r, plain_untouched; assumption.
  - destruct (set_paths fields d) as [d1|m] eqn:Hs; [|discriminate].
    injection Hset as <-. unfold same_field.
    apply (set_paths_root fields d d1 k Hs). intros key [v Hv]. exact (Hk key v Hv).
Qed.

Lemma findOneAndUpdate_same_field `{Platform} (k : string) (filter fields : obj)
    (c c' : list obj) (r : option obj) :
  untouched k fields →
  findOneAndUpdate filter fields c = Ok (c', r) →
  Forall2 (same_field k) c c'.
Proof.
  intros Hk. revert c' r. induction c as [|d c IH]; intros c' r Hc; cbn in Hc.
  - injection Hc as <- <-. constructor.
  - destruct (matches filter d).
    + destruct (set_fields fields d) as [d'|] eqn:Hset; [|discriminate].
      injection Hc as <- <-. constructor; [|apply same_field_refl].
      eapply set_fields_same_field; eassumption.
    + destruct (findOneAndUpdate filter fields c) as [[c1 r1]|]; [|discriminate].
      injection Hc as <- <-. constructor; [reflexivity|]. eapply IH. reflexivity.
Qed.

Lemma updateOne_same_field `{Platform} (k : string) (filter fields : obj)
    (c c' : list obj) (n : Z) :
  untouched k fields →
  updateOne filter fields c = Ok (c', n) →
  Forall2 (same_field k) c c'.
Proof.
  intros Hk. revert c' n. induction c as [|d c IH]; intros c' n Hc; cbn in Hc.
  - injection Hc as <- <-. constructor.
  - destruct (matches filter d).
    + destruct (set_fields fields d) as [d'|] eqn:Hset; [|discriminate].
      injection Hc as <- <-. constructor; [|apply same_field_refl].
      eapply set_fields_same_field; eassumption.
    + destruct (updateOne filter fields c) as [[c1 n1]|]; [|discriminate].
      injection Hc as <- <-. constructor; [reflexivity|]. eapply IH. reflexivity.
Qed.

Lemma updateMany_same_field `{Platform} (k : string) (filter fields : obj)
    (c c' : list obj) (n : Z) :
  untouched k fields →
  updateMany filter fields c = Ok (c', n) →
  Forall2 (same_field k) c c'.
Proof.
  intros Hk. revert c' n. induction c as [|d c IH]; intros c' n Hc; cbn in Hc.
  - injection Hc as <- <-. constructor.
  - destruct (updateMany filter fields c) as [[c1 n1]|]; [|discriminate].
    destruct (matches filter d).
    + destruct (set_fields fields d) as [d'|] eqn:Hset; [|discriminate].
      injection Hc as <- <-. constructor; [|eapply IH; reflexivity].
      eapply set_fields_same_field; eassumption.
    + injection Hc as <- <-. constructor; [reflexivity|]. eapply IH. reflexivity.
Qed.

Lemma same_field_stored (k : string) (db : database) (name : string)
    (c' : list obj) :
  Forall2 (same_field k) (collection db name) c' →
  ∀ n, Forall2 (same_field k) (collection db n) (collection (<[ name := c' ]> db) n).
Proof.
  intros Hc n. rewrite collection_insert. case_decide as Hn.
  - subst n. exact Hc.
  - apply same_field_refl.
Qed.

Lemma delete_metadata_other (now : Z) (u : option value) (k : string) :
  k ≠ "deleted_at" → k ≠ "deleted_by" → getDeleteMetadata now u !! k = None.
Proof. intros. unfold getDeleteMetadata. by simplify_map_eq. Qed.

Lemma update_metadata_other (now : Z) (u : option value) (k : string) :
  k ≠ "updated_at" → k ≠ "updated_by" → getUpdateMetadata now u !! k = None.
Proof. intros. unfold getUpdateMetadata. by simplify_map_eq. Qed.

Lemma create_metadata_other (now : Z) (u : option value) (k : string) :
  k ≠ "created_at" → k ≠ "created_by" → getCreateMetadata now u !! k = None.
Proof. intros. unfold getCreateMetadata. by simplify_map_eq. Qed.

(** C7, as stated, fails: an update whose body names [created_by]
    rewrites it.  Alice creates the widget at time 1000; bob's PATCH
    with [{ created_by: "mallory" }] at time 2000 is accepted and the
    stored document then says it was created by mallory. *)
Lemma update_rewrites_created_by :
  let create := Sample.request (Some Sample.alice) "items" EmptyString
                  (Some (VObj {[ "name" := VStr "Widget" ]})) in
  let db1 := fst (DbRoutes.post_document 1000 Sample.widget_id ∅ create) in
  let patch := Sample.request (Some Sample.bob) "items" Sample.widget_id
                 (Some (VObj {[ "created_by" := VStr "mallory" ]})) in
  let db2 := fst (@DbRoutes.patch_document Sample.platform 2000 db1 patch) in
  (λ d : obj, d !! "created_by") <$> collection db1 "items" = [Some (VStr "alice")]
  ∧ (λ d : obj, d !! "created_by") <$> collection db2 "items" = [Some (VStr "mallory")].
Proof. split; vm_compute; reflexivity. Qed.

Lemma or_same_refl {A : Type} (P : A → A → Prop) (c : list A) :
  Forall2 (λ d d', d' = d ∨ P d d') c c.
Proof. induction c; constructor; [left; reflexivity | assumption]. Qed.

Lemma findOneAndUpdate_each `{Platform} (filter fields : obj)
    (c c' : list obj) (r : option obj) :
  findOneAndUpdate filter fields c = Ok (c', r) →
  Forall2 (λ d d', d' = d ∨ set_fields fields d = Ok d') c c'.
Proof.
  revert c' r. induction c as [|d c IH]; intros c' r Hc; cbn in Hc.
  - injection Hc as <- <-. constructor.
  - destruct (matches filter d).
    + destruct (set_fields fields d) as [d'|] eqn:Hset; [|discriminate].
      injection Hc as <- <-. constructor; [right; exact Hset | apply or_same_refl].
    + destruct (findOneAndUpdate filter fields c) as [[c1 r1]|]; [|discriminate].
      injection Hc as <- <-. constructor; [left; reflexivity | eapply IH; reflexivity].
Qed.

Lemma findOneAndUpdate_unmatched `{Platform} (filter fields : obj) (c c' : list obj) :
  findOneAndUpdate filter fields c = Ok (c', None) →
  Forall (λ d, matches filter d = false) c.
Proof.
  revert c'. induction c as [|d c IH]; intros c' Hc; cbn in Hc; [constructor|].
  destruct (matches filter d) eqn:Hm.
  - destruct (set_fields fields d); discriminate.
  - destruct (findOneAndUpdate filter fields c) as [[c1 r1]|]; [|discriminate].
    injection Hc as <- ->. constructor; [exact Hm | eapply IH; reflexivity].
Qed.

Lemma findOneAndUpdate_some `{Platform} (filter fields : obj) (c c' : list obj) (d' : obj) :
  findOneAndUpdate filter fields c = Ok (c', Some d') →
  ∃ d, d ∈ c ∧ matches filter d = true ∧ set_fields fields d = Ok d' ∧ d' ∈ c'.
Proof.
  revert c'. induction c as [|d c IH]; intros c' Hc; cbn in Hc; [discriminate|].
  destruct (matches filter d) eqn:Hm.
  - destruct (set_fields fields d) as [d1|] eqn:Hset; [|discriminate].
    injection Hc as <- <-. exists d. repeat split; try assumption; constructor.
  - destruct (findOneAndUpdate filter fields c) as [[c1 r1]|]; [|discriminate].
    injection Hc as <- ->. destruct (IH c1 eq_refl) as (d0 & Hin & Hm0 & Hset & Hin').
    exists d0. repeat split; try assumption; constructor; assumption.
Qed.

Lemma update_metadata_at (now : Z) (u : option value) :
  getUpdateMetadata now u !! "updated_at" = Some (VDate now).
Proof. unfold getUpdateMetadata. by simplify_map_eq. Qed.

Lemma update_metadata_by (now : Z) (u : option value) :
  getUpdateMetadata now u !! "updated_by" = Some (actor u).
Proof. unfold getUpdateMetadata. by simplify_map_eq. Qed.

(** The fields an update sets, whichever way the server resolves the
    keys of the body. *)
Lemma set_fields_updated `{Platform} (now : Z) (u : option value) (caller d d' : obj) :
  set_fields (getUpdateMetadata now u ∪ caller) d = Ok d' →
  updated now (actor u) caller d d'.
Proof.
  intros Hset. set (fields := getUpdateMetadata now u ∪ caller) in *.
  assert (Hat : fields !! "updated_at" = Some (VDate now))
    by apply lookup_union_Some_l, update_metadata_at.
  assert (Hby : fields !! "updated_by" = Some (actor u))
    by apply lookup_union_Some_l, update_metadata_by.
  assert (Hcaller : ∀ k, k ≠ "updated_at" → k ≠ "updated_by" →
            fields !! k = caller !! k).
  { intros k H1 H2. apply lookup_union_r, update_metadata_other; assumption. }
  unfold set_fields in Hset. case_bool_decide as Hp.
  - assert (d' = fields ∪ d) as ->.
    { destruct (fields !! "_id"); [case_bool_decide|]; congruence. }
    split; [apply lookup_union_Some_l, Hat|].
    split; [apply lookup_union_Some_l, Hby|]. split.
    + intros k v _ H1 H2 Hk. apply lookup_union_Some_l.
      rewrite Hcaller by assumption. exact Hk.
    + intros k H1 H2 Hu. apply lookup_union_r. rewrite Hcaller by assumption.
      apply plain_untouched; [|exact Hu]. intros key v Hkey.
      assert (is_Some (fields !! key)) as [w Hw]
        by (apply lookup_union_is_Some; right; eauto).
      exact (Hp key w Hw).
  - destruct (set_paths fields d) as [d1|m] eqn:Hs; [|discriminate].
    injection Hset as <-.
    split; [apply (set_paths_field fields d d1 _ _ Hs); [reflexivity | exact Hat]|].
    split; [apply (set_paths_field fields d d1 _ _ Hs); [reflexivity | exact Hby]|].
    split.
    + intros k v Hplain H1 H2 Hk.
      apply (set_paths_field fields d d1 _ _ Hs); [exact Hplain|].
      rewrite Hcaller by assumption. exact Hk.
    + intros k H1 H2 Hu. apply (set_paths_root fields d d1 k Hs).
      intros key [v Hv]. apply lookup_union_Some_raw in Hv as [Hv | [_ Hv]].
      * exact (update_metadata_untouched now u k H1 H2 key v Hv).
      * exact (Hu key v Hv).
Qed.

(** What the update handler stores: every document of the collection
    is as it was, or is the outcome of the [$set]. *)
Lemma patch_document_stores `{Platform} (now : Z) (db : database) (req : Request) :
  Forall2 (λ d d', d' = d
                   ∨ set_fields (getUpdateMetadata now (user req)
                                 ∪ JS.spread (body_or_empty req)) d = Ok d')
    (collection db (param req "name"))
    (collection (fst (DbRoutes.patch_document now db req)) (param req "name")).
Proof.
  unfold DbRoutes.patch_document.
  destruct (String.eqb (param req "name") EmptyString); [apply or_same_refl|].
  destruct (String.eqb (param req "id") EmptyString); [apply or_same_refl|].
  destruct (ObjectId (param req "id")) as [oid|]; [|apply or_same_refl].
  destruct (JS.not_plain_object _); [apply or_same_refl|].
  destruct (findOneAndUpdate _ _ _) as [[c' r]|] eqn:Hc; [|apply or_same_refl].
  cbn [fst]. rewrite collection_insert, decide_True by reflexivity.
  eapply findOneAndUpdate_each. exact Hc.
Qed.

(** The update handler past its own checks. *)
Lemma patch_document_run `{Platform} (now : Z) (db : database) (req : Request)
    (oid : string) :
  well_formed req → ObjectId (param req "id") = Some oid →
  DbRoutes.patch_document now db req
  = match findOneAndUpdate (addSoftDeleteFilter (Some (DbRoutes.by_id oid)))
            (getUpdateMetadata now (user req) ∪ JS.spread (body_or_empty req))
            (collection db (param req "name")) with
    | Ok (c, matched) => (<[ param req "name" := c ]> db, DbRoutes.patch_answer matched)
    | Throw m => (db, Next m)
    end.
Proof.
  intros (Hname & Hid & Hbody) Hoid. unfold DbRoutes.patch_document.
  apply String.eqb_neq in Hname, Hid. rewrite Hname, Hid, Hoid, Hbody.
  destruct (findOneAndUpdate _ _ _) as [[c r]|]; reflexivity.
Qed.

(** An update that finds its target and is answered has stored the
    outcome of the [$set] on an active document with that [_id]. *)
Lemma patch_document_found `{Platform} (now : Z) (db db' : database) (req : Request)
    (r : Response) (oid : string) :
  well_formed req → ObjectId (param req "id") = Some oid →
  visible (collection db (param req "name")) oid →
  DbRoutes.patch_document now db req = (db', Sent r) →
  ∃ d d', d ∈ collection db (param req "name")
        ∧ d !! "_id" = Some (VOid oid) ∧ is_active d = true
        ∧ set_fields (getUpdateMetadata now (user req)
                      ∪ JS.spread (body_or_empty req)) d = Ok d'
        ∧ d' ∈ collection db' (param req "name")
        ∧ d' !! "_id" = Some (VOid oid)
        ∧ DbRoutes.patch_answer (Some d') = Sent r.
Proof.
  intros Hwf Hoid Hvis. rewrite (patch_document_run now db req oid Hwf Hoid).
  destruct (findOneAndUpdate _ _ _) as [[c' [d'|]]|m] eqn:Hc; [| |discriminate].
  - intros Heq. injection Heq as <- Hr.
    apply findOneAndUpdate_some in Hc as (d & Hin & Hm & Hset & Hin').
    rewrite matches_active_by_id in Hm. apply andb_prop in Hm as [Ha Hid].
    apply bool_decide_eq_true_1 in Hid.
    exists d, d'. split; [exact Hin|]. split; [exact Hid|]. split; [exact Ha|].
    split; [exact Hset|]. split.
    { rewrite collection_insert, decide_True by reflexivity. exact Hin'. }
    split; [|exact Hr]. rewrite (set_fields_id _ _ _ Hset). exact Hid.
  - intros _. exfalso. apply findOneAndUpdate_unmatched in Hc.
    apply Exists_exists in Hvis as (d & Hin & Hid & Ha).
    rewrite Forall_forall in Hc. specialize (Hc d Hin).
    rewrite matches_active_by_id, Ha, (bool_decide_eq_true_2 _ Hid) in Hc.
    discriminate Hc.
Qed.

(** C7 (amended): a soft delete, by identifier or by filter, changes
    [created_at] and [created_by] of no stored document.  An update by
    identifier changes neither of them unless a key of its body is
    that field or a path that starts in it; when the body names the
    field itself, every document the update changes holds the caller's
    value in it, and so does the target of an update that found it and
    was answered. *)
Theorem created_fields_survive `{Platform} (now : Z) (db : database)
    (req : Request) (k : string) :
  k = "created_at" ∨ k = "created_by" →
  let name := param req "name" in
  let caller := JS.spread (body_or_empty req) in
  (∀ n, Forall2 (same_field k) (collection db n)
          (collection (fst (DbRoutes.delete_document now db req)) n))
  ∧ (∀ n, Forall2 (same_field k) (collection db n)
            (collection (fst (DbRoutes.delete_documents now db req)) n))
  ∧ (untouched k caller →
     ∀ n, Forall2 (same_field k) (collection db n)
            (collection (fst (DbRoutes.patch_document now db req)) n))
  ∧ (∀ v, caller !! k = Some v →
       Forall2 (λ d d', d' = d ∨ d' !! k = Some v) (collection db name)
         (collection (fst (DbRoutes.patch_document now db req)) name)
       ∧ ∀ oid db' r,
           well_formed req → ObjectId (param req "id") = Some oid →
           visible (collection db name) oid →
           DbRoutes.patch_document now db req = (db', Sent r) →
           ∃ d', d' ∈ collection db' name ∧ d' !! "_id" = Some (VOid oid)
                 ∧ d' !! k = Some v).
Proof.
  intros Hk name caller. subst name caller.
  assert (Hk1 : k ≠ "deleted_at" ∧ k ≠ "deleted_by" ∧ k ≠ "updated_at"
                ∧ k ≠ "updated_by" ∧ Path.plain k = true).
  { destruct Hk; subst k; repeat split; discriminate. }
  destruct Hk1 as (Hd1 & Hd2 & Hu1 & Hu2 & Hplain).
  assert (Hdel : ∀ u, untouched k (getDeleteMetadata now u)).
  { intros u. apply delete_metadata_untouched; assumption. }
  assert (Hstored : ∀ v, JS.spread (body_or_empty req) !! k = Some v →
            ∀ d d', set_fields (getUpdateMetadata now (user req)
                                ∪ JS.spread (body_or_empty req)) d = Ok d' →
                    d' !! k = Some v).
  { intros v Hv d d' Hset. apply set_fields_updated in Hset as (_ & _ & Hcaller & _).
    apply Hcaller; assumption. }
  split; [|split; [|split]].
  - intros n. unfold DbRoutes.delete_document.
    destruct (ObjectId (param req "id")) as [oid|]; [|apply same_field_refl].
    destruct (updateOne _ _ _) as [[c' m]|] eqn:Hc; [|apply same_field_refl].
    apply updateOne_same_field with (k := k) in Hc; [|apply Hdel].
    destruct (m =? 0); cbn [fst]; apply same_field_stored; exact Hc.
  - intros n. unfold DbRoutes.delete_documents.
    destruct (JS.not_plain_object _); [apply same_field_refl|].
    destruct (updateMany _ _ _) as [[c' m]|] eqn:Hc; [|apply same_field_refl].
    apply updateMany_same_field with (k := k) in Hc; [|apply Hdel].
    cbn [fst]. apply same_field_stored; exact Hc.
  - intros Hbody n. unfold DbRoutes.patch_document.
    destruct (String.eqb (param req "name") EmptyString); [apply same_field_refl|].
    destruct (String.eqb (param req "id") EmptyString); [apply same_field_refl|].
    destruct (ObjectId (param req "id")) as [oid|]; [|apply same_field_refl].
    destruct (JS.not_plain_object _); [apply same_field_refl|].
    destruct (findOneAndUpdate _ _ _) as [[c' r]|] eqn:Hc; [|apply same_field_refl].
    apply findOneAndUpdate_same_field with (k := k) in Hc.
    + cbn [fst]. apply same_field_stored; exact Hc.
    + apply untouched_union; [apply update_metadata_untouched; assumption | exact Hbody].
  - intros v Hv. split.
    + eapply Forall2_impl; [apply patch_document_stores|].
      intros d d' [-> | Hset]; [left; reflexivity | right].
      exact (Hstored v Hv d d' Hset).
    + intros oid db' r Hwf Hoid Hvis Hpatch.
      destruct (patch_document_found now db db' req r oid Hwf Hoid Hvis Hpatch)
        as (d & d' & _ & _ & _ & Hset & Hin' & Hid' & _).
      exists d'. split; [exact Hin'|]. split; [exact Hid'|].
      exact (Hstored v Hv d d' Hset).
Qed.

Lemma created_fields_survive_witness :
  let req := Sample.request (Some Sample.bob) "items" Sample.widget_id
               (Some (VObj {[ "name" := VStr "Widget2" ]})) in
  untouched "created_by" (JS.spread (body_or_empty req))
  ∧ Forall2 (same_field "created_by") (collection Sample.shop "items")
      (collection (fst (@DbRoutes.patch_document Sample.platform 2000 Sample.shop req))
         "items").
Proof.
  intros req.
  assert (Hu : untouched "created_by" (JS.spread (body_or_empty req))) by compute_done.
  split; [exact Hu|].
  destruct (@created_fields_survive Sample.platform 2000 Sample.shop req "created_by")
    as (_ & _ & Hpatch & _); [right; reflexivity|].
  exact (Hpatch Hu "items").
Defined.

(** A path into [created_by]: the body has no [created_by] key, and
    on a server that follows the path the update rewrites the name
    inside the field. *)
Example update_rewrites_inside_created_by :
  let imported : obj := {[ "_id" := VOid Sample.widget_id;
                           "created_by" := VObj {[ "name" := VStr "alice" ]} ]} in
  let body : obj := {[ "created_by.name" := VStr "mallory" ]} in
  let patch := Sample.request (Some Sample.bob) "items" Sample.widget_id
                 (Some (VObj body)) in
  let db := fst (@DbRoutes.patch_document Sample.nested 2000
                   {[ "items" := [imported] ]} patch) in
  body !! "created_by" = None
  ∧ (λ d : obj, d !! "created_by") <$> collection db "items"
    = [Some (VObj {[ "name" := VStr "mallory" ]})].
Proof. split; vm_compute; reflexivity. Qed.

(** The same body on the widget, whose [created_by] is a string: the
    server cannot follow the path, the update fails and nothing is
    stored. *)
Example update_cannot_follow_path :
  let patch := Sample.request (Some Sample.bob) "items" Sample.widget_id
                 (Some (VObj {[ "created_by.name" := VStr "mallory" ]})) in
  @DbRoutes.patch_document Sample.nested 2000 Sample.shop patch
  = (Sample.shop, Next "Cannot create field in element").
Proof. vm_compute. reflexivity. Qed.

(** ** What a successful write stores *)

Lemma updateOne_modified `{Platform} (filter fields : obj) (c c' : list obj) (n : Z) :
  updateOne filter fields c = Ok (c', n) → n ≠ 0 →
  ∃ d d', d ∈ c ∧ matches filter d = true ∧ set_fields fields d = Ok d' ∧ d' ∈ c'.
Proof.
  revert c' n. induction c as [|d c IH]; intros c' n Hc Hn; cbn in Hc.
  - injection Hc as <- <-. congruence.
  - destruct (matches filter d) eqn:Hm.
    + destruct (set_fields fields d) as [d1|] eqn:Hset; [|discriminate].
      injection Hc as <- <-. exists d, d1. repeat split; try assumption; constructor.
    + destruct (updateOne filter fields c) as [[c1 n1]|]; [|discriminate].
      injection Hc as <- <-.
      destruct (IH c1 n1 eq_refl Hn) as (d0 & d1 & Hin & Hm0 & Hset & Hin').
      exists d0, d1. repeat split; try assumption; constructor; assumption.
Qed.

Lemma union_lookup_policy (meta fields d : obj) (k : string) (v : value) :
  meta !! k = Some v → (meta ∪ fields ∪ d) !! k = Some v.
Proof. intros Hk. apply lookup_union_Some_l, lookup_union_Some_l, Hk. Qed.

Lemma union_lookup_caller (meta fields d : obj) (k : string) :
  meta !! k = None → (meta ∪ fields ∪ d) !! k = (fields ∪ d) !! k.
Proof.
  intros Hk. rewrite !lookup_union. rewrite Hk.
  destruct (fields !! k), (d !! k); reflexivity.
Qed.

Lemma matches_soft_delete_active (f : option value) (d : obj) :
  matches (addSoftDeleteFilter f) d = true → is_active d = true.
Proof.
  unfold addSoftDeleteFilter. rewrite matches_insert, holds_not_exists.
  intros [Hd _]%andb_prop. exact Hd.
Qed.

(** C2, as stated, fails: the policy overwrites only the fields of the
    operation at hand.  An insert whose body carries [deleted_at] and
    [deleted_by] stores them as the caller wrote them (and the document
    is born soft-deleted: a GET by its identifier answers 404). *)
Lemma insert_keeps_caller_deleted_fields :
  let create := Sample.request (Some Sample.alice) "items" Sample.widget_id
                  (Some (VObj {[ "name" := VStr "Widget";
                                 "deleted_at" := VStr "2020-01-01";
                                 "deleted_by" := VStr "mallory" ]})) in
  let db1 := fst (DbRoutes.post_document 1000 Sample.widget_id ∅ create) in
  collection db1 "items"
  = [ {[ "_id" := VOid Sample.widget_id; "name" := VStr "Widget";
         "created_at" := VDate 1000; "created_by" := VStr "alice";
         "deleted_at" := VStr "2020-01-01"; "deleted_by" := VStr "mallory" ]} ]
  ∧ snd (@DbRoutes.get_document Sample.platform db1 create)
    = Sent (error 404 "Document not found").
Proof. split; vm_compute; reflexivity. Qed.

Lemma create_metadata_at (now : Z) (u : option value) :
  getCreateMetadata now u !! "created_at" = Some (VDate now).
Proof. unfold getCreateMetadata. by simplify_map_eq. Qed.

Lemma create_metadata_by (now : Z) (u : option value) :
  getCreateMetadata now u !! "created_by" = Some (actor u).
Proof. unfold getCreateMetadata. by simplify_map_eq. Qed.

Lemma delete_metadata_at (now : Z) (u : option value) :
  getDeleteMetadata now u !! "deleted_at" = Some (VDate now).
Proof. unfold getDeleteMetadata. by simplify_map_eq. Qed.

Lemma delete_metadata_by (now : Z) (u : option value) :
  getDeleteMetadata now u !! "deleted_by" = Some (actor u).
Proof. unfold getDeleteMetadata. by simplify_map_eq. Qed.

Lemma updateMany_delete_stamps `{Platform} (now : Z) (u : option value) (filter : obj)
    (c c' : list obj) (n : Z) :
  updateMany filter (getDeleteMetadata now u) c = Ok (c', n) →
  Forall2 (λ d d', if matches filter d
                   then d' !! "deleted_at" = Some (VDate now)
                        ∧ d' !! "deleted_by" = Some (actor u)
                        ∧ ∀ k, k ≠ "deleted_at" → k ≠ "deleted_by" → d' !! k = d !! k
                   else d' = d) c c'.
Proof.
  destruct (updateMany_shape filter (getDeleteMetadata now u) c
              (delete_metadata_plain now u) (delete_metadata_no_id now u)) as [m ->].
  intros Hc. injection Hc as <- <-.
  apply Forall2_fmap_r, Forall2_same_length_lookup_2; [reflexivity|].
  intros i d d0 Hd Hd0. assert (d0 = d) as -> by congruence.
  unfold compose. cbn beta.
  destruct (matches filter d); [|reflexivity].
  split; [|split].
  - apply lookup_union_Some_l, delete_metadata_at.
  - apply lookup_union_Some_l, delete_metadata_by.
  - intros k Hk1 Hk2. apply lookup_union_r, delete_metadata_other; assumption.
Qed.

Lemma patch_answer_200 `{Platform} (matched : option obj) (r : Response) :
  DbRoutes.patch_answer matched = Sent r → statusCode r = 200 →
  ∃ d', matched = Some d'
        ∧ (includeResultMetadata = true → r = ok 200 {[ "document" := VObj d' ]}).
Proof.
  unfold DbRoutes.patch_answer.
  destruct includeResultMetadata, matched as [d'|]; intros Hr Hs.
  - injection Hr as <-. exists d'. split; reflexivity.
  - injection Hr as <-. discriminate Hs.
  - exists d'. split; [reflexivity | discriminate].
  - discriminate Hr.
Qed.

(** C2 (amended): each write stamps the fields of its own operation
    with the policy's values, whatever the caller supplied for them:
    [created_at], [created_by] on an insert, [updated_at], [updated_by]
    on an update, [deleted_at], [deleted_by] on a soft delete.  Every
    other field of an insert body, the reserved fields of the other
    operations included, is stored as the caller supplied it.  On an
    update, every document that is changed is stamped; each key of the
    body that is a plain field name is stored with the caller's value,
    reserved fields of the other operations included, and a field that
    no key of the body starts in is left as it was. *)
Theorem operation_metadata_wins `{Platform} (now : Z) (fresh : string)
    (db db' : database) (req : Request) (r : Response) :
  let name := param req "name" in
  let caller := JS.spread (body_or_empty req) in
  let who := actor (user req) in
  (DbRoutes.post_document now fresh db req = (db', Sent r) → statusCode r = 201 →
   ∃ d, collection db' name = collection db name ++ [d]
      ∧ d !! "created_at" = Some (VDate now) ∧ d !! "created_by" = Some who
      ∧ ∀ k, k ≠ "created_at" → k ≠ "created_by" → k ≠ "_id" → d !! k = caller !! k)
  ∧ Forall2 (λ d d', d' = d ∨ updated now who caller d d') (collection db name)
      (collection (fst (DbRoutes.patch_document now db req)) name)
  ∧ (DbRoutes.patch_document now db req = (db', Sent r) → statusCode r = 200 →
     ∃ d d', d ∈ collection db name ∧ d' ∈ collection db' name
        ∧ updated now who caller d d'
        ∧ (includeResultMetadata = true →
           payload r = VObj {[ "ok" := VBool true; "document" := VObj d' ]}))
  ∧ (DbRoutes.delete_document now db req = (db', Sent r) → statusCode r = 200 →
     ∃ d d', d ∈ collection db name ∧ d' ∈ collection db' name ∧ is_active d = true
        ∧ d' !! "deleted_at" = Some (VDate now) ∧ d' !! "deleted_by" = Some who
        ∧ ∀ k, k ≠ "deleted_at" → k ≠ "deleted_by" → d' !! k = d !! k)
  ∧ (DbRoutes.delete_documents now db req = (db', Sent r) → statusCode r = 200 →
     Forall2 (λ d d', if matches (addSoftDeleteFilter (Some (requested_filter req))) d
                      then d' !! "deleted_at" = Some (VDate now)
                           ∧ d' !! "deleted_by" = Some who
                           ∧ ∀ k, k ≠ "deleted_at" → k ≠ "deleted_by" → d' !! k = d !! k
                      else d' = d)
       (collection db name) (collection db' name)).
Proof.
  intros name caller who. subst name caller who. split; [|split; [|split; [|split]]].
  - unfold DbRoutes.post_document.
    destruct (String.eqb (param req "name") EmptyString);
      [intros Heq Hs; injection Heq as <- <-; discriminate Hs|].
    destruct (JS.not_plain_object (body_or_empty req));
      [intros Heq Hs; injection Heq as <- <-; discriminate Hs|].
    unfold insertOne. case_bool_decide; [discriminate|].
    intros Heq _. injection Heq as <- _. eexists. split; [|split; [|split]].
    + rewrite collection_insert, decide_True by reflexivity. reflexivity.
    + rewrite lookup_insert_ne by discriminate.
      apply lookup_union_Some_l, create_metadata_at.
    + rewrite lookup_insert_ne by discriminate.
      apply lookup_union_Some_l, create_metadata_by.
    + intros k Hk1 Hk2 Hk3. rewrite lookup_insert_ne by congruence.
      apply lookup_union_r, create_metadata_other; assumption.
  - eapply Forall2_impl; [apply patch_document_stores|].
    intros d d' [-> | Hset]; [left; reflexivity | right].
    apply set_fields_updated. exact Hset.
  - unfold DbRoutes.patch_document.
    destruct (String.eqb (param req "name") EmptyString);
      [intros Heq Hs; injection Heq as <- <-; discriminate Hs|].
    destruct (String.eqb (param req "id") EmptyString);
      [intros Heq Hs; injection Heq as <- <-; discriminate Hs|].
    destruct (ObjectId (param req "id")) as [oid|];
      [|intros Heq Hs; injection Heq as <- <-; discriminate Hs].
    destruct (JS.not_plain_object (body_or_empty req));
      [intros Heq Hs; injection Heq as <- <-; discriminate Hs|].
    destruct (findOneAndUpdate _ _ _) as [[c' matched]|] eqn:Hc; [|discriminate].
    intros Heq Hs. injection Heq as <- Hr.
    destruct (patch_answer_200 matched r Hr Hs) as (d' & -> & Hpayload).
    apply findOneAndUpdate_some in Hc as (d & Hin & _ & Hset & Hin').
    exists d, d'. split; [exact Hin|]. split.
    { rewrite collection_insert, decide_True by reflexivity. exact Hin'. }
    split; [apply set_fields_updated; exact Hset|].
    intros Hmeta. rewrite (Hpayload Hmeta). reflexivity.
  - unfold DbRoutes.delete_document.
    destruct (ObjectId (param req "id")) as [oid|];
      [|intros Heq Hs; injection Heq as <- <-; discriminate Hs].
    destruct (updateOne _ _ _) as [[c' n]|] eqn:Hc; [|discriminate].
    destruct (n =? 0) eqn:Hn;
      [intros Heq Hs; injection Heq as <- <-; discriminate Hs|].
    intros Heq _. injection Heq as <- _. apply Z.eqb_neq in Hn.
    destruct (updateOne_modified _ _ _ _ _ Hc Hn) as (d & d' & Hin & Hm & Hset & Hin').
    apply set_fields_result in Hset; [|apply delete_metadata_plain]. subst d'.
    exists d. eexists. split; [exact Hin|]. split.
    { rewrite collection_insert, decide_True by reflexivity. exact Hin'. }
    split; [eapply matches_soft_delete_active; exact Hm|]. split; [|split].
    + apply lookup_union_Some_l, delete_metadata_at.
    + apply lookup_union_Some_l, delete_metadata_by.
    + intros k Hk1 Hk2. apply lookup_union_r, delete_metadata_other; assumption.
  - unfold DbRoutes.delete_documents. fold (requested_filter req).
    destruct (JS.not_plain_object (requested_filter req));
      [intros Heq Hs; injection Heq as <- <-; discriminate Hs|].
    destruct (updateMany _ _ _) as [[c' n]|] eqn:Hc; [|discriminate].
    intros Heq _. injection Heq as <- _.
    rewrite collection_insert, decide_True by reflexivity.
    eapply updateMany_delete_stamps. exact Hc.
Qed.

Lemma operation_metadata_wins_witness :
  let req := Sample.request (Some Sample.alice) "items" EmptyString
               (Some (VObj {[ "name" := VStr "Widget"; "created_by" := VStr "mallory" ]})) in
  let out := DbRoutes.post_document 1000 Sample.widget_id ∅ req in
  out = (fst out, Sent (Middleware.response_of (snd out)))
  ∧ statusCode (Middleware.response_of (snd out)) = 201
  ∧ ∃ d, collection (fst out) "items" = collection ∅ "items" ++ [d]
       ∧ d !! "created_by" = Some (VStr "alice").
Proof.
  intros req out.
  assert (Hout : out = (fst out, Sent (Middleware.response_of (snd out))))
    by (vm_compute; reflexivity).
  assert (Hs : statusCode (Middleware.response_of (snd out)) = 201)
    by (vm_compute; reflexivity).
  split; [exact Hout|]. split; [exact Hs|].
  destruct (proj1 (@operation_metadata_wins Sample.platform 1000 Sample.widget_id ∅
                     (fst out) req (Middleware.response_of (snd out))) Hout Hs)
    as (d & Hd & _ & Hby & _).
  exists d. split; [exact Hd | exact Hby].
Defined.

(** ** Limit and skip of the find routes *)





Lemma documents_sent_find_result (docs : list obj) :
  documents_sent "documents" (Sent (DbRoutes.find_result docs)) = VObj <$> docs.
Proof. unfold documents_sent, DbRoutes.find_result, ok; cbn. by simplify_map_eq. Qed.


Lemma documents_sent_error (field : string) (code : Z) (m : string) :
  documents_sent field (Sent (error code m)) = [].
Proof.
  unfold documents_sent, error; cbn.
  destruct (decide (field = "error")) as [->|Hne].
  - rewrite lookup_singleton_eq. reflexivity.
  - rewrite lookup_singleton_ne by congruence. reflexivity.
Qed.





(** A negative [limit] is below the cap already: [Math.min] hands it to
    the cursor as it is. *)
Lemma negative_limit_passes `{Platform} (m : obj) (n : Z) :
  n < 0 → m !! "limit" = Some (VNum n) →
  DbRoutes.find_limit (VObj m) = n ∧ ActionsRoutes.actions_limit (VObj m) = n.
Proof.
  intros Hn Hm. unfold DbRoutes.find_limit, ActionsRoutes.actions_limit.
  cbn [JS.prop]. rewrite Hm. cbn [from_option id JS.Number JS.num_or].
  destruct (n =? 0) eqn:H0; [apply Z.eqb_eq in H0; lia|].
  unfold JS.Math_min. lia.
Qed.







(** ** The audit middleware *)

Import Middleware.

Lemma protected_authenticated `{Platform} (env : Env)
    (handler : database → Request → database * outcome)
    (req : Request) (d : database) (decoded : value) :
  authenticated req decoded →
  let req' := with_user decoded req in
  let seen := logged_request (snd (handler d req')) req' in
  let st := answered env seen (fst (handler d req')) (response_of (snd (handler d req'))) in
  protected env handler req d
  = match audit_finish env {| start := t_start env; logged := seen |} st with
    | Ok st' => st'
    | Throw m => emit (UnhandledRejection m) st
    end.
Proof.
  intros (h & Hh & Hp & Hv) req' seen st. subst st seen.
  unfold protected, authenticate. rewrite Hh, Hp, Hv. cbn [negb].
  unfold auditLog, route. cbn [db initial].
  fold req'. destruct (handler d req') as [d1 [[code data]|m]]; cbn [fst snd]; reflexivity.
Qed.

Lemma protected_rejected `{Platform} (env : Env)
    (handler : database → Request → database * outcome)
    (req : Request) (d : database) :
  (∀ decoded, ¬ authenticated req decoded) →
  protected env handler req d = protected_without_audit handler req d.
Proof.
  intros Hno. unfold protected, protected_without_audit, authenticate.
  destruct (headers req !! "authorization") as [h|] eqn:Hh; [|reflexivity].
  destruct (String.prefix "Bearer " h) eqn:Hp; cbn [negb]; [|reflexivity].
  destruct (jwt_verify (bearer_token h)) as [decoded|] eqn:Hv; [|reflexivity].
  exfalso. apply (Hno decoded). exists h. auto.
Qed.

Lemma without_audit_authenticated `{Platform}
    (handler : database → Request → database * outcome)
    (req : Request) (d : database) (decoded : value) :
  authenticated req decoded →
  let req' := with_user decoded req in
  received (protected_without_audit handler req d)
  = [response_of (snd (handler d req'))].
Proof.
  intros (h & Hh & Hp & Hv) req'.
  unfold protected_without_audit, authenticate. rewrite Hh, Hp, Hv. cbn [negb].
  unfold route. cbn [db initial]. fold req'.
  destruct (handler d req') as [d1 [[code data]|m]]; cbn [fst snd]; reflexivity.
Qed.

Lemma action_has_no_id (env : Env) (l : listener) (st : State) :
  action env l st !! "_id" = None.
Proof. unfold action. by simplify_map_eq. Qed.

Lemma action_statusCode (env : Env) (l : listener) (st : State) :
  action env l st !! "statusCode" = Some (VNum (res_statusCode st)).
Proof. unfold action. by simplify_map_eq. Qed.

Lemma action_duration (env : Env) (l : listener) (st : State) :
  action env l st !! "duration" = Some (VNum (t_finish env - start l)).
Proof. unfold action. by simplify_map_eq. Qed.

Lemma audit_finish_ok (env : Env) (l : listener) (st : State) :
  audit_write_ok env (db st) →
  audit_finish env l st
  = Ok (emit (AuditInserted (action env l st))
          (set_db (<[ "actions" := collection (db st) "actions"
                                   ++ [<[ "_id" := VOid (fresh env) ]> (action env l st)] ]>
                     (db st)) st)).
Proof.
  intros (Hdb & Hins & Hfresh). unfold audit_finish, audit_try.
  rewrite Hdb, Hins. unfold insertOne. rewrite action_has_no_id. cbn [from_option id].
  rewrite bool_decide_eq_false_2 by exact Hfresh. reflexivity.
Qed.

Lemma audit_finish_fails (env : Env) (l : listener) (st : State) (m : string) :
  audit_write_fails env m →
  audit_finish env l st = Ok (emit (ConsoleError ("Audit log error: " +:+ m)) st).
Proof.
  intros [Hdb | [Hdb Hins]]; unfold audit_finish, audit_try.
  - rewrite Hdb. reflexivity.
  - rewrite Hdb, Hins. reflexivity.
Qed.

Lemma audit_finish_resolves (env : Env) (l : listener) (st : State) :
  ∃ st', audit_finish env l st = Ok st'
         ∧ received st' = received st
         ∧ ∀ m, UnhandledRejection m ∈ trace st' → UnhandledRejection m ∈ trace st.
Proof.
  unfold audit_finish. destruct (audit_try env l st) as [st'|m] eqn:Htry.
  - exists st'. split; [reflexivity|]. unfold audit_try in Htry.
    destruct (getDb_error env); [discriminate|].
    destruct (insert_error env); [discriminate|].
    destruct (insertOne _ _ _) as [[c i]|]; [|discriminate].
    injection Htry as <-. unfold received. cbn [trace emit set_db].
    rewrite omap_app. cbn. rewrite app_nil_r. split; [reflexivity|].
    intros m [Hm|Hm]%elem_of_app; [exact Hm|].
    apply list_elem_of_singleton in Hm. discriminate.
  - eexists. split; [reflexivity|]. unfold received. cbn [trace emit].
    rewrite omap_app. cbn. rewrite app_nil_r. split; [reflexivity|].
    intros m0 [Hm|Hm]%elem_of_app; [exact Hm|].
    apply list_elem_of_singleton in Hm. discriminate.
Qed.

(** C3, as stated, fails: a request that completes leaves no audit
    entry when the store refuses the write.  Alice's GET of the widget
    is answered 200 while the connection to the store drops before the
    audit entry is inserted: the client has its response, the error is
    on the console, and no entry was written. *)
Lemma no_audit_entry_when_write_fails :
  let req := Sample.request None "items" Sample.widget_id None in
  let st := @protected Sample.platform Sample.outage
              (@DbRoutes.get_document Sample.platform) req Sample.shop in
  received st = [ok 200 {[ "document" := VObj Sample.widget ]}]
  ∧ audited st = []
  ∧ collection (db st) "actions" = []
  ∧ trace st = [ClientReceived (ok 200 {[ "document" := VObj Sample.widget ]});
                ConsoleError "Audit log error: connection closed"].
Proof. repeat split; vm_compute; reflexivity. Qed.

(** C3 (amended): for every request that passes authentication and is
    answered, the audit callback runs exactly once, after the response
    has been written.  If the store takes the entry, exactly one entry
    is written, its [statusCode] is the status code sent, and its
    [duration] is the finish reading of the clock minus the start
    reading, which is not negative when the clock did not go back.  If
    the store refuses the entry, none is written and the error goes to
    the console. *)
Theorem one_audit_attempt_after_response `{Platform} (env : Env)
    (handler : database → Request → database * outcome)
    (req : Request) (d : database) (decoded : value) :
  authenticated req decoded →
  let req' := with_user decoded req in
  let r := response_of (snd (handler d req')) in
  let st := protected env handler req d in
  received st = [r]
  ∧ (∃ e, trace st = [ClientReceived r; e]
          ∧ ((∃ a, e = AuditInserted a) ∨ (∃ m, e = ConsoleError m)))
  ∧ (audit_write_ok env (fst (handler d req')) →
     ∃ a, trace st = [ClientReceived r; AuditInserted a]
        ∧ audited st = [a]
        ∧ a !! "statusCode" = Some (VNum (statusCode r))
        ∧ a !! "duration" = Some (VNum (t_finish env - t_start env))
        ∧ (t_start env ≤ t_finish env → ∃ n, a !! "duration" = Some (VNum n) ∧ 0 ≤ n)
        ∧ collection (db st) "actions"
          = collection (fst (handler d req')) "actions"
            ++ [<[ "_id" := VOid (fresh env) ]> a])
  ∧ (∀ m, audit_write_fails env m →
     trace st = [ClientReceived r; ConsoleError ("Audit log error: " +:+ m)]
     ∧ audited st = []
     ∧ db st = fst (handler d req')).
Proof.
  intros Hauth req' r st. subst st.
  rewrite (protected_authenticated env handler req d decoded Hauth).
  cbv zeta. fold req'. fold r.
  set (seen := logged_request (snd (handler d req')) req').
  set (l := {| start := t_start env; logged := seen |}).
  set (st := answered env seen (fst (handler d req')) r).
  split; [|split; [|split]].
  - destruct (audit_finish_resolves env l st) as (st' & -> & Hrec & _).
    rewrite Hrec. reflexivity.
  - unfold audit_finish. unfold audit_try.
    destruct (getDb_error env) as [m|]; [eexists; split; [reflexivity|right; eauto]|].
    destruct (insert_error env) as [m|]; [eexists; split; [reflexivity|right; eauto]|].
    destruct (insertOne _ _ _) as [[c i]|m];
      [eexists; split; [reflexivity|left; eauto]
      |eexists; split; [reflexivity|right; eauto]].
  - intros Hok. rewrite (audit_finish_ok env l st Hok).
    exists (action env l st). split; [reflexivity|]. split; [reflexivity|].
    split; [apply action_statusCode|]. split; [apply action_duration|].
    split.
    { intros Hclock. eexists. split; [apply action_duration|]. cbn [start l]. lia. }
    cbn [db emit set_db]. rewrite collection_insert, decide_True by reflexivity.
    reflexivity.
  - intros m Hfail. rewrite (audit_finish_fails env l st m Hfail).
    repeat split.
Qed.

Lemma one_audit_attempt_after_response_witness :
  let req := Sample.request None "items" Sample.widget_id None in
  let handler := @DbRoutes.get_document Sample.platform in
  let st := @protected Sample.platform Sample.calm handler req Sample.shop in
  @authenticated Sample.platform req Sample.alice
  ∧ audit_write_ok Sample.calm Sample.shop
  ∧ received st = [ok 200 {[ "document" := VObj Sample.widget ]}]
  ∧ ∃ a, audited st = [a] ∧ a !! "statusCode" = Some (VNum 200).
Proof.
  intros req handler st.
  assert (Hauth : @authenticated Sample.platform req Sample.alice).
  { exists "Bearer alice.jwt". repeat split; vm_compute; reflexivity. }
  assert (Hok : audit_write_ok Sample.calm Sample.shop).
  { repeat split; [vm_compute; reflexivity .. | compute_done]. }
  split; [exact Hauth|]. split; [exact Hok|].
  destruct (@one_audit_attempt_after_response Sample.platform Sample.calm handler req
              Sample.shop Sample.alice Hauth) as (Hrec & _ & Hwrite & _).
  split; [exact Hrec|].
  destruct (Hwrite Hok) as (a & _ & Haud & Hstatus & _).
  exists a. split; [exact Haud | exact Hstatus].
Defined.

(** C9: the audit recorder does not alter what the client sees.  With
    [auditLog] mounted the client receives exactly the responses it
    receives without it, for every request; for an authenticated
    request that is the one response the handler sent, status and
    payload.  The finish callback never rejects; when the audit write
    fails the error is printed on the console, the client's response
    stands and the database is as the handler left it. *)
Theorem audit_never_alters_response `{Platform} (env : Env)
    (handler : database → Request → database * outcome)
    (req : Request) (d : database) :
  received (protected env handler req d)
  = received (protected_without_audit handler req d)
  ∧ (∀ m, UnhandledRejection m ∉ trace (protected env handler req d))
  ∧ (∀ decoded, authenticated req decoded →
     received (protected env handler req d)
     = [response_of (snd (handler d (with_user decoded req)))])
  ∧ (∀ decoded m, authenticated req decoded → audit_write_fails env m →
     trace (protected env handler req d)
     = [ClientReceived (response_of (snd (handler d (with_user decoded req))));
        ConsoleError ("Audit log error: " +:+ m)]
     ∧ db (protected env handler req d) = fst (handler d (with_user decoded req))).
Proof.
  assert (Hcases : (∃ decoded, authenticated req decoded)
                   ∨ (∀ decoded, ¬ authenticated req decoded)).
  { unfold authenticated.
    destruct (headers req !! "authorization") as [h|] eqn:Hh.
    - destruct (String.prefix "Bearer " h) eqn:Hp.
      + destruct (jwt_verify (bearer_token h)) as [decoded|] eqn:Hv.
        * left. exists decoded, h. auto.
        * right. intros decoded (h' & Hh' & _ & Hv'). congruence.
      + right. intros decoded (h' & Hh' & Hp' & _). congruence.
    - right. intros decoded (h' & Hh' & _). congruence. }
  assert (Hauth : ∀ decoded, authenticated req decoded →
            received (protected env handler req d)
            = [response_of (snd (handler d (with_user decoded req)))]
            ∧ ∀ m, UnhandledRejection m ∉ trace (protected env handler req d)).
  { intros decoded Ha.
    rewrite (protected_authenticated env handler req d decoded Ha). cbv zeta.
    set (seen := logged_request (snd (handler d (with_user decoded req)))
                   (with_user decoded req)).
    destruct (audit_finish_resolves env
                {| start := t_start env; logged := seen |}
                (answered env seen
                   (fst (handler d (with_user decoded req)))
                   (response_of (snd (handler d (with_user decoded req))))))
      as (st' & -> & Hrec & Hun).
    split; [rewrite Hrec; reflexivity|].
    intros m Hm. apply Hun in Hm. cbn [trace answered] in Hm.
    apply list_elem_of_singleton in Hm. discriminate. }
  split; [|split; [|split]].
  - destruct Hcases as [[decoded Ha]|Hno].
    + rewrite (proj1 (Hauth decoded Ha)).
      rewrite (without_audit_authenticated handler req d decoded Ha). reflexivity.
    + rewrite (protected_rejected env handler req d Hno). reflexivity.
  - destruct Hcases as [[decoded Ha]|Hno]; [exact (proj2 (Hauth decoded Ha))|].
    rewrite (protected_rejected env handler req d Hno).
    intros m. unfold protected_without_audit, authenticate.
    destruct (headers req !! "authorization") as [h|] eqn:Hh;
      [|cbn; intros Hm; apply list_elem_of_singleton in Hm; discriminate].
    destruct (String.prefix "Bearer " h) eqn:Hp; cbn [negb];
      [|cbn; intros Hm; apply list_elem_of_singleton in Hm; discriminate].
    destruct (jwt_verify (bearer_token h)) as [decoded|] eqn:Hv;
      [|cbn; intros Hm; apply list_elem_of_singleton in Hm; discriminate].
    exfalso. apply (Hno decoded). exists h. auto.
  - intros decoded Ha. exact (proj1 (Hauth decoded Ha)).
  - intros decoded m Ha Hfail.
    rewrite (protected_authenticated env handler req d decoded Ha). cbv zeta.
    rewrite (audit_finish_fails env _ _ m Hfail). split; reflexivity.
Qed.

Lemma audit_never_alters_response_witness :
  let req := Sample.request None "items" Sample.widget_id None in
  let handler := @DbRoutes.get_document Sample.platform in
  let st := @protected Sample.platform Sample.outage handler req Sample.shop in
  @authenticated Sample.platform req Sample.alice
  ∧ audit_write_fails Sample.outage "connection closed"
  ∧ received st = [ok 200 {[ "document" := VObj Sample.widget ]}]
  ∧ db st = Sample.shop.
Proof.
  intros req handler st.
  assert (Hauth : @authenticated Sample.platform req Sample.alice).
  { exists "Bearer alice.jwt". repeat split; vm_compute; reflexivity. }
  assert (Hfail : audit_write_fails Sample.outage "connection closed").
  { right. split; reflexivity. }
  split; [exact Hauth|]. split; [exact Hfail|].
  destruct (@audit_never_alters_response Sample.platform Sample.outage handler req
              Sample.shop) as (_ & _ & Hrec & Hlog).
  split.
  - exact (Hrec Sample.alice Hauth).
  - exact (proj2 (Hlog Sample.alice "connection closed" Hauth Hfail)).
Defined.

(** * Further properties of the code *)

(** ** The identifiers of a collection *)

Lemma findOneAndUpdate_ids `{Platform} (filter fields : obj) (c c' : list obj) (r : option obj) :
  findOneAndUpdate filter fields c = Ok (c', r) → ids c' = ids c.
Proof.
  revert c' r. induction c as [|d c IH]; intros c' r Hc; cbn in Hc.
  - injection Hc as <- <-. reflexivity.
  - destruct (matches filter d).
    + destruct (set_fields fields d) as [d'|] eqn:Hset; [|discriminate].
      injection Hc as <- <-. unfold ids. cbn. f_equal.
      eapply set_fields_id. exact Hset.
    + destruct (findOneAndUpdate filter fields c) as [[c1 r1]|]; [|discriminate].
      injection Hc as <- <-. unfold ids. cbn. f_equal. eapply IH. reflexivity.
Qed.

Lemma updateOne_ids `{Platform} (filter fields : obj) (c c' : list obj) (n : Z) :
  updateOne filter fields c = Ok (c', n) → ids c' = ids c.
Proof.
  revert c' n. induction c as [|d c IH]; intros c' n Hc; cbn in Hc.
  - injection Hc as <- <-. reflexivity.
  - destruct (matches filter d).
    + destruct (set_fields fields d) as [d'|] eqn:Hset; [|discriminate].
      injection Hc as <- <-. unfold ids. cbn. f_equal.
      eapply set_fields_id. exact Hset.
    + destruct (updateOne filter fields c) as [[c1 n1]|]; [|discriminate].
      injection Hc as <- <-. unfold ids. cbn. f_equal. eapply IH. reflexivity.
Qed.

Lemma updateMany_ids `{Platform} (filter fields : obj) (c c' : list obj) (n : Z) :
  updateMany filter fields c = Ok (c', n) → ids c' = ids c.
Proof.
  revert c' n. induction c as [|d c IH]; intros c' n Hc; cbn in Hc.
  - injection Hc as <- <-. reflexivity.
  - destruct (updateMany filter fields c) as [[c1 n1]|]; [|discriminate].
    destruct (matches filter d).
    + destruct (set_fields fields d) as [d'|] eqn:Hset; [|discriminate].
      injection Hc as <- <-. unfold ids. cbn. f_equal.
      * eapply set_fields_id. exact Hset.
      * eapply IH. reflexivity.
    + injection Hc as <- <-. unfold ids. cbn. f_equal. eapply IH. reflexivity.
Qed.

Lemma ids_stored (db : database) (name n : string) (c' : list obj) :
  ids c' = ids (collection db name) →
  ids (collection (<[ name := c' ]> db) n) = ids (collection db n).
Proof.
  intros Hc. rewrite collection_insert. case_decide as Hn; [subst n; exact Hc | reflexivity].
Qed.

Lemma patch_document_ids `{Platform} (now : Z) (db : database) (req : Request)
    (n : string) :
  ids (collection (fst (DbRoutes.patch_document now db req)) n) = ids (collection db n).
Proof.
  unfold DbRoutes.patch_document.
  destruct (String.eqb (param req "name") EmptyString); [reflexivity|].
  destruct (String.eqb (param req "id") EmptyString); [reflexivity|].
  destruct (ObjectId (param req "id")) as [oid|]; [|reflexivity].
  destruct (JS.not_plain_object _); [reflexivity|].
  destruct (findOneAndUpdate _ _ _) as [[c' r]|] eqn:Hc; [|reflexivity].
  apply findOneAndUpdate_ids in Hc. destruct r; cbn [fst]; apply ids_stored; exact Hc.
Qed.

Lemma delete_document_ids `{Platform} (now : Z) (db : database) (req : Request)
    (n : string) :
  ids (collection (fst (DbRoutes.delete_document now db req)) n) = ids (collection db n).
Proof.
  unfold DbRoutes.delete_document.
  destruct (ObjectId (param req "id")) as [oid|]; [|reflexivity].
  destruct (updateOne _ _ _) as [[c' m]|] eqn:Hc; [|reflexivity].
  apply updateOne_ids in Hc. destruct (m =? 0); cbn [fst]; apply ids_stored; exact Hc.
Qed.

Lemma delete_documents_ids `{Platform} (now : Z) (db : database) (req : Request) (n : string) :
  ids (collection (fst (DbRoutes.delete_documents now db req)) n) = ids (collection db n).
Proof.
  unfold DbRoutes.delete_documents.
  destruct (JS.not_plain_object _); [reflexivity|].
  destruct (updateMany _ _ _) as [[c' m]|] eqn:Hc; [|reflexivity].
  apply updateMany_ids in Hc. cbn [fst]. apply ids_stored; exact Hc.
Qed.

Lemma post_document_ids (now : Z) (fresh : string) (db : database) (req : Request)
    (n : string) :
  (ids (collection (fst (DbRoutes.post_document now fresh db req)) n)
   = ids (collection db n))
  ∨ (∃ id, n = param req "name" ∧ ¬ (Some id ∈ ids (collection db n))
           ∧ ids (collection (fst (DbRoutes.post_document now fresh db req)) n)
             = ids (collection db n) ++ [Some id]).
Proof.
  unfold DbRoutes.post_document.
  destruct (String.eqb (param req "name") EmptyString); [left; reflexivity|].
  destruct (JS.not_plain_object _); [left; reflexivity|].
  unfold insertOne. case_bool_decide as Hdup; [left; reflexivity|].
  cbn [fst]. rewrite collection_insert. case_decide as Hn; [|left; reflexivity].
  subst n. right. eexists. split; [reflexivity|]. split.
  - intros Hin. apply Hdup. unfold ids in Hin.
    apply list_elem_of_fmap in Hin as (d & Hd & Hin).
    apply Exists_exists. exists d. split; [exact Hin | symmetry; exact Hd].
  - unfold ids. rewrite fmap_app. cbn. rewrite lookup_insert_eq. reflexivity.
Qed.

(** X1: the write routes never remove or reorder documents and never
    change an [_id]: an update or a soft delete leaves the list of
    identifiers of every collection as it was, and an insert at most
    appends one identifier that was not there; so identifiers that are
    unique stay unique. *)
Theorem writes_keep_identifiers `{Platform} (now : Z) (fresh : string)
    (db : database) (req : Request) (n : string) :
  ids (collection (fst (DbRoutes.patch_document now db req)) n) = ids (collection db n)
  ∧ ids (collection (fst (DbRoutes.delete_document now db req)) n) = ids (collection db n)
  ∧ ids (collection (fst (DbRoutes.delete_documents now db req)) n) = ids (collection db n)
  ∧ ids (collection db n)
    `prefix_of` ids (collection (fst (DbRoutes.post_document now fresh db req)) n)
  ∧ (NoDup (ids (collection db n)) →
     NoDup (ids (collection (fst (DbRoutes.post_document now fresh db req)) n))).
Proof.
  split; [apply patch_document_ids|]. split; [apply delete_document_ids|].
  split; [apply delete_documents_ids|].
  destruct (post_document_ids now fresh db req n) as [-> | (id & _ & Hnew & ->)].
  - split; [reflexivity | trivial].
  - split; [eexists; reflexivity|]. intros Hnd.
    apply NoDup_app. split; [exact Hnd|]. split.
    + intros x Hx Hx'. apply list_elem_of_singleton in Hx'. subst x. exact (Hnew Hx).
    + apply NoDup_singleton.
Qed.

Lemma writes_keep_identifiers_witness :
  let req := Sample.request (Some Sample.alice) "items" EmptyString
               (Some (VObj {[ "name" := VStr "Gadget" ]})) in
  NoDup (ids (collection Sample.shop "items"))
  ∧ NoDup (ids (collection
                  (fst (DbRoutes.post_document 1000 "64b7f0c2a1d3e4f5a6b7c8e0"
                          Sample.shop req)) "items")).
Proof.
  intros req.
  assert (Hnd : NoDup (ids (collection Sample.shop "items"))) by compute_done.
  split; [exact Hnd|].
  apply (@writes_keep_identifiers Sample.platform 1000 "64b7f0c2a1d3e4f5a6b7c8e0"
           Sample.shop req "items"). exact Hnd.
Defined.

(** ** Reading one document *)

Lemma findOne_some (filter : obj) (c : list obj) (d : obj) :
  findOne filter c = Some d → d ∈ c ∧ matches filter d = true.
Proof.
  unfold findOne. induction c as [|d0 c IH]; cbn; [discriminate|].
  destruct (matches filter d0) eqn:Hm; cbn.
  - intros Hd. injection Hd as <-. split; [constructor | exact Hm].
  - intros Hd. destruct (IH Hd) as [Hin Hmd]. split; [constructor; exact Hin | exact Hmd].
Qed.

Lemma findOne_is_some (filter : obj) (c : list obj) (d : obj) :
  d ∈ c → matches filter d = true → is_Some (findOne filter c).
Proof.
  unfold findOne. induction c as [|d0 c IH]; intros Hin Hm.
  - apply elem_of_nil in Hin. contradiction.
  - cbn. destruct (matches filter d0) eqn:Hm0; cbn; [eauto|].
    apply elem_of_cons in Hin as [->|Hin]; [congruence|]. apply IH; assumption.
Qed.

Lemma findOne_app_none (filter : obj) (c : list obj) (d : obj) :
  Forall (λ x, matches filter x = false) c →
  findOne filter (c ++ [d]) = if matches filter d then Some d else None.
Proof.
  unfold findOne. induction 1 as [|x c Hx _ IH]; cbn.
  - destruct (matches filter d); reflexivity.
  - rewrite Hx. exact IH.
Qed.

(** In a collection with unique identifiers, the lookup by identifier
    finds the document with that identifier if it is active, and
    nothing otherwise. *)
Lemma findOne_unique (c : list obj) (d : obj) (oid : string) :
  NoDup (ids c) → d ∈ c → d !! "_id" = Some (VOid oid) →
  findOne (addSoftDeleteFilter (Some (DbRoutes.by_id oid))) c
  = if is_active d then Some d else None.
Proof.
  intros Hnd Hin Hid. induction c as [|d0 c IH].
  - apply elem_of_nil in Hin. contradiction.
  - unfold ids in Hnd. cbn in Hnd. apply NoDup_cons in Hnd as [Hfresh Hnd].
    apply elem_of_cons in Hin as [<-|Hin].
    + unfold findOne. cbn [List.filter]. rewrite matches_active_by_id.
      rewrite (bool_decide_eq_true_2 _ Hid), andb_true_r.
      destruct (is_active d) eqn:Ha; cbn [head]; [reflexivity|].
      fold (findOne (addSoftDeleteFilter (Some (DbRoutes.by_id oid))) c).
      apply findOne_none. apply Forall_forall. intros x Hx.
      rewrite matches_active_by_id. apply andb_false_intro2, bool_decide_eq_false.
      intros Hxid. apply Hfresh. rewrite Hid, <- Hxid.
      apply list_elem_of_fmap. exists x. split; [reflexivity | exact Hx].
    + assert (Hd0 : d0 !! "_id" ≠ Some (VOid oid)).
      { intros Hd0. apply Hfresh. rewrite Hd0, <- Hid.
        apply list_elem_of_fmap. exists d. split; [reflexivity | exact Hin]. }
      unfold findOne. cbn [List.filter]. rewrite matches_active_by_id.
      rewrite (bool_decide_eq_false_2 _ Hd0), andb_false_r.
      apply IH; assumption.
Qed.

(** X2: GET by identifier answers 200 exactly when the collection
    holds an active document with that identifier, and the document it
    sends is such a document of the collection; otherwise it answers
    404.  It never sends a document that carries [deleted_at]. *)
Theorem get_document_finds_active `{Platform} (db : database) (req : Request)
    (oid : string) :
  ObjectId (param req "id") = Some oid →
  let c := collection db (param req "name") in
  (Exists (λ d, d !! "_id" = Some (VOid oid) ∧ is_active d = true) c →
   ∃ d, d ∈ c ∧ d !! "_id" = Some (VOid oid) ∧ is_active d = true
        ∧ DbRoutes.get_document db req = (db, Sent (ok 200 {[ "document" := VObj d ]})))
  ∧ (¬ Exists (λ d, d !! "_id" = Some (VOid oid) ∧ is_active d = true) c →
     DbRoutes.get_document db req = (db, Sent (error 404 "Document not found"))).
Proof.
  intros Hoid c. unfold DbRoutes.get_document. rewrite Hoid. fold c. split.
  - intros (d0 & Hin0 & Hid0 & Ha0)%Exists_exists.
    destruct (findOne_is_some (addSoftDeleteFilter (Some (DbRoutes.by_id oid))) c d0 Hin0)
      as [d Hd].
    { rewrite matches_active_by_id, Ha0. apply bool_decide_eq_true_2. exact Hid0. }
    rewrite Hd. apply findOne_some in Hd as [Hin Hm].
    rewrite matches_active_by_id in Hm. apply andb_prop in Hm as [Ha Hid].
    apply bool_decide_eq_true_1 in Hid. exists d. auto.
  - intros Hno. rewrite findOne_none; [reflexivity|].
    apply Forall_forall. intros d Hin. rewrite matches_active_by_id.
    destruct (is_active d) eqn:Ha; [|reflexivity]. cbn.
    apply bool_decide_eq_false. intros Hid. apply Hno, Exists_exists. exists d. auto.
Qed.

Lemma get_document_finds_active_witness :
  let req := Sample.request None "items" Sample.widget_id None in
  @ObjectId Sample.platform (param req "id") = Some Sample.widget_id
  ∧ ¬ Exists (λ d : obj, d !! "_id" = Some (VOid Sample.widget_id) ∧ is_active d = true)
        (collection Sample.shop_after_delete (param req "name"))
  ∧ @DbRoutes.get_document Sample.platform Sample.shop_after_delete req
    = (Sample.shop_after_delete, Sent (error 404 "Document not found")).
Proof.
  intros req.
  assert (Hoid : @ObjectId Sample.platform (param req "id") = Some Sample.widget_id)
    by (vm_compute; reflexivity).
  assert (Hno : ¬ Exists (λ d : obj, d !! "_id" = Some (VOid Sample.widget_id)
                                     ∧ is_active d = true)
                    (collection Sample.shop_after_delete (param req "name")))
    by compute_done.
  split; [exact Hoid|]. split; [exact Hno|].
  exact (proj2 (@get_document_finds_active Sample.platform Sample.shop_after_delete req
                  Sample.widget_id Hoid) Hno).
Defined.

(** ** Round trips through the routes *)

Lemma create_metadata_not_deleted (now : Z) (u : option value) :
  getCreateMetadata now u !! "deleted_at" = None.
Proof. apply create_metadata_other; discriminate. Qed.

(** X3: insert, then GET.  When an insert is answered 201 with an
    ObjectId, a GET of that identifier in the same collection answers
    200 with the stored document, which has the creation metadata of
    the insert and the caller's other fields, provided the body did not
    itself carry [deleted_at]; if it did, the GET answers 404. *)
Theorem insert_then_get `{Platform} (now : Z) (fresh : string)
    (db db1 : database) (req req' : Request) (r : Response) (o : string) :
  DbRoutes.post_document now fresh db req = (db1, Sent r) →
  payload r = VObj {[ "ok" := VBool true; "insertedId" := VOid o ]} →
  param req' "name" = param req "name" →
  ObjectId (param req' "id") = Some o →
  let caller := JS.spread (body_or_empty req) in
  (caller !! "deleted_at" = None →
   ∃ d, DbRoutes.get_document db1 req' = (db1, Sent (ok 200 {[ "document" := VObj d ]}))
        ∧ d !! "_id" = Some (VOid o)
        ∧ d !! "created_at" = Some (VDate now)
        ∧ d !! "created_by" = Some (actor (user req))
        ∧ ∀ k, k ≠ "created_at" → k ≠ "created_by" → k ≠ "_id" → d !! k = caller !! k)
  ∧ (caller !! "deleted_at" ≠ None →
     DbRoutes.get_document db1 req' = (db1, Sent (error 404 "Document not found"))).
Proof.
  intros Hpost Hpay Hname Hoid caller. subst caller.
  unfold DbRoutes.post_document in Hpost.
  destruct (String.eqb (param req "name") EmptyString);
    [injection Hpost as <- <-; cbn in Hpay; apply (f_equal (λ v, JS.prop (Some v) "insertedId")) in Hpay;
     cbn in Hpay; discriminate Hpay|].
  destruct (JS.not_plain_object (body_or_empty req));
    [injection Hpost as <- <-; cbn in Hpay; apply (f_equal (λ v, JS.prop (Some v) "insertedId")) in Hpay;
     cbn in Hpay; discriminate Hpay|].
  unfold insertOne in Hpost. case_bool_decide as Hdup; [discriminate|].
  injection Hpost as <- <-.
  apply (f_equal (λ v, JS.prop (Some v) "insertedId")) in Hpay.
  unfold ok in Hpay. cbn [payload JS.prop] in Hpay.
  rewrite lookup_insert_ne, lookup_singleton_eq in Hpay by discriminate.
  rewrite lookup_insert_ne, lookup_singleton_eq in Hpay by discriminate.
  injection Hpay as Hid.
  set (doc := getCreateMetadata now (user req) ∪ JS.spread (body_or_empty req)) in *.
  set (c := collection db (param req "name")) in *.
  assert (Hfind : findOne (addSoftDeleteFilter (Some (DbRoutes.by_id o)))
                    (c ++ [<[ "_id" := VOid o ]> doc])
                  = if is_active (<[ "_id" := VOid o ]> doc)
                    then Some (<[ "_id" := VOid o ]> doc) else None).
  { rewrite findOne_app_none.
    - rewrite matches_active_by_id, lookup_insert_eq.
      rewrite (bool_decide_eq_true_2 _ eq_refl), andb_true_r. reflexivity.
    - apply Forall_forall. intros x Hx. rewrite matches_active_by_id.
      apply andb_false_intro2, bool_decide_eq_false. intros Hxid.
      apply Hdup, Exists_exists. exists x. split; [exact Hx|].
      rewrite Hid. exact Hxid. }
  assert (Hact : is_active (<[ "_id" := VOid o ]> doc)
                 = bool_decide (JS.spread (body_or_empty req) !! "deleted_at" = None)).
  { unfold is_active. rewrite lookup_insert_ne by discriminate.
    unfold doc. rewrite lookup_union_r by apply create_metadata_not_deleted. reflexivity. }
  unfold DbRoutes.get_document. rewrite Hoid, Hname.
  rewrite collection_insert, decide_True by reflexivity.
  rewrite Hid, Hfind, Hact. split.
  - intros Hnone. rewrite (bool_decide_eq_true_2 _ Hnone).
    eexists. split; [reflexivity|]. split; [apply lookup_insert_eq|].
    split; [|split].
    + rewrite lookup_insert_ne by discriminate.
      apply lookup_union_Some_l, create_metadata_at.
    + rewrite lookup_insert_ne by discriminate.
      apply lookup_union_Some_l, create_metadata_by.
    + intros k Hk1 Hk2 Hk3. rewrite lookup_insert_ne by congruence.
      apply lookup_union_r, create_metadata_other; assumption.
  - intros Hsome. rewrite (bool_decide_eq_false_2 _ Hsome). reflexivity.
Qed.

Lemma insert_then_get_witness :
  let fresh := "64b7f0c2a1d3e4f5a6b7c8e0" in
  let req := Sample.request (Some Sample.alice) "items" EmptyString
               (Some (VObj {[ "name" := VStr "Gadget" ]})) in
  let req' := Sample.request None "items" fresh None in
  let out := DbRoutes.post_document 1000 fresh Sample.shop req in
  out = (fst out, Sent (response_of (snd out)))
  ∧ JS.spread (body_or_empty req) !! "deleted_at" = None
  ∧ ∃ d, @DbRoutes.get_document Sample.platform (fst out) req'
         = (fst out, Sent (ok 200 {[ "document" := VObj d ]}))
         ∧ d !! "created_by" = Some (VStr "alice").
Proof.
  intros fresh req req' out.
  assert (Hout : out = (fst out, Sent (response_of (snd out)))) by (vm_compute; reflexivity).
  assert (Hbody : JS.spread (body_or_empty req) !! "deleted_at" = None)
    by (vm_compute; reflexivity).
  split; [exact Hout|]. split; [exact Hbody|].
  destruct (proj1 (@insert_then_get Sample.platform 1000 fresh Sample.shop (fst out)
                     req req' (response_of (snd out)) fresh Hout
                     ltac:(vm_compute; reflexivity) ltac:(vm_compute; reflexivity)
                     ltac:(vm_compute; reflexivity)) Hbody)
    as (d & Hget & _ & _ & Hby & _).
  exists d. split; [exact Hget | exact Hby].
Defined.

Lemma updateOne_count `{Platform} (filter fields : obj) (c c' : list obj) (n : Z) :
  updateOne filter fields c = Ok (c', n) → n = 0 ∨ n = 1.
Proof.
  revert c' n. induction c as [|d c IH]; intros c' n Hc; cbn in Hc.
  - injection Hc as <- <-. left. reflexivity.
  - destruct (matches filter d).
    + destruct (set_fields fields d) as [d'|]; [|discriminate].
      injection Hc as <- <-. unfold changed. case_bool_decide; auto.
    + destruct (updateOne filter fields c) as [[c1 n1]|]; [|discriminate].
      injection Hc as <- <-. eapply IH. reflexivity.
Qed.

(** X4: soft delete, then GET.  In a collection with unique
    identifiers, when a DELETE by identifier is answered 200 it
    reports exactly one document as deleted, a GET of the same
    identifier then answers 404, and the collection still holds as
    many documents as before. *)
Theorem delete_then_get `{Platform} (now : Z) (db db1 : database)
    (req : Request) (r : Response) :
  NoDup (ids (collection db (param req "name"))) →
  DbRoutes.delete_document now db req = (db1, Sent r) →
  statusCode r = 200 →
  r = ok 200 {[ "deleted" := VNum 1 ]}
  ∧ DbRoutes.get_document db1 req = (db1, Sent (error 404 "Document not found"))
  ∧ length (collection db1 (param req "name")) = length (collection db (param req "name")).
Proof.
  intros Hnd Hdel Hs. unfold DbRoutes.delete_document in Hdel.
  unfold DbRoutes.get_document.
  destruct (ObjectId (param req "id")) as [oid|];
    [|injection Hdel as <- <-; discriminate Hs].
  destruct (updateOne _ _ _) as [[c' n]|] eqn:Hc; [|discriminate].
  destruct (n =? 0) eqn:Hn; [injection Hdel as <- <-; discriminate Hs|].
  injection Hdel as <- <-. apply Z.eqb_neq in Hn.
  assert (n = 1) as -> by (destruct (updateOne_count _ _ _ _ _ Hc); congruence).
  pose proof (updateOne_ids _ _ _ _ _ Hc) as Hids.
  destruct (updateOne_modified _ _ _ _ _ Hc Hn) as (d & d' & Hin & Hm & Hset & Hin').
  pose proof (set_fields_id _ _ _ Hset) as Hid'.
  apply set_fields_result in Hset; [|apply delete_metadata_plain]. subst d'.
  rewrite matches_active_by_id in Hm. apply andb_prop in Hm as [_ Hid].
  apply bool_decide_eq_true_1 in Hid.
  rewrite collection_insert, decide_True by reflexivity.
  split; [reflexivity|]. split.
  - rewrite (findOne_unique c' (getDeleteMetadata now (user req) ∪ d) oid).
    + rewrite deleted_after_delete_metadata. reflexivity.
    + rewrite Hids. exact Hnd.
    + exact Hin'.
    + rewrite Hid'. exact Hid.
  - apply (f_equal length) in Hids. unfold ids in Hids.
    rewrite !length_fmap in Hids. exact Hids.
Qed.

Lemma delete_then_get_witness :
  let req := Sample.request (Some Sample.bob) "items" Sample.widget_id None in
  let out := @DbRoutes.delete_document Sample.platform 2000 Sample.shop req in
  NoDup (ids (collection Sample.shop (param req "name")))
  ∧ out = (fst out, Sent (response_of (snd out)))
  ∧ statusCode (response_of (snd out)) = 200
  ∧ @DbRoutes.get_document Sample.platform (fst out) req
    = (fst out, Sent (error 404 "Document not found")).
Proof.
  intros req out.
  assert (Hnd : NoDup (ids (collection Sample.shop (param req "name")))) by compute_done.
  assert (Hout : out = (fst out, Sent (response_of (snd out)))) by (vm_compute; reflexivity).
  assert (Hs : statusCode (response_of (snd out)) = 200) by (vm_compute; reflexivity).
  split; [exact Hnd|]. split; [exact Hout|]. split; [exact Hs|].
  exact (proj1 (proj2 (@delete_then_get Sample.platform 2000 Sample.shop (fst out) req
                         (response_of (snd out)) Hnd Hout Hs))).
Defined.

Lemma set_fields_touched `{Platform} (fields d d' : obj) (key : string) :
  set_fields fields d = Ok d' → is_Some (fields !! key) →
  is_Some (d' !! Path.root key).
Proof.
  intros Hset Hkey. unfold set_fields in Hset. case_bool_decide as Hp.
  - assert (d' = fields ∪ d) as ->.
    { destruct (fields !! "_id"); [case_bool_decide|]; congruence. }
    destruct Hkey as [v Hv]. rewrite (root_plain key (Hp key v Hv)).
    apply lookup_union_is_Some. left. eauto.
  - destruct (set_paths fields d) as [d1|m] eqn:Hs; [|discriminate].
    injection Hset as <-. exact (set_paths_path fields d d1 key Hs Hkey).
Qed.

Lemma touched_key (k : string) (fields : obj) :
  ¬ untouched k fields → ∃ key, is_Some (fields !! key) ∧ Path.root key = k.
Proof.
  intros Hno. apply (map_not_Forall _) in Hno as (key & v & Hv & Hroot).
  exists key. split; [eauto|]. destruct (decide (Path.root key = k)); [assumption|].
  contradiction.
Qed.

(** X5: update, then GET.  In a collection with unique identifiers,
    when an update finds its target, an active document with that
    identifier, and is answered, a GET of the same identifier answers
    200 with the document the update stored if no key of the body is
    [deleted_at] or a path that starts in it, and 404 otherwise: an
    update whose body names [deleted_at], or a field inside it, hides
    the document.  With a driver that resolves [findOneAndUpdate] to
    [{ value }], the update itself was answered 200 with that
    document. *)
Theorem patch_then_get `{Platform} (now : Z) (db db1 : database)
    (req : Request) (r : Response) (oid : string) :
  NoDup (ids (collection db (param req "name"))) →
  well_formed req →
  ObjectId (param req "id") = Some oid →
  visible (collection db (param req "name")) oid →
  DbRoutes.patch_document now db req = (db1, Sent r) →
  let caller := JS.spread (body_or_empty req) in
  ∃ d', d' ∈ collection db1 (param req "name")
        ∧ d' !! "_id" = Some (VOid oid)
        ∧ (includeResultMetadata = true → r = ok 200 {[ "document" := VObj d' ]})
        ∧ (untouched "deleted_at" caller →
           DbRoutes.get_document db1 req
           = (db1, Sent (ok 200 {[ "document" := VObj d' ]})))
        ∧ (¬ untouched "deleted_at" caller →
           DbRoutes.get_document db1 req
           = (db1, Sent (error 404 "Document not found"))).
Proof.
  intros Hnd Hwf Hoid Hvis Hpatch caller. subst caller.
  destruct (patch_document_found now db db1 req r oid Hwf Hoid Hvis Hpatch)
    as (d & d' & Hin & Hid & Ha & Hset & Hin' & Hid' & Hr).
  pose proof (patch_document_ids now db req (param req "name")) as Hids.
  rewrite Hpatch in Hids. cbn [fst] in Hids.
  assert (Hget : DbRoutes.get_document db1 req
                 = (db1, if is_active d'
                         then Sent (ok 200 {[ "document" := VObj d' ]})
                         else Sent (error 404 "Document not found"))).
  { unfold DbRoutes.get_document. rewrite Hoid.
    rewrite (findOne_unique _ d' oid); [|rewrite Hids; exact Hnd | exact Hin' | exact Hid'].
    destruct (is_active d'); reflexivity. }
  exists d'. split; [exact Hin'|]. split; [exact Hid'|]. split; [|split].
  - intros Hmeta. unfold DbRoutes.patch_answer in Hr. rewrite Hmeta in Hr.
    injection Hr as <-. reflexivity.
  - intros Hu. rewrite Hget.
    apply set_fields_updated in Hset as (_ & _ & _ & Hsame).
    unfold is_active. rewrite (Hsame "deleted_at") by (discriminate || exact Hu).
    unfold is_active in Ha. rewrite Ha. reflexivity.
  - intros Hno. rewrite Hget.
    apply touched_key in Hno as (key & Hkey & Hroot).
    assert (Hsome : is_Some (d' !! "deleted_at")).
    { rewrite <- Hroot. apply (set_fields_touched _ d d' key Hset).
      apply lookup_union_is_Some. right. exact Hkey. }
    unfold is_active. rewrite bool_decide_eq_false_2; [reflexivity|].
    destruct Hsome as [v Hv]. rewrite Hv. discriminate.
Qed.

(** On a server that follows the path, an update with the body
    [{ "deleted_at.x": 1 }], which has no [deleted_at] key, hides the
    widget. *)
Lemma patch_then_get_witness :
  let body : obj := {[ "deleted_at.x" := VNum 1 ]} in
  let req := Sample.request (Some Sample.bob) "items" Sample.widget_id
               (Some (VObj body)) in
  let out := @DbRoutes.patch_document Sample.nested 2000 Sample.shop req in
  NoDup (ids (collection Sample.shop (param req "name")))
  ∧ well_formed req
  ∧ visible (collection Sample.shop (param req "name")) Sample.widget_id
  ∧ out = (fst out, Sent (response_of (snd out)))
  ∧ body !! "deleted_at" = None
  ∧ ¬ untouched "deleted_at" (JS.spread (body_or_empty req))
  ∧ @DbRoutes.get_document Sample.nested (fst out) req
    = (fst out, Sent (error 404 "Document not found")).
Proof.
  intros body req out.
  assert (Hnd : NoDup (ids (collection Sample.shop (param req "name")))) by compute_done.
  assert (Hwf : well_formed req) by (repeat split; vm_compute; congruence).
  assert (Hoid : @ObjectId Sample.nested (param req "id") = Some Sample.widget_id)
    by (vm_compute; reflexivity).
  assert (Hvis : visible (collection Sample.shop (param req "name")) Sample.widget_id)
    by compute_done.
  assert (Hout : out = (fst out, Sent (response_of (snd out)))) by (vm_compute; reflexivity).
  assert (Hbody : ¬ untouched "deleted_at" (JS.spread (body_or_empty req)))
    by compute_done.
  split; [exact Hnd|]. split; [exact Hwf|]. split; [exact Hvis|].
  split; [exact Hout|]. split; [vm_compute; reflexivity|]. split; [exact Hbody|].
  destruct (@patch_then_get Sample.nested 2000 Sample.shop (fst out) req
              (response_of (snd out)) Sample.widget_id Hnd Hwf Hoid Hvis Hout)
    as (d' & _ & _ & _ & _ & Hhide).
  exact (Hhide Hbody).
Defined.

(** ** What the find routes send *)

Lemma cursor_limit_subseteq `{Platform} (n : Z) (l : list obj) : cursor_limit n l ⊆ l.
Proof.
  unfold cursor_limit. destruct (n =? 0); [reflexivity|].
  destruct (0 <? n); apply subseteq_take.
Qed.

Lemma find_sound `{Platform} (filter : obj) (projection : option value)
    (sort : value) (skip limit : Z) (c docs : list obj) (x : obj) :
  sort_permutes →
  find filter projection sort skip limit c = Ok docs → x ∈ docs →
  ∃ d, d ∈ c ∧ x = projectDoc projection d ∧ matches filter d = true.
Proof.
  intros Hsort Hfind Hx. unfold find, cursor_skip in Hfind.
  destruct (skip <? 0); [discriminate|]. injection Hfind as <-.
  apply list_elem_of_fmap in Hx as (d & -> & Hd).
  apply cursor_limit_subseteq, subseteq_drop in Hd.
  rewrite (Hsort sort _) in Hd. apply list_elem_of_In, filter_In in Hd as [Hd Hm].
  exists d. split; [apply list_elem_of_In; exact Hd|]. split; [reflexivity | exact Hm].
Qed.

(** X6: the document find route sends only active documents: every
    document in its answer is the projection of a document of the
    collection that has no [deleted_at] and matches the caller's filter
    (its [deleted_at] constraint apart), provided the cursor's sort
    only reorders. *)
Theorem find_sends_only_active `{Platform} (db : database) (req : Request) (v : value) :
  sort_permutes →
  v ∈ documents_sent "documents" (snd (DbRoutes.post_find db req)) →
  ∃ d, d ∈ collection db (param req "name")
       ∧ v = VObj (projectDoc (JS.prop (Some (body_or_empty req)) "projection") d)
       ∧ is_active d = true
       ∧ matches (delete "deleted_at" (JS.spread (requested_filter req))) d = true.
Proof.
  intros Hsort. unfold DbRoutes.post_find. fold (requested_filter req).
  destruct (JS.not_plain_object (requested_filter req)); cbn [snd];
    [rewrite documents_sent_error; intros Hv; apply elem_of_nil in Hv; contradiction|].
  destruct (DbRoutes.find_throws _); cbn [snd];
    [intros Hv; apply elem_of_nil in Hv; contradiction|].
  destruct (find _ _ _ _ _ _) as [docs|] eqn:Hfind; cbn [snd];
    [|intros Hv; apply elem_of_nil in Hv; contradiction].
  rewrite documents_sent_find_result. intros (x & -> & Hx)%list_elem_of_fmap.
  destruct (find_sound _ _ _ _ _ _ _ x Hsort Hfind Hx) as (d & Hd & -> & Hm).
  rewrite matches_soft_delete_filter in Hm. apply andb_prop in Hm as [Ha Hm].
  exists d. auto.
Qed.

Lemma sample_sort_permutes : @sort_permutes Sample.platform.
Proof. intros s l. reflexivity. Qed.

Lemma find_sends_only_active_witness :
  let req := Sample.request (Some Sample.alice) "items" EmptyString None in
  let v := VObj Sample.widget in
  @sort_permutes Sample.platform
  ∧ v ∈ documents_sent "documents" (snd (@DbRoutes.post_find Sample.platform Sample.shop req))
  ∧ ∃ d, d ∈ collection Sample.shop (param req "name") ∧ is_active d = true.
Proof.
  intros req v.
  assert (Hv : v ∈ documents_sent "documents"
                 (snd (@DbRoutes.post_find Sample.platform Sample.shop req)))
    by compute_done.
  split; [exact sample_sort_permutes|]. split; [exact Hv|].
  destruct (@find_sends_only_active Sample.platform Sample.shop req v
              sample_sort_permutes Hv) as (d & Hd & _ & Ha & _).
  exists d. split; [exact Hd | exact Ha].
Defined.




(** ** Soft delete by filter *)

Lemma delete_metadata_changes (now : Z) (u : option value) (d : obj) :
  is_active d = true → changed d (getDeleteMetadata now u ∪ d) = 1.
Proof.
  intros Ha. unfold changed. rewrite bool_decide_eq_false_2; [reflexivity|].
  intros Heq. pose proof (deleted_after_delete_metadata now u d) as Hd.
  rewrite Heq in Hd. congruence.
Qed.

Lemma updateMany_delete_result `{Platform} (now : Z) (u : option value) (F : obj) (c : list obj) :
  (∀ d, matches F d = true → is_active d = true) →
  updateMany F (getDeleteMetadata now u) c
  = Ok ((λ d, if matches F d then getDeleteMetadata now u ∪ d else d) <$> c,
        Z.of_nat (length (List.filter (matches F) c))).
Proof.
  intros HF. induction c as [|d c IH]; [reflexivity|].
  cbn [updateMany List.filter]. rewrite IH. destruct (matches F d) eqn:Hm.
  - rewrite set_fields_without_id
      by first [apply delete_metadata_plain | apply delete_metadata_no_id].
    rewrite delete_metadata_changes by (apply HF; exact Hm).
    cbn [length fmap list_fmap]. rewrite Hm. do 2 f_equal. lia.
  - cbn [fmap list_fmap]. rewrite Hm. reflexivity.
Qed.

(** X8: when the soft delete by filter is answered 200, the count it
    reports is the number of documents of the collection that were
    active and matched the filter; afterwards no document of the
    collection matches the filter any more, and the collection holds as
    many documents as before. *)
Theorem delete_documents_reports_count `{Platform} (now : Z) (db db1 : database)
    (req : Request) (r : Response) :
  DbRoutes.delete_documents now db req = (db1, Sent r) →
  statusCode r = 200 →
  let F := addSoftDeleteFilter (Some (requested_filter req)) in
  let c := collection db (param req "name") in
  r = ok 200 {[ "deleted" := VNum (Z.of_nat (length (List.filter (matches F) c))) ]}
  ∧ List.filter (matches F) (collection db1 (param req "name")) = []
  ∧ length (collection db1 (param req "name")) = length c.
Proof.
  intros Hdel Hs F c. unfold DbRoutes.delete_documents in Hdel.
  fold (requested_filter req) in Hdel. fold F in Hdel. fold c in Hdel.
  destruct (JS.not_plain_object (requested_filter req));
    [injection Hdel as <- <-; discriminate Hs|].
  rewrite updateMany_delete_result in Hdel
    by (intros d; apply matches_soft_delete_active).
  injection Hdel as <- <-.
  rewrite collection_insert, decide_True by reflexivity.
  split; [reflexivity|]. split; [|apply length_fmap].
  pose proof (no_match_after_delete now (user req) (Some (requested_filter req)) c) as Hno.
  fold F in Hno. revert Hno.
  generalize ((λ d : obj, if matches F d then getDeleteMetadata now (user req) ∪ d else d) <$> c).
  intros l. induction 1 as [|x l Hx _ IH]; [reflexivity|].
  cbn [List.filter]. rewrite Hx. exact IH.
Qed.

Lemma delete_documents_reports_count_witness :
  let req := Sample.request (Some Sample.bob) "items" EmptyString None in
  let out := @DbRoutes.delete_documents Sample.platform 2000 Sample.shop req in
  out = (fst out, Sent (response_of (snd out)))
  ∧ statusCode (response_of (snd out)) = 200
  ∧ response_of (snd out) = ok 200 {[ "deleted" := VNum 1 ]}.
Proof.
  intros req out.
  assert (Hout : out = (fst out, Sent (response_of (snd out)))) by (vm_compute; reflexivity).
  assert (Hs : statusCode (response_of (snd out)) = 200) by (vm_compute; reflexivity).
  split; [exact Hout|]. split; [exact Hs|].
  exact (proj1 (@delete_documents_reports_count Sample.platform 2000 Sample.shop
                  (fst out) req (response_of (snd out)) Hout Hs)).
Defined.

(** ** Collections *)

Lemma listCollections_spec (db : database) (name : string) :
  name ∈ listCollections db ↔ is_Some (db !! name).
Proof.
  unfold listCollections. rewrite list_elem_of_fmap. split.
  - intros ([k c] & -> & Hin). apply elem_of_map_to_list in Hin. eauto.
  - intros [c Hc]. exists (name, c). split; [reflexivity|].
    apply elem_of_map_to_list. exact Hc.
Qed.

Lemma listCollections_named_spec (db : database) (name : string) :
  (0 <? length (listCollections_named name db))%nat = bool_decide (is_Some (db !! name)).
Proof.
  unfold listCollections_named.
  destruct (decide (is_Some (db !! name))) as [Hs|Hn].
  - rewrite (bool_decide_eq_true_2 _ Hs). apply listCollections_spec in Hs.
    apply list_elem_of_In in Hs.
    assert (Hin : In name (List.filter (String.eqb name) (listCollections db))).
    { apply filter_In. split; [exact Hs | apply String.eqb_refl]. }
    destruct (List.filter (String.eqb name) (listCollections db)); [destruct Hin|].
    reflexivity.
  - rewrite (bool_decide_eq_false_2 _ Hn).
    destruct (List.filter (String.eqb name) (listCollections db)) as [|x l] eqn:Hf;
      [reflexivity|].
    exfalso. apply Hn, listCollections_spec, list_elem_of_In.
    assert (Hin : In x (List.filter (String.eqb name) (listCollections db)))
      by (rewrite Hf; left; reflexivity).
    apply filter_In in Hin as [Hin Heq]. apply String.eqb_eq in Heq. subst x. exact Hin.
Qed.

(** X9: creating a collection is idempotent and touches no document.
    For a non-empty name the route answers 200 "Collection already
    exists" when the name is taken, and the database is then exactly
    as it was; when the name is new it answers 201 and the name is
    listed afterwards, unless the server refuses the name, which goes
    to [next(err)] with nothing created.  In every case the documents
    of every collection are as before, and a second call changes
    nothing. *)
Theorem create_collection_is_idempotent (invalid : string → option string)
    (db : database) (req : Request) :
  param req "name" ≠ EmptyString →
  let name := param req "name" in
  let db1 := fst (DbRoutes.post_collection invalid db req) in
  same_documents db db1
  ∧ (is_Some (db !! name) →
     DbRoutes.post_collection invalid db req
     = (db, Sent (ok 200 {[ "message" := VStr "Collection already exists" ]})))
  ∧ (db !! name = None → invalid name = None →
     snd (DbRoutes.post_collection invalid db req)
     = Sent (ok 201 {[ "collection" := VStr name ]})
     ∧ name ∈ listCollections db1
     ∧ DbRoutes.post_collection invalid db1 req
       = (db1, Sent (ok 200 {[ "message" := VStr "Collection already exists" ]})))
  ∧ (∀ m, db !! name = None → invalid name = Some m →
     DbRoutes.post_collection invalid db req = (db, Next m))
  ∧ fst (DbRoutes.post_collection invalid db1 req) = db1.
Proof.
  intros Hname name db1. subst db1 name. apply String.eqb_neq in Hname.
  set (name := param req "name") in *.
  assert (Htaken : ∀ d : database, is_Some (d !! name) →
            DbRoutes.post_collection invalid d req
            = (d, Sent (ok 200 {[ "message" := VStr "Collection already exists" ]}))).
  { intros d Hs. unfold DbRoutes.post_collection. fold name. rewrite Hname.
    rewrite listCollections_named_spec, (bool_decide_eq_true_2 _ Hs). reflexivity. }
  assert (Hnew : db !! name = None →
            DbRoutes.post_collection invalid db req
            = match invalid name with
              | Some m => (db, Next m)
              | None => (<[ name := [] ]> db,
                         Sent (ok 201 {[ "collection" := VStr name ]}))
              end).
  { intros Hn. unfold DbRoutes.post_collection. fold name. rewrite Hname.
    rewrite listCollections_named_spec, bool_decide_eq_false_2
      by (rewrite Hn; apply is_Some_None).
    unfold createCollection. rewrite Hn. destruct (invalid name); reflexivity. }
  destruct (db !! name) as [c|] eqn:Hdb.
  - rewrite (Htaken db) by (rewrite Hdb; eauto). cbn [fst snd].
    split; [intros n; reflexivity|]. split; [reflexivity|].
    split; [discriminate|]. split; [discriminate|].
    rewrite (Htaken db) by (rewrite Hdb; eauto). reflexivity.
  - rewrite (Hnew eq_refl). destruct (invalid name) as [m|] eqn:Hinv; cbn [fst snd].
    + split; [intros n; reflexivity|]. split; [intros [? ?]; discriminate|].
      split; [discriminate|]. split; [intros m' _ [= <-]; reflexivity|].
      rewrite (Hnew eq_refl). reflexivity.
    + assert (Hs : is_Some ((<[ name := [] ]> db) !! name))
        by (rewrite lookup_insert_eq; eauto).
      split.
      { intros n. rewrite collection_insert. case_decide as Hn; [|reflexivity].
        subst n. unfold collection. rewrite Hdb. reflexivity. }
      split; [intros [? ?]; discriminate|].
      split.
      { intros _ _. split; [reflexivity|].
        split; [apply listCollections_spec; exact Hs | apply Htaken; exact Hs]. }
      split; [discriminate|].
      rewrite (Htaken _ Hs). reflexivity.
Qed.

Lemma create_collection_is_idempotent_witness :
  let req := Sample.request (Some Sample.alice) "orders" EmptyString None in
  param req "name" ≠ EmptyString
  ∧ Sample.shop !! param req "name" = None
  ∧ snd (DbRoutes.post_collection (λ _, None) Sample.shop req)
    = Sent (ok 201 {[ "collection" := VStr "orders" ]}).
Proof.
  intros req.
  assert (Hname : param req "name" ≠ EmptyString) by (vm_compute; discriminate).
  assert (Hnew : Sample.shop !! param req "name" = None) by (vm_compute; reflexivity).
  split; [exact Hname|]. split; [exact Hnew|].
  destruct (create_collection_is_idempotent (λ _, None) Sample.shop req Hname)
    as (_ & _ & H201 & _).
  exact (proj1 (H201 Hnew eq_refl)).
Defined.

(** ** Bodies that are not objects *)

(** X10: a body that is a JSON array is refused by every route that
    reads a body: the find and delete-by-filter routes read [filter]
    off it and get the array's own [filter] method, which is no
    object, and the insert and update routes test the body itself.
    Each answers with status 400 and stores nothing. *)
Theorem array_body_is_refused `{Platform} (now : Z) (fresh : string)
    (db : database) (req : Request) (items : list value) :
  body req = Some (VArr items) →
  DbRoutes.post_find db req = (db, Sent (error 400 "filter must be an object"))
  ∧ DbRoutes.delete_documents now db req
    = (db, Sent (error 400 "filter must be an object"))
  ∧ ActionsRoutes.post_actions_find db req
    = (db, Sent (error 400 "filter must be an object"))
  ∧ (∃ m, DbRoutes.post_document now fresh db req = (db, Sent (error 400 m)))
  ∧ (∃ m, DbRoutes.patch_document now db req = (db, Sent (error 400 m))).
Proof.
  intros Hbody.
  assert (Hb : body_or_empty req = VArr items)
    by (unfold body_or_empty; rewrite Hbody; reflexivity).
  split; [|split; [|split; [|split]]].
  - unfold DbRoutes.post_find. rewrite Hb. reflexivity.
  - unfold DbRoutes.delete_documents. rewrite Hb. reflexivity.
  - unfold ActionsRoutes.post_actions_find. rewrite Hb. reflexivity.
  - unfold DbRoutes.post_document. rewrite Hb.
    destruct (String.eqb (param req "name") EmptyString); eexists; reflexivity.
  - unfold DbRoutes.patch_document. rewrite Hb.
    destruct (String.eqb (param req "name") EmptyString); [eexists; reflexivity|].
    destruct (String.eqb (param req "id") EmptyString); [eexists; reflexivity|].
    destruct (ObjectId (param req "id")); eexists; reflexivity.
Qed.

Lemma array_body_is_refused_witness :
  let req := Sample.request (Some Sample.alice) "items" EmptyString
               (Some (VArr [VNum 1; VNum 2])) in
  body req = Some (VArr [VNum 1; VNum 2])
  ∧ @DbRoutes.delete_documents Sample.platform 2000 Sample.shop req
    = (Sample.shop, Sent (error 400 "filter must be an object")).
Proof.
  intros req. split; [reflexivity|].
  apply (@array_body_is_refused Sample.platform 2000 EmptyString Sample.shop req
           [VNum 1; VNum 2]). reflexivity.
Defined.

Lemma body_or_empty_with_body (v : value) (req : Request) :
  JS.truthy v = true → body_or_empty (with_body (Some v) req) = v.
Proof. intros Hv. unfold body_or_empty, with_body; cbn. rewrite Hv. reflexivity. Qed.

(** X11: a [filter] that is [null] passes the routes' check and
    selects what no filter selects: on the find and the
    delete-by-filter routes a body with [filter: null] has the outcome
    of the same body without [filter], so such a delete soft-deletes
    every active document of the collection. *)
Theorem null_filter_selects_all `{Platform} (now : Z) (db : database)
    (req : Request) (m : obj) :
  m !! "filter" = Some VNull →
  let req_null := with_body (Some (VObj m)) req in
  let req_none := with_body (Some (VObj (delete "filter" m))) req in
  DbRoutes.post_find db req_null = DbRoutes.post_find db req_none
  ∧ DbRoutes.delete_documents now db req_null = DbRoutes.delete_documents now db req_none
  ∧ ∀ db1 r, DbRoutes.delete_documents now db req_null = (db1, Sent r) →
      Forall (λ d, is_active d = false) (collection db1 (param req "name")).
Proof.
  intros Hm req_null req_none. subst req_null req_none.
  assert (Hspread : addSoftDeleteFilter (Some VNull) = addSoftDeleteFilter (Some (VObj ∅)))
    by reflexivity.
  split; [|split].
  - unfold DbRoutes.post_find, DbRoutes.find_limit, DbRoutes.find_skip,
      DbRoutes.find_throws.
    rewrite !body_or_empty_with_body by reflexivity. cbn [JS.prop].
    rewrite Hm, lookup_delete_eq, !lookup_delete_ne by discriminate.
    cbn [from_option id JS.not_plain_object]. rewrite Hspread. reflexivity.
  - unfold DbRoutes.delete_documents.
    rewrite !body_or_empty_with_body by reflexivity. cbn [JS.prop].
    rewrite Hm, lookup_delete_eq.
    cbn [from_option id JS.not_plain_object]. rewrite Hspread. reflexivity.
  - intros db1 r. unfold DbRoutes.delete_documents.
    rewrite body_or_empty_with_body by reflexivity. cbn [JS.prop]. rewrite Hm.
    cbn [from_option id JS.not_plain_object].
    rewrite updateMany_delete_result by (intros d; apply matches_soft_delete_active).
    intros Heq. injection Heq as <- _.
    rewrite collection_insert, decide_True by reflexivity.
    apply Forall_fmap, Forall_forall. intros d _. unfold compose. cbn beta.
    destruct (matches (addSoftDeleteFilter (Some VNull)) d) eqn:Hd.
    + apply deleted_after_delete_metadata.
    + rewrite matches_soft_delete_filter in Hd. cbn [JS.spread] in Hd.
      rewrite delete_empty in Hd.
      assert (Hall : matches ∅ d = true)
        by (apply bool_decide_eq_true_2, map_Forall_empty).
      rewrite Hall, andb_true_r in Hd. exact Hd.
Qed.

Lemma null_filter_selects_all_witness :
  let m : obj := {[ "filter" := VNull ]} in
  let req := Sample.request (Some Sample.bob) "items" EmptyString None in
  m !! "filter" = Some VNull
  ∧ Forall (λ d, is_active d = false)
      (collection (fst (@DbRoutes.delete_documents Sample.platform 2000 Sample.shop
                          (with_body (Some (VObj m)) req))) "items").
Proof.
  intros m req.
  assert (Hm : m !! "filter" = Some VNull) by reflexivity.
  split; [exact Hm|].
  destruct (@null_filter_selects_all Sample.platform 2000 Sample.shop req m Hm)
    as (_ & _ & Hall).
  apply (Hall _ (response_of (snd (@DbRoutes.delete_documents Sample.platform 2000
                                     Sample.shop (with_body (Some (VObj m)) req))))).
  vm_compute. reflexivity.
Defined.

(** ** Authentication *)

Lemma finish_without_listener (env : Env) (st : State) :
  res_finish st = [] → finish env st = st.
Proof. intros Hl. unfold finish. rewrite Hl. reflexivity. Qed.

(** X12: a request without a valid bearer token stops at
    [authenticate]: it is answered 401, the handler does not run (the
    database is as it was) and no audit entry is written.  The message
    is "missing or invalid token" when the header is absent or does not
    start with "Bearer ", and "invalid token" when the token is not
    verified. *)
Theorem unauthenticated_request_stops `{Platform} (env : Env)
    (handler : database → Request → database * outcome)
    (req : Request) (d : database) :
  (∀ decoded, ¬ authenticated req decoded) →
  let st := protected env handler req d in
  db st = d
  ∧ audited st = []
  ∧ (match headers req !! "authorization" with
     | Some h =>
         if String.prefix "Bearer " h
         then trace st = [ClientReceived (error 401 "Unauthorized: invalid token")]
         else trace st
              = [ClientReceived (error 401 "Unauthorized: missing or invalid token")]
     | None =>
         trace st = [ClientReceived (error 401 "Unauthorized: missing or invalid token")]
     end).
Proof.
  intros Hno st. subst st. unfold protected, authenticate.
  destruct (headers req !! "authorization") as [h|] eqn:Hh.
  - destruct (String.prefix "Bearer " h) eqn:Hp; cbn [negb].
    + destruct (jwt_verify (bearer_token h)) as [decoded|] eqn:Hv.
      * exfalso. apply (Hno decoded). exists h. auto.
      * rewrite finish_without_listener by reflexivity. repeat split.
    + rewrite finish_without_listener by reflexivity. repeat split.
  - rewrite finish_without_listener by reflexivity. repeat split.
Qed.

Lemma unauthenticated_request_stops_witness :
  let req := with_authorization "Bearer forged.jwt"
               (Sample.request None "items" Sample.widget_id None) in
  let st := @protected Sample.platform Sample.calm
              (@DbRoutes.delete_document Sample.platform 2000) req Sample.shop in
  (∀ decoded, ¬ @authenticated Sample.platform req decoded)
  ∧ db st = Sample.shop ∧ audited st = [].
Proof.
  intros req st.
  assert (Hno : ∀ decoded, ¬ @authenticated Sample.platform req decoded).
  { intros decoded (h & Hh & _ & Hv). vm_compute in Hh. injection Hh as <-.
    vm_compute in Hv. discriminate Hv. }
  split; [exact Hno|].
  destruct (@unauthenticated_request_stops Sample.platform Sample.calm
              (@DbRoutes.delete_document Sample.platform 2000) req Sample.shop Hno)
    as (Hdb & Haud & _).
  split; [exact Hdb | exact Haud].
Defined.

Lemma substring_all (s : string) : String.substring 0 (String.length s) s = s.
Proof. induction s as [|c s IH]; cbn; [reflexivity | rewrite IH; reflexivity]. Qed.

Lemma until_space_spaceless (t : string) :
  spaceless t = true → until_space t = t.
Proof.
  induction t as [|c t IH]; cbn [until_space spaceless]; [reflexivity|].
  intros [Hc Ht]%andb_prop. apply negb_true_iff in Hc. rewrite Hc.
  rewrite IH by exact Ht. reflexivity.
Qed.

Lemma until_space_cut (t rest : string) :
  spaceless t = true → until_space (t +:+ " " +:+ rest) = t.
Proof.
  induction t as [|c t IH]; [reflexivity|].
  change (spaceless (String c t) = true →
          until_space (String c (t +:+ " " +:+ rest)) = String c t).
  cbn [until_space spaceless].
  intros [Hc Ht]%andb_prop. apply negb_true_iff in Hc. rewrite Hc.
  f_equal. apply IH. exact Ht.
Qed.

Lemma bearer_token_of (s : string) : bearer_token ("Bearer " +:+ s) = until_space s.
Proof.
  unfold bearer_token.
  change (String.substring 7 (String.length ("Bearer " +:+ s) - 7)%nat ("Bearer " +:+ s))
    with (String.substring 0 (String.length s - 0)%nat s).
  rewrite Nat.sub_0_r, substring_all. reflexivity.
Qed.

Lemma prefix_bearer (s : string) : String.prefix "Bearer " ("Bearer " +:+ s) = true.
Proof. destruct s; reflexivity. Qed.

(** X13: [authenticate] verifies the text between the first and the
    second space of the header and nothing else: for a token without a
    space, the headers "Bearer token" and "Bearer token anything" are
    accepted exactly when [jwt.verify] accepts the token, with the
    payload it decodes to. *)
Theorem authenticate_reads_second_word `{Platform} (req : Request)
    (token rest : string) (decoded : value) :
  spaceless token = true →
  (authenticated (with_authorization ("Bearer " +:+ token) req) decoded
   ↔ jwt_verify token = Some decoded)
  ∧ (authenticated (with_authorization ("Bearer " +:+ token +:+ " " +:+ rest) req) decoded
     ↔ jwt_verify token = Some decoded).
Proof.
  intros Ht. unfold authenticated, with_authorization. cbn [headers]. split.
  - split.
    + intros (h & Hh & _ & Hv). rewrite lookup_insert_eq in Hh. injection Hh as <-.
      rewrite bearer_token_of, until_space_spaceless in Hv by exact Ht. exact Hv.
    + intros Hv. eexists. split; [apply lookup_insert_eq|]. split; [apply prefix_bearer|].
      rewrite bearer_token_of, until_space_spaceless by exact Ht. exact Hv.
  - split.
    + intros (h & Hh & _ & Hv). rewrite lookup_insert_eq in Hh. injection Hh as <-.
      rewrite bearer_token_of, until_space_cut in Hv by exact Ht. exact Hv.
    + intros Hv. eexists. split; [apply lookup_insert_eq|].
      split; [apply (prefix_bearer (token +:+ " " +:+ rest))|].
      rewrite bearer_token_of, until_space_cut by exact Ht. exact Hv.
Qed.

Lemma authenticate_reads_second_word_witness :
  let req := Sample.request None "items" Sample.widget_id None in
  spaceless "alice.jwt" = true
  ∧ @authenticated Sample.platform
      (with_authorization ("Bearer " +:+ "alice.jwt" +:+ " " +:+ "trailing words") req)
      Sample.alice.
Proof.
  intros req.
  assert (Ht : spaceless "alice.jwt" = true) by reflexivity.
  split; [exact Ht|].
  apply (proj2 (@authenticate_reads_second_word Sample.platform req "alice.jwt"
                  "trailing words" Sample.alice Ht)).
  vm_compute. reflexivity.
Defined.

Lemma action_username (env : Env) (l : listener) (st : State) :
  action env l st !! "username"
  = Some (JS.or_else (JS.prop (user (logged l)) "username") (VStr "anonymous")).
Proof. unfold action. by simplify_map_eq. Qed.

Lemma action_email (env : Env) (l : listener) (st : State) :
  action env l st !! "email"
  = Some (JS.or_else (JS.prop (user (logged l)) "email") VNull).
Proof. unfold action. by simplify_map_eq. Qed.

Lemma logged_request_user (o : outcome) (decoded : value) (req : Request) :
  user (logged_request o (with_user decoded req)) = Some decoded.
Proof. destruct o; reflexivity. Qed.

Lemma or_else_truthy (a : option value) (b : value) :
  JS.truthy b = true → JS.truthy (JS.or_else a b) = true.
Proof.
  intros Hb. unfold JS.or_else. destruct a as [x|]; [|exact Hb].
  destruct (JS.truthy x) eqn:Hx; [exact Hx | exact Hb].
Qed.

(** X14: the audit entry names the bearer of the token.  For an
    authenticated request whose entry the store takes, the entry's
    [username] is the [username] of the decoded token, or "anonymous"
    when the token has none or a falsy one, so it is never falsy; its
    [email] is the token's, or [null]; whatever [req.user] held before
    [authenticate] plays no part. *)
Theorem audit_entry_names_token_bearer `{Platform} (env : Env)
    (handler : database → Request → database * outcome)
    (req : Request) (d : database) (decoded : value) :
  authenticated req decoded →
  audit_write_ok env (fst (handler d (with_user decoded req))) →
  ∃ a, audited (protected env handler req d) = [a]
       ∧ a !! "username"
         = Some (JS.or_else (JS.prop (Some decoded) "username") (VStr "anonymous"))
       ∧ a !! "email" = Some (JS.or_else (JS.prop (Some decoded) "email") VNull)
       ∧ (∀ u, a !! "username" = Some u → JS.truthy u = true).
Proof.
  intros Hauth Hok.
  rewrite (protected_authenticated env handler req d decoded Hauth). cbv zeta.
  rewrite audit_finish_ok by exact Hok.
  eexists. split; [reflexivity|].
  split; [rewrite action_username; cbn [logged]; rewrite logged_request_user;
          reflexivity|].
  split; [rewrite action_email; cbn [logged]; rewrite logged_request_user;
          reflexivity|].
  intros u Hu. rewrite action_username in Hu. injection Hu as <-.
  apply or_else_truthy. reflexivity.
Qed.

Lemma audit_entry_names_token_bearer_witness :
  let req := Sample.request (Some Sample.bob) "items" Sample.widget_id None in
  let handler := @DbRoutes.get_document Sample.platform in
  @authenticated Sample.platform req Sample.alice
  ∧ audit_write_ok Sample.calm (fst (handler Sample.shop (with_user Sample.alice req)))
  ∧ ∃ a, audited (@protected Sample.platform Sample.calm handler req Sample.shop) = [a]
         ∧ a !! "username" = Some (VStr "alice").
Proof.
  intros req handler.
  assert (Hauth : @authenticated Sample.platform req Sample.alice).
  { exists "Bearer alice.jwt". repeat split; vm_compute; reflexivity. }
  assert (Hok : audit_write_ok Sample.calm
                  (fst (handler Sample.shop (with_user Sample.alice req)))).
  { repeat split; [vm_compute; reflexivity .. | compute_done]. }
  split; [exact Hauth|]. split; [exact Hok|].
  destruct (@audit_entry_names_token_bearer Sample.platform Sample.calm handler req
              Sample.shop Sample.alice Hauth Hok) as (a & Ha & Hu & _).
  exists a. split; [exact Ha | exact Hu].
Defined.

(** ** Login *)

Lemma findOne_same_accounts (username : value) (c c' : list obj) :
  Forall2 same_account c c' →
  option_Forall2 same_account
    (findOne {[ "username" := username ]} c) (findOne {[ "username" := username ]} c').
Proof.
  unfold findOne. induction 1 as [|u u' c c' Hu _ IH]; cbn [List.filter head].
  - constructor.
  - rewrite !matches_singleton.
    destruct Hu as (Hname & Hrest). unfold same_field in Hname. rewrite Hname.
    destruct (holds username (u !! "username")); cbn [head].
    + constructor. split; [exact Hname | exact Hrest].
    + exact IH.
Qed.

Lemma post_login_same_accounts `{Libraries} (db db' : database) (req : Request) :
  Forall2 same_account (collection db "users") (collection db' "users") →
  snd (AuthRoutes.post_login db' req) = snd (AuthRoutes.post_login db req).
Proof.
  intros Hc. unfold AuthRoutes.post_login. cbv zeta.
  destruct (JS.prop (Some (body_or_empty req)) "username") as [username|]; [|reflexivity].
  destruct (JS.prop (Some (body_or_empty req)) "password") as [password|]; [|reflexivity].
  destruct (negb (JS.truthy username) || negb (JS.truthy password)); [reflexivity|].
  destruct (findOne_same_accounts username _ _ Hc) as [u u' (Hn & Hp & He)|];
    [|reflexivity].
  unfold same_field in Hn, Hp, He. rewrite Hn, Hp, He.
  destruct (bcrypt_compare password (u !! "password")) as [[|]|m]; reflexivity.
Qed.

Lemma same_account_stored (db : database) (name : string) (c' : list obj) :
  (∀ k, k ≠ "deleted_at" → k ≠ "deleted_by" →
        Forall2 (same_field k) (collection db name) c') →
  Forall2 same_account (collection db "users") (collection (<[ name := c' ]> db) "users").
Proof.
  intros Hc.
  assert (Hk : ∀ k, k ≠ "deleted_at" → k ≠ "deleted_by" →
            Forall2 (same_field k) (collection db "users")
              (collection (<[ name := c' ]> db) "users")).
  { intros k H1 H2. apply same_field_stored. apply Hc; assumption. }
  pose proof (Hk "username" ltac:(discriminate) ltac:(discriminate)) as Hn.
  pose proof (Hk "password" ltac:(discriminate) ltac:(discriminate)) as Hp.
  pose proof (Hk "email" ltac:(discriminate) ltac:(discriminate)) as He.
  clear Hk Hc. revert Hp He.
  induction Hn as [|u u' c1 c2 Hu _ IH]; intros Hp He; [constructor|].
  apply Forall2_cons_1 in Hp as [Hpu Hp]. apply Forall2_cons_1 in He as [Heu He].
  constructor; [repeat split; assumption | apply IH; assumption].
Qed.

Lemma same_account_refl (c : list obj) : Forall2 same_account c c.
Proof. induction c; constructor; [repeat split | assumption]. Qed.

(** X15: a soft delete does not lock an account out.  [/auth/login]
    reads the [users] collection without the soft-delete filter: after
    a soft delete by identifier or by filter, of any collection, every
    login request is answered as it was before. *)
Theorem login_ignores_soft_delete `{Platform} `{Libraries} (now : Z)
    (db : database) (del req : Request) :
  snd (AuthRoutes.post_login (fst (DbRoutes.delete_document now db del)) req)
  = snd (AuthRoutes.post_login db req)
  ∧ snd (AuthRoutes.post_login (fst (DbRoutes.delete_documents now db del)) req)
    = snd (AuthRoutes.post_login db req).
Proof.
  split; apply post_login_same_accounts.
  - unfold DbRoutes.delete_document.
    destruct (ObjectId (param del "id")) as [oid|]; [|apply same_account_refl].
    destruct (updateOne _ _ _) as [[c' m]|] eqn:Hc; [|apply same_account_refl].
    destruct (m =? 0); cbn [fst]; apply same_account_stored; intros k H1 H2;
      (eapply updateOne_same_field; [|exact Hc]); apply delete_metadata_untouched;
      assumption.
  - unfold DbRoutes.delete_documents.
    destruct (JS.not_plain_object _); [apply same_account_refl|].
    destruct (updateMany _ _ _) as [[c' m]|] eqn:Hc; [|apply same_account_refl].
    cbn [fst]. apply same_account_stored; intros k H1 H2.
    eapply updateMany_same_field; [|exact Hc]. apply delete_metadata_untouched; assumption.
Qed.

(** X16: a token is issued only against a stored password.  When
    [/auth/login] answers 200, the [users] collection holds a document
    that matches [{ username }] and whose [password] field
    [bcrypt.compare] accepts for the password of the body; the token
    and the [user] of the answer are made from the [username] and
    [email] of that stored document, not from the body; and no login
    request, answered or not, writes to the database. *)
Theorem login_token_needs_stored_password `{Libraries} (db : database)
    (req : Request) (r : Response) :
  snd (AuthRoutes.post_login db req) = Sent r →
  statusCode r = 200 →
  ∃ (username password : value) (u : obj),
    JS.prop (Some (body_or_empty req)) "username" = Some username
    ∧ JS.prop (Some (body_or_empty req)) "password" = Some password
    ∧ u ∈ collection db "users"
    ∧ holds username (u !! "username") = true
    ∧ bcrypt_compare password (u !! "password") = Ok true
    ∧ (let identity := VObj (JS.literal [("username", u !! "username");
                                          ("email", u !! "email")]) in
       JS.prop (Some (payload r)) "token" = Some (VStr (jwt_sign identity "24h"))
       ∧ JS.prop (Some (payload r)) "user" = Some identity)
    ∧ fst (AuthRoutes.post_login db req) = db.
Proof.
  unfold AuthRoutes.post_login. cbv zeta.
  destruct (JS.prop (Some (body_or_empty req)) "username") as [username|];
    [|cbn; intros [= <-]; discriminate].
  destruct (JS.prop (Some (body_or_empty req)) "password") as [password|];
    [|cbn; intros [= <-]; discriminate].
  destruct (negb (JS.truthy username) || negb (JS.truthy password));
    [cbn; intros [= <-]; discriminate|].
  destruct (findOne _ _) as [u|] eqn:Hu; [|cbn; intros [= <-]; discriminate].
  apply findOne_some in Hu as [Hin Hm]. rewrite matches_singleton in Hm.
  destruct (bcrypt_compare password (u !! "password")) as [[|]|m] eqn:Hcmp;
    [|cbn; intros [= <-]; discriminate|discriminate].
  cbn [snd fst]. intros [= <-] _.
  exists username, password, u. repeat split; assumption.
Qed.

Lemma login_token_needs_stored_password_witness :
  let req := Sample.request None "users" EmptyString
               (Some (VObj {[ "username" := VStr "alice";
                              "password" := VStr "wonderland" ]})) in
  ∃ r, snd (@AuthRoutes.post_login Sample.libraries Sample.realm req) = Sent r
       ∧ statusCode r = 200
       ∧ ∃ u, u ∈ collection Sample.realm "users"
              ∧ @bcrypt_compare Sample.libraries (VStr "wonderland") (u !! "password")
                = Ok true.
Proof.
  intros req.
  destruct (snd (@AuthRoutes.post_login Sample.libraries Sample.realm req))
    as [r|m] eqn:Hr; [|vm_compute in Hr; discriminate Hr].
  assert (Hs : statusCode r = 200).
  { vm_compute in Hr. injection Hr as <-. reflexivity. }
  exists r. split; [reflexivity|]. split; [exact Hs|].
  destruct (@login_token_needs_stored_password Sample.libraries Sample.realm req r Hr Hs)
    as (username & password & u & _ & Hp & Hin & _ & Hcmp & _).
  exists u. split; [exact Hin|].
  vm_compute in Hp. injection Hp as <-. exact Hcmp.
Defined.

(** X17: a refused login does not tell why.  For a request that
    carries a username and a password, a database where no account
    matches the username and one where the account matches but
    [bcrypt.compare] resolves to false give the same answer, 401
    "Invalid credentials". *)
Theorem refused_login_does_not_tell_why `{Libraries} (db db' : database)
    (req : Request) (username password : value) (u : obj) :
  JS.prop (Some (body_or_empty req)) "username" = Some username →
  JS.prop (Some (body_or_empty req)) "password" = Some password →
  JS.truthy username = true → JS.truthy password = true →
  findOne {[ "username" := username ]} (collection db "users") = None →
  findOne {[ "username" := username ]} (collection db' "users") = Some u →
  bcrypt_compare password (u !! "password") = Ok false →
  snd (AuthRoutes.post_login db req) = Sent (error 401 "Invalid credentials")
  ∧ snd (AuthRoutes.post_login db' req) = snd (AuthRoutes.post_login db req).
Proof.
  intros Hu Hp Htu Htp Hnone Hsome Hcmp. unfold AuthRoutes.post_login. cbv zeta.
  rewrite Hu, Hp, Htu, Htp, Hnone, Hsome, Hcmp. cbn. split; reflexivity.
Qed.

Lemma refused_login_does_not_tell_why_witness :
  let req := Sample.request None "users" EmptyString
               (Some (VObj {[ "username" := VStr "alice";
                              "password" := VStr "looking-glass" ]})) in
  snd (@AuthRoutes.post_login Sample.libraries Sample.shop req)
  = Sent (error 401 "Invalid credentials")
  ∧ snd (@AuthRoutes.post_login Sample.libraries Sample.realm req)
    = snd (@AuthRoutes.post_login Sample.libraries Sample.shop req).
Proof.
  intros req.
  apply (@refused_login_does_not_tell_why Sample.libraries Sample.shop Sample.realm req
           (VStr "alice") (VStr "looking-glass") Sample.alice_account);
    vm_compute; reflexivity.
Defined.

(** ** The two helpers of [dbRoutes.js] *)

(** X18: [parseFilterInput] always returns a value that can stand as
    a filter object as far as [typeof] can tell: it is truthy and its
    [typeof] is "object", whatever the input and whatever [JSON.parse]
    makes of a string; and it is an array only when the input itself
    was that array (an array that [JSON.parse] produces is replaced by
    the empty object). *)
Theorem parseFilterInput_gives_object `{Libraries} (input : option value) :
  JS.truthy (DbRoutes.parseFilterInput input) = true
  ∧ JS.typeof_object (DbRoutes.parseFilterInput input) = true
  ∧ (JS.isArray (DbRoutes.parseFilterInput input) = true →
     input = Some (DbRoutes.parseFilterInput input)).
Proof.
  unfold DbRoutes.parseFilterInput.
  destruct input as [v|]; cbn [JS.truthy_opt negb]; [|repeat split; discriminate].
  destruct (JS.truthy v) eqn:Htv; cbn [negb]; [|repeat split; discriminate].
  destruct (JS.typeof_object v) eqn:Hov; [repeat split; assumption|].
  destruct v as [| | |text| | | | |]; try (repeat split; discriminate).
  destruct (JSON_parse text) as [o|]; [|repeat split; discriminate].
  destruct (JS.truthy o) eqn:Hto; cbn [andb]; [|repeat split; discriminate].
  destruct (JS.typeof_object o) eqn:Hoo; cbn [andb]; [|repeat split; discriminate].
  destruct (JS.isArray o) eqn:Hao; cbn [negb]; [repeat split; discriminate|].
  repeat split; [assumption .. |]. intros Ha. congruence.
Qed.

(** X19: [coerceValue] is idempotent, it changes nothing but a
    string, and when it returns a string, that string is its argument:
    it turns a string into a boolean, [null] or a number, or leaves it
    alone.  This holds for every [trim] and every conversion of a
    string to a number. *)
Theorem coerceValue_idempotent `{Platform} `{Libraries} (v : value) :
  DbRoutes.coerceValue (DbRoutes.coerceValue v) = DbRoutes.coerceValue v
  ∧ ((∀ s, v ≠ VStr s) → DbRoutes.coerceValue v = v)
  ∧ (∀ s, DbRoutes.coerceValue v = VStr s → v = VStr s).
Proof.
  destruct v as [| | |text| | | | |];
    try (split; [reflexivity|]; split; [reflexivity|]; intros s Hs; exact Hs).
  split; [|split].
  - remember (DbRoutes.coerceValue (VStr text)) as r eqn:Hr.
    unfold DbRoutes.coerceValue in Hr.
    destruct (String.eqb text "true") eqn:E1; [subst r; reflexivity|].
    destruct (String.eqb text "false") eqn:E2; [subst r; reflexivity|].
    destruct (String.eqb text "null") eqn:E3; [subst r; reflexivity|].
    destruct (negb (String.eqb (String_trim text) EmptyString)) eqn:E4.
    + destruct (StringToNumber text) eqn:E5; subst r; [|reflexivity].
      unfold DbRoutes.coerceValue. rewrite E1, E2, E3, E4, E5. reflexivity.
    + subst r. unfold DbRoutes.coerceValue. rewrite E1, E2, E3, E4. reflexivity.
  - intros Hv. exfalso. apply (Hv text). reflexivity.
  - intros s. unfold DbRoutes.coerceValue.
    destruct (String.eqb text "true"); [discriminate|].
    destruct (String.eqb text "false"); [discriminate|].
    destruct (String.eqb text "null"); [discriminate|].
    destruct (negb (String.eqb (String_trim text) EmptyString)).
    + destruct (StringToNumber text); [|discriminate]. intros Hs; exact Hs.
    + intros Hs; exact Hs.
Qed.

(** ** The connection cache of [db.js] *)

Lemma getDb_sound (env : DbConfig.ProcessEnv) (srv : DbConfig.Server)
    (st : DbConfig.Cache) :
  sound_cache st → sound_cache (fst (DbConfig.getDb env srv st)).
Proof.
  intros Hst. pose proof Hst as (Hco & Hcl & Hcc). unfold DbConfig.getDb.
  destruct (DbConfig.cachedDb st) as [d|] eqn:Hd; [exact Hst|].
  destruct (DbConfig.MONGODB_URI env) as [u|]; [|exact Hst].
  destruct (String.eqb u EmptyString); [exact Hst|].
  destruct (DbConfig.connect_error srv) as [m|]; cbn [fst].
  - split; [|split].
    + intros d Hd'. cbn in Hd'. congruence.
    + intros c Hc. cbn in *. specialize (Hcl c Hc). lia.
    + intros c Hc. cbn in *. destruct (Hcc c Hc) as [Hlt Hnot]. split; [lia | exact Hnot].
  - destruct (DbConfig.db_error srv) as [m|]; cbn [fst]; (split; [|split]).
    + intros d Hd'. cbn in Hd'. congruence.
    + intros c Hc. cbn in *. specialize (Hcl c Hc). lia.
    + intros c Hc. cbn in *. injection Hc as <-. cbn. split; [lia|].
      intros Hin. specialize (Hcl _ Hin). cbn in Hcl. lia.
    + intros d Hd'. cbn in *. injection Hd' as <-. reflexivity.
    + intros c Hc. cbn in *. specialize (Hcl c Hc). lia.
    + intros c Hc. cbn in *. injection Hc as <-. cbn. split; [lia|].
      intros Hin. specialize (Hcl _ Hin). cbn in Hcl. lia.
Qed.

Lemma getClient_state (env : DbConfig.ProcessEnv) (srv : DbConfig.Server)
    (st : DbConfig.Cache) :
  fst (DbConfig.getClient env srv st) = st
  ∨ fst (DbConfig.getClient env srv st) = fst (DbConfig.getDb env srv st).
Proof.
  unfold DbConfig.getClient. destruct (DbConfig.cachedClient st); [left; reflexivity|].
  right. destruct (DbConfig.getDb env srv st) as [st' [d|m]]; reflexivity.
Qed.

Lemma closeDb_sound (srv : DbConfig.Server) (st : DbConfig.Cache) :
  sound_cache st → sound_cache (fst (DbConfig.closeDb srv st)).
Proof.
  intros Hst. pose proof Hst as (Hco & Hcl & Hcc). unfold DbConfig.closeDb.
  destruct (DbConfig.cachedClient st) as [c|] eqn:Hc; [|exact Hst].
  destruct (DbConfig.close_error srv) as [m|]; cbn [fst].
  - split; [exact Hco|]. split; [exact Hcl|]. rewrite Hc. exact Hcc.
  - split; [|split].
    + intros d Hd. cbn in Hd. discriminate.
    + intros c' Hc'. cbn in *. apply elem_of_app in Hc' as [Hc'|Hc'].
      * apply Hcl. exact Hc'.
      * apply list_elem_of_singleton in Hc'. subst c'. apply (Hcc c). reflexivity.
    + intros c' Hc'. cbn in Hc'. discriminate.
Qed.

Lemma after_calls_sound (calls : list call) : sound_cache (after_calls calls).
Proof.
  unfold after_calls. induction calls as [|c calls IH] using rev_ind.
  - split; [|split].
    + intros d Hd. discriminate.
    + intros c Hc. apply elem_of_nil in Hc. contradiction.
    + intros c Hc. discriminate.
  - rewrite foldl_app. cbn [foldl]. destruct c as [env srv|env srv|srv]; cbn [after_call].
    + apply getDb_sound. exact IH.
    + destruct (getClient_state env srv (foldl after_call DbConfig.empty calls)) as [-> | ->];
        [exact IH | apply getDb_sound; exact IH].
    + apply closeDb_sound. exact IH.
Qed.

Lemma getDb_Ok (env : DbConfig.ProcessEnv) (srv : DbConfig.Server)
    (st st' : DbConfig.Cache) (d : DbConfig.Db) :
  DbConfig.getDb env srv st = (st', Ok d) → DbConfig.cachedDb st' = Some d.
Proof.
  unfold DbConfig.getDb.
  destruct (DbConfig.cachedDb st) as [d0|] eqn:Hd; [intros [= <- <-]; exact Hd|].
  destruct (DbConfig.MONGODB_URI env) as [u|]; [|discriminate].
  destruct (String.eqb u EmptyString); [discriminate|].
  destruct (DbConfig.connect_error srv) as [m|]; [discriminate|].
  destruct (DbConfig.db_error srv) as [m|]; [discriminate|].
  intros [= <- <-]. reflexivity.
Qed.

(** X20: the module never hands out a closed connection.  After any
    sequence of calls of [getDb], [getClient] and [closeDb], whatever
    the environment and the server did at each of them: a cached
    database belongs to the cached client; the cached client has not
    been closed; the handle a further [getDb] resolves to is one of
    the cached client, which is open; and [getClient], when it
    resolves, resolves to an open client, never to [null]. *)
Theorem cache_never_serves_closed_client (calls : list call)
    (env : DbConfig.ProcessEnv) (srv : DbConfig.Server) :
  let st := after_calls calls in
  coherent st
  ∧ (∀ c, DbConfig.cachedClient st = Some c → c ∉ DbConfig.closed st)
  ∧ (∀ st' d, DbConfig.getDb env srv st = (st', Ok d) →
       DbConfig.cachedClient st' = Some (DbConfig.client d)
       ∧ DbConfig.client d ∉ DbConfig.closed st')
  ∧ (∀ st' r, DbConfig.getClient env srv st = (st', Ok r) →
       ∃ c, r = Some c ∧ c ∉ DbConfig.closed st').
Proof.
  intros st. pose proof (after_calls_sound calls) as Hst. fold st in Hst.
  assert (Hget : ∀ st' d, DbConfig.getDb env srv st = (st', Ok d) →
            DbConfig.cachedClient st' = Some (DbConfig.client d)
            ∧ DbConfig.client d ∉ DbConfig.closed st').
  { intros st' d Hd. pose proof (getDb_sound env srv st Hst) as (Hco & _ & Hcc).
    rewrite Hd in Hco, Hcc. cbn [fst] in Hco, Hcc.
    pose proof (Hco d (getDb_Ok _ _ _ _ _ Hd)) as Hc.
    split; [exact Hc | apply (Hcc _ Hc)]. }
  destruct Hst as (Hco & Hcl & Hcc).
  split; [exact Hco|]. split; [intros c Hc; apply (Hcc c Hc)|]. split; [exact Hget|].
  intros st' r. unfold DbConfig.getClient.
  destruct (DbConfig.cachedClient st) as [c|] eqn:Hc.
  - intros [= <- <-]. exists c. split; [reflexivity | apply (Hcc c eq_refl)].
  - destruct (DbConfig.getDb env srv st) as [st1 [d|m]] eqn:Hd; [|discriminate].
    intros [= <- <-]. destruct (Hget st1 d eq_refl) as [Hc1 Hopen].
    exists (DbConfig.client d). split; [exact Hc1 | exact Hopen].
Qed.

(** X21: [getDb] connects once.  After a call that resolved, every
    later call resolves to the same handle and leaves the module as it
    is (it does not connect again), whatever [process.env] holds by
    then and whether or not the server is still reachable; and no call
    opens more than one connection. *)
Theorem getDb_connects_once (env env' : DbConfig.ProcessEnv)
    (srv srv' : DbConfig.Server) (st st' : DbConfig.Cache) (d : DbConfig.Db) :
  DbConfig.getDb env srv st = (st', Ok d) →
  DbConfig.getDb env' srv' st' = (st', Ok d)
  ∧ (DbConfig.connects st' ≤ S (DbConfig.connects st))%nat.
Proof.
  intros Hd. split.
  - unfold DbConfig.getDb at 1. rewrite (getDb_Ok _ _ _ _ _ Hd). reflexivity.
  - revert Hd. unfold DbConfig.getDb.
    destruct (DbConfig.cachedDb st) as [d0|]; [intros [= <- <-]; lia|].
    destruct (DbConfig.MONGODB_URI env) as [u|]; [|discriminate].
    destruct (String.eqb u EmptyString); [discriminate|].
    destruct (DbConfig.connect_error srv) as [m|]; [discriminate|].
    destruct (DbConfig.db_error srv) as [m|]; [discriminate|].
    intros [= <- <-]. cbn. lia.
Qed.

Lemma getDb_connects_once_witness :
  ∃ st' d,
    DbConfig.getDb Sample.production Sample.server_up DbConfig.empty = (st', Ok d)
    ∧ DbConfig.getDb {| DbConfig.MONGODB_URI := None; DbConfig.MONGODB_DB := None |}
        {| DbConfig.connect_error := Some "ECONNREFUSED"; DbConfig.db_error := None;
           DbConfig.close_error := None |} st' = (st', Ok d).
Proof.
  eexists _, _. split; [reflexivity|].
  refine (proj1 (getDb_connects_once Sample.production _ Sample.server_up _
                   DbConfig.empty _ _ _)).
  reflexivity.
Defined.

Lemma cache_after_close (calls : list call) (srv : DbConfig.Server) :
  sound_cache (fst (DbConfig.closeDb srv (after_calls calls))).
Proof. apply closeDb_sound, after_calls_sound. Qed.

(** X22: [closeDb] forgets the connection it closes.  When it
    resolves on a cache that holds a client, that client is closed and
    both module variables are [null] again, so the next [getDb] has to
    connect: it throws when [MONGODB_URI] is not set by then, and the
    handle it otherwise resolves to belongs to another client than
    the one that was closed. *)
Theorem closeDb_forgets_connection (calls : list call)
    (env : DbConfig.ProcessEnv) (srv : DbConfig.Server)
    (c : DbConfig.Client) (st1 : DbConfig.Cache) :
  let st := after_calls calls in
  DbConfig.cachedClient st = Some c →
  DbConfig.closeDb srv st = (st1, Ok tt) →
  c ∈ DbConfig.closed st1
  ∧ DbConfig.cachedClient st1 = None ∧ DbConfig.cachedDb st1 = None
  ∧ (DbConfig.MONGODB_URI env = None →
     DbConfig.getDb env srv st1 = (st1, Throw "MONGODB_URI is not set"))
  ∧ (∀ st2 d, DbConfig.getDb env srv st1 = (st2, Ok d) → DbConfig.client d ≠ c).
Proof.
  intros st Hc Hclose.
  pose proof (cache_after_close calls srv) as Hsound. fold st in Hsound.
  rewrite Hclose in Hsound. cbn [fst] in Hsound.
  unfold DbConfig.closeDb in Hclose. rewrite Hc in Hclose.
  destruct (DbConfig.close_error srv) as [m|]; [discriminate|].
  injection Hclose as <-. cbn [DbConfig.closed DbConfig.cachedClient DbConfig.cachedDb].
  split; [apply elem_of_app; right; constructor|]. split; [reflexivity|].
  split; [reflexivity|]. split.
  - intros Hu. unfold DbConfig.getDb. cbn [DbConfig.cachedDb]. rewrite Hu. reflexivity.
  - intros st2 d Hd Heq.
    pose proof (getDb_sound env srv _ Hsound) as (Hco & Hcl & Hcc).
    rewrite Hd in Hco, Hcl, Hcc. cbn [fst] in Hco, Hcl, Hcc.
    pose proof (Hco d (getDb_Ok _ _ _ _ _ Hd)) as Hc2.
    destruct (Hcc _ Hc2) as [_ Hnot]. apply Hnot. rewrite Heq.
    revert Hd. unfold DbConfig.getDb. cbn [DbConfig.cachedDb].
    destruct (DbConfig.MONGODB_URI env) as [u|]; [|discriminate].
    destruct (String.eqb u EmptyString); [discriminate|].
    destruct (DbConfig.connect_error srv) as [m|]; [discriminate|].
    destruct (DbConfig.db_error srv) as [m|]; [discriminate|].
    intros [= <- _]. cbn. apply elem_of_app; right; constructor.
Qed.

Lemma closeDb_forgets_connection_witness :
  let st := after_calls [GetDb Sample.production Sample.server_up] in
  let c := {| DbConfig.uri := "mongodb://localhost:27017"; DbConfig.connection := 0 |} in
  let st1 := fst (DbConfig.closeDb Sample.server_up st) in
  DbConfig.cachedClient st = Some c
  ∧ DbConfig.closeDb Sample.server_up st = (st1, Ok tt)
  ∧ c ∈ DbConfig.closed st1
  ∧ ∀ st2 d, DbConfig.getDb Sample.production Sample.server_up st1 = (st2, Ok d) →
             DbConfig.client d ≠ c.
Proof.
  intros st c st1.
  assert (Hc : DbConfig.cachedClient st = Some c) by reflexivity.
  assert (Hclose : DbConfig.closeDb Sample.server_up st = (st1, Ok tt)) by reflexivity.
  split; [exact Hc|]. split; [exact Hclose|].
  destruct (closeDb_forgets_connection [GetDb Sample.production Sample.server_up]
              Sample.production Sample.server_up c st1 Hc Hclose)
    as (Hin & _ & _ & _ & Hnew).
  split; [exact Hin | exact Hnew].
Defined.

(** ** The cleanup script *)

Lemma matches_seeded (d : obj) : matches Cleanup.seeded d = is_seeded d.
Proof.
  unfold Cleanup.seeded, is_seeded. rewrite matches_singleton.
  unfold holds. cbn [operator_doc]. unfold eq_match.
  destruct (d !! "_seeded") as [x|].
  - apply bool_decide_ext. split; congruence.
  - symmetry. apply bool_decide_eq_false. discriminate.
Qed.

Lemma deleteMany_seeded (c : list obj) :
  deleteMany Cleanup.seeded c
  = (List.filter (λ d, negb (is_seeded d)) c,
     Z.of_nat (length (List.filter is_seeded c))).
Proof.
  unfold deleteMany. f_equal.
  - apply filter_ext. intros d. rewrite matches_seeded. reflexivity.
  - f_equal. f_equal. apply filter_ext. exact matches_seeded.
Qed.

Lemma filter_unseeded_idemp (c : list obj) :
  List.filter (λ d, negb (is_seeded d)) (List.filter (λ d, negb (is_seeded d)) c)
  = List.filter (λ d, negb (is_seeded d)) c.
Proof. apply forallb_filter_id, forallb_filter. Qed.

Lemma seeded_count (c : list obj) :
  Z.of_nat (length (List.filter is_seeded c))
  = Z.of_nat (length c)
    - Z.of_nat (length (List.filter (λ d, negb (is_seeded d)) c)).
Proof. pose proof (filter_length is_seeded c). lia. Qed.

(** What one turn of the loop does to the database and to the total. *)
Lemma clean_one_db (failing : string → option string) (p : Cleanup.Progress)
    (name : string) :
  Cleanup.db (Cleanup.clean_one failing p name)
  = match failing name with
    | Some _ => Cleanup.db p
    | None => <[ name := List.filter (λ d, negb (is_seeded d))
                           (collection (Cleanup.db p) name) ]> (Cleanup.db p)
    end.
Proof.
  unfold Cleanup.clean_one, Cleanup.cleanupCollection.
  destruct (failing name); [reflexivity|].
  rewrite deleteMany_seeded. destruct (0 <? _); reflexivity.
Qed.

Lemma clean_one_total (failing : string → option string) (p : Cleanup.Progress)
    (name : string) :
  Cleanup.totalDeleted (Cleanup.clean_one failing p name)
  = Cleanup.totalDeleted p
    + (Z.of_nat (length (collection (Cleanup.db p) name))
       - Z.of_nat (length (collection (Cleanup.db (Cleanup.clean_one failing p name))
                             name))).
Proof.
  rewrite clean_one_db.
  unfold Cleanup.clean_one, Cleanup.cleanupCollection.
  destruct (failing name); [cbn; lia|].
  rewrite deleteMany_seeded, collection_insert, decide_True by reflexivity.
  rewrite <- seeded_count.
  destruct (0 <? _) eqn:Hpos; cbn [Cleanup.totalDeleted]; [reflexivity|].
  apply Z.ltb_ge in Hpos. lia.
Qed.

Lemma clean_one_collection (failing : string → option string) (p : Cleanup.Progress)
    (name n : string) :
  collection (Cleanup.db (Cleanup.clean_one failing p name)) n
  = if decide (name = n ∧ failing n = None)
    then List.filter (λ d, negb (is_seeded d)) (collection (Cleanup.db p) n)
    else collection (Cleanup.db p) n.
Proof.
  rewrite clean_one_db. destruct (failing name) as [m|] eqn:Hf.
  - rewrite decide_False; [reflexivity|]. intros [-> Hn]. congruence.
  - rewrite collection_insert. destruct (decide (name = n)) as [->|Hne].
    + rewrite decide_True by (split; [reflexivity | exact Hf]). reflexivity.
    + rewrite decide_False; [reflexivity|]. intros [Hn _]. contradiction.
Qed.

Lemma clean_loop_collection (failing : string → option string) (names : list string)
    (p : Cleanup.Progress) (n : string) :
  collection (Cleanup.db (foldl (Cleanup.clean_one failing) p names)) n
  = if decide (n ∈ names ∧ failing n = None)
    then List.filter (λ d, negb (is_seeded d)) (collection (Cleanup.db p) n)
    else collection (Cleanup.db p) n.
Proof.
  revert p. induction names as [|name names IH]; intros p; cbn [foldl].
  - rewrite decide_False; [reflexivity|]. intros [Hin _].
    apply elem_of_nil in Hin. contradiction.
  - rewrite IH, clean_one_collection.
    destruct (decide (name = n ∧ failing n = None)) as [[-> Hf]|Hno].
    + rewrite (decide_True (P := n ∈ n :: names ∧ _)) by (split; [left | exact Hf]).
      destruct (decide (n ∈ names ∧ failing n = None));
        [apply filter_unseeded_idemp | reflexivity].
    + destruct (decide (n ∈ names ∧ failing n = None)) as [[Hin Hf]|Hno'].
      * rewrite decide_True by (split; [right; exact Hin | exact Hf]). reflexivity.
      * rewrite decide_False; [reflexivity|]. intros [Hin Hf].
        apply elem_of_cons in Hin as [->|Hin]; [apply Hno | apply Hno']; auto.
Qed.

Lemma collection_unlisted (d : database) (n : string) :
  n ∉ listCollections d → collection d n = [].
Proof.
  intros Hn. unfold collection. destruct (d !! n) as [c|] eqn:Hc; [|reflexivity].
  exfalso. apply Hn. unfold listCollections. apply list_elem_of_fmap.
  exists (n, c). split; [reflexivity | apply elem_of_map_to_list; exact Hc].
Qed.

Lemma clean_all_collection (failing : string → option string) (d : database)
    (n : string) :
  collection (Cleanup.db (Cleanup.clean_all failing d)) n
  = match failing n with
    | Some _ => collection d n
    | None => List.filter (λ x, negb (is_seeded x)) (collection d n)
    end.
Proof.
  unfold Cleanup.clean_all. rewrite clean_loop_collection. cbn [Cleanup.db].
  destruct (failing n) as [m|] eqn:Hf.
  - rewrite decide_False; [reflexivity|]. intros [_ H]. discriminate.
  - destruct (decide (n ∈ listCollections d ∧ None = None)) as [_|Hno]; [reflexivity|].
    rewrite collection_unlisted; [reflexivity|]. intros Hin. apply Hno. auto.
Qed.

Lemma sum_ext (f g : string → Z) (l : list string) :
  (∀ n, n ∈ l → f n = g n) → foldr Z.add 0 (f <$> l) = foldr Z.add 0 (g <$> l).
Proof.
  induction l as [|n l IH]; intros Hfg; [reflexivity|].
  cbn. rewrite (Hfg n) by left. rewrite IH; [reflexivity|].
  intros k Hk. apply Hfg. right. exact Hk.
Qed.

Lemma clean_loop_total (failing : string → option string) (names : list string)
    (p : Cleanup.Progress) :
  NoDup names →
  let p' := foldl (Cleanup.clean_one failing) p names in
  Cleanup.totalDeleted p'
  = Cleanup.totalDeleted p
    + foldr Z.add 0
        ((λ n, Z.of_nat (length (collection (Cleanup.db p) n))
               - Z.of_nat (length (collection (Cleanup.db p') n))) <$> names).
Proof.
  intros Hnd. revert p. induction Hnd as [|name names Hnot Hnd IH]; intros p; cbn zeta.
  - cbn. lia.
  - cbn [foldl fmap list_fmap foldr]. cbn zeta in IH. rewrite IH, clean_one_total.
    set (p1 := Cleanup.clean_one failing p name).
    assert (Hname : collection (Cleanup.db (foldl (Cleanup.clean_one failing) p1 names)) name
                    = collection (Cleanup.db p1) name).
    { rewrite clean_loop_collection. rewrite decide_False; [reflexivity|].
      intros [Hin _]. contradiction. }
    rewrite Hname.
    rewrite (sum_ext
      (λ n, Z.of_nat (length (collection (Cleanup.db p1) n))
            - Z.of_nat (length (collection
                 (Cleanup.db (foldl (Cleanup.clean_one failing) p1 names)) n)))
      (λ n, Z.of_nat (length (collection (Cleanup.db p) n))
            - Z.of_nat (length (collection
                 (Cleanup.db (foldl (Cleanup.clean_one failing) p1 names)) n)))).
    + lia.
    + intros n Hn. cbn beta. f_equal. f_equal. f_equal. subst p1.
      rewrite clean_one_collection. rewrite decide_False; [reflexivity|].
      intros [-> _]. contradiction.
Qed.

Lemma listCollections_NoDup (d : database) : NoDup (listCollections d).
Proof. apply NoDup_fst_map_to_list. Qed.

Lemma clean_all_total (failing : string → option string) (d : database) :
  Cleanup.totalDeleted (Cleanup.clean_all failing d)
  = removed d (Cleanup.db (Cleanup.clean_all failing d)).
Proof.
  unfold Cleanup.clean_all, removed.
  rewrite (clean_loop_total failing (listCollections d) _ (listCollections_NoDup d)).
  cbn [Cleanup.totalDeleted Cleanup.db]. lia.
Qed.

(** X23: the cleanup removes the seeded documents and nothing else.
    After the loop, every collection whose [deleteMany] the server did
    not reject holds exactly its documents that do not match
    [{ _seeded: true }], in their order, whether or not they carry
    [deleted_at] (a soft-deleted seeded document is removed for good);
    a collection whose [deleteMany] was rejected is as it was, and
    does not keep the others from being cleaned. *)
Theorem cleanup_removes_exactly_seeded (failing : string → option string)
    (d : database) (n : string) :
  collection (Cleanup.db (Cleanup.clean_all failing d)) n
  = if bool_decide (failing n = None)
    then List.filter (λ x, negb (matches Cleanup.seeded x)) (collection d n)
    else collection d n.
Proof.
  rewrite clean_all_collection. destruct (failing n) as [m|].
  - rewrite bool_decide_eq_false_2 by discriminate. reflexivity.
  - rewrite bool_decide_eq_true_2 by reflexivity.
    apply filter_ext. intros x. rewrite matches_seeded. reflexivity.
Qed.

(** X24: the total the script reports is the number of documents that
    are gone: [totalDeleted] equals the sum, over the collections
    listed at the start, of what each one lost; it is never negative,
    and it is 0 exactly when no collection lost a document. *)
Theorem cleanup_reports_what_it_removed (failing : string → option string)
    (d : database) :
  let p := Cleanup.clean_all failing d in
  Cleanup.totalDeleted p = removed d (Cleanup.db p)
  ∧ 0 ≤ Cleanup.totalDeleted p
  ∧ (Cleanup.totalDeleted p = 0 ↔ same_documents d (Cleanup.db p)).
Proof.
  intros p. subst p. split; [apply clean_all_total|].
  assert (Hle : ∀ n, 0 ≤ Z.of_nat (length (collection d n))
                   - Z.of_nat (length (collection
                         (Cleanup.db (Cleanup.clean_all failing d)) n))).
  { intros n. rewrite clean_all_collection. destruct (failing n); [lia|].
    pose proof (filter_length_le (λ x : obj, negb (is_seeded x)) (collection d n)). lia. }
  rewrite clean_all_total. unfold removed.
  set (lost := λ n, Z.of_nat (length (collection d n))
                    - Z.of_nat (length (collection
                          (Cleanup.db (Cleanup.clean_all failing d)) n))) in *.
  assert (Hsum : ∀ l, 0 ≤ foldr Z.add 0 (lost <$> l)
                      ∧ (foldr Z.add 0 (lost <$> l) = 0 ↔ ∀ n, n ∈ l → lost n = 0)).
  { induction l as [|n l [IH0 IH]].
    - cbn. split; [lia|]. split; [|reflexivity]. intros _ n Hn.
      apply elem_of_nil in Hn. contradiction.
    - change (foldr Z.add 0 (lost <$> n :: l))
        with (lost n + foldr Z.add 0 (lost <$> l)).
      assert (Hn : 0 ≤ lost n) by apply Hle. split; [lia|]. split.
      + intros Hz k Hk. apply elem_of_cons in Hk as [->|Hk]; [lia|].
        apply IH; [lia | exact Hk].
      + intros Hall. rewrite (Hall n) by left.
        rewrite (proj2 IH); [reflexivity|]. intros k Hk. apply Hall. right. exact Hk. }
  split; [apply Hsum|]. rewrite (proj2 (Hsum (listCollections d))). split.
  - intros Hall n. rewrite clean_all_collection.
    destruct (failing n) as [m|] eqn:Hf; [reflexivity|].
    destruct (decide (n ∈ listCollections d)) as [Hin|Hout].
    + specialize (Hall n Hin). unfold lost in Hall. rewrite clean_all_collection, Hf in Hall.
      apply forallb_filter_id, filter_length_forallb. lia.
    + rewrite collection_unlisted by exact Hout. reflexivity.
  - intros Hsame n _. unfold lost. rewrite (Hsame n). lia.
Qed.

(** X25: the cleanup is idempotent.  Run on the database a first run
    left, where no [deleteMany] was rejected, the loop removes
    nothing, reports a total of 0 and leaves every collection as it
    is, whether or not the server rejects some [deleteMany] this
    time. *)
Theorem cleanup_is_idempotent (failing : string → option string) (d : database) :
  let d1 := Cleanup.db (Cleanup.clean_all (λ _, None) d) in
  let p2 := Cleanup.clean_all failing d1 in
  same_documents d1 (Cleanup.db p2) ∧ Cleanup.totalDeleted p2 = 0.
Proof.
  intros d1 p2.
  assert (Hsame : same_documents d1 (Cleanup.db p2)).
  { intros n. subst p2 d1. rewrite clean_all_collection.
    destruct (failing n); [reflexivity|].
    rewrite clean_all_collection. apply filter_unseeded_idemp. }
  split; [exact Hsame|]. subst p2. rewrite clean_all_total. unfold removed.
  rewrite (sum_ext _ (λ _, 0)).
  - induction (listCollections d1) as [|n l IH]; cbn; [reflexivity | exact IH].
  - intros n _. cbn beta. rewrite (Hsame n). lia.
Qed.



(** ** Reads, errors and the audit log *)

Lemma read_handlers_store_nothing `{Platform}
    (handler : database → Request → database * outcome)
    (d : database) (req : Request) :
  handler ∈ [DbRoutes.get_collections; DbRoutes.get_document; DbRoutes.post_find;
             ActionsRoutes.post_actions_find] →
  fst (handler d req) = d.
Proof.
  intros Hin. repeat (apply elem_of_cons in Hin as [-> | Hin]).
  - reflexivity.
  - unfold DbRoutes.get_document. destruct (ObjectId _); [|reflexivity].
    destruct (findOne _ _); reflexivity.
  - unfold DbRoutes.post_find. destruct (JS.not_plain_object _); [reflexivity|].
    destruct (DbRoutes.find_throws _); [reflexivity|].
    destruct (find _ _ _ _ _ _); reflexivity.
  - unfold ActionsRoutes.post_actions_find.
    destruct (JS.not_plain_object _); [reflexivity|].
    destruct (DbRoutes.find_throws _); [reflexivity|].
    destruct (find _ _ _ _ _ _); reflexivity.
  - apply elem_of_nil in Hin. contradiction.
Qed.

Lemma protected_audited `{Platform} (env : Env)
    (handler : database → Request → database * outcome)
    (req : Request) (d : database) (decoded : value) :
  authenticated req decoded →
  let req' := with_user decoded req in
  let d1 := fst (handler d req') in
  let r := response_of (snd (handler d req')) in
  audit_write_ok env d1 →
  ∃ a, audited (protected env handler req d) = [a]
       ∧ a !! "statusCode" = Some (VNum (statusCode r))
       ∧ db (protected env handler req d)
         = <[ "actions" := collection d1 "actions" ++ [<[ "_id" := VOid (fresh env) ]> a] ]> d1
       ∧ received (protected env handler req d) = [r].
Proof.
  intros Hauth req' d1 r Hok.
  rewrite (protected_authenticated env handler req d decoded Hauth). cbv zeta.
  fold req' d1 r. rewrite audit_finish_ok by exact Hok.
  eexists. split; [reflexivity|]. split; [apply action_statusCode|].
  split; reflexivity.
Qed.

(** X27: a read is written down.  On the protected mounts the four
    read handlers (list collections, GET by identifier, the two find
    routes) store nothing themselves, yet an authenticated read
    changes the database: when the store takes the entry, the database
    afterwards is the one before with one audit entry appended to
    [actions], and the client has received the handler's answer, made
    from the database before; so the answer of the audit-log find
    route never holds the entry about itself. *)
Theorem read_changes_only_audit_log `{Platform} (env : Env)
    (handler : database → Request → database * outcome)
    (req : Request) (d : database) (decoded : value) :
  handler ∈ [DbRoutes.get_collections; DbRoutes.get_document; DbRoutes.post_find;
             ActionsRoutes.post_actions_find] →
  authenticated req decoded →
  audit_write_ok env d →
  let st := protected env handler req d in
  ∃ a, audited st = [a]
       ∧ db st = <[ "actions" := collection d "actions"
                                  ++ [<[ "_id" := VOid (fresh env) ]> a] ]> d
       ∧ received st = [response_of (snd (handler d (with_user decoded req)))].
Proof.
  intros Hin Hauth Hok st. subst st.
  pose proof (read_handlers_store_nothing handler d (with_user decoded req) Hin) as Hd.
  destruct (protected_audited env handler req d decoded Hauth) as (a & Ha & _ & Hdb & Hr).
  { rewrite Hd. exact Hok. }
  rewrite Hd in Hdb. exists a. split; [exact Ha|]. split; [exact Hdb | exact Hr].
Qed.

Lemma read_changes_only_audit_log_witness :
  let req := Sample.request None "items" Sample.widget_id None in
  @authenticated Sample.platform req Sample.alice
  ∧ audit_write_ok Sample.calm Sample.shop
  ∧ length (collection
              (db (@protected Sample.platform Sample.calm
                     (@ActionsRoutes.post_actions_find Sample.platform) req Sample.shop))
              "actions") = 1%nat.
Proof.
  intros req.
  assert (Hauth : @authenticated Sample.platform req Sample.alice).
  { exists "Bearer alice.jwt". repeat split; vm_compute; reflexivity. }
  assert (Hok : audit_write_ok Sample.calm Sample.shop).
  { repeat split; [vm_compute; reflexivity .. | compute_done]. }
  split; [exact Hauth|]. split; [exact Hok|].
  destruct (@read_changes_only_audit_log Sample.platform Sample.calm
              (@ActionsRoutes.post_actions_find Sample.platform) req Sample.shop
              Sample.alice) as (a & _ & Hdb & _).
  - repeat (first [left; reflexivity | right]); constructor.
  - exact Hauth.
  - exact Hok.
  - rewrite Hdb, collection_insert, decide_True by reflexivity.
    rewrite length_app. reflexivity.
Defined.

(** X28: an error of the driver reaches the client as a 500 and is
    audited as one.  When a handler on a protected mount ends with
    [next(err)], the client receives status 500 with the error's
    message ("Internal Server Error" when the message is empty), what
    the handler stored stands, and the audit entry, when the store
    takes it, records status code 500. *)
Theorem driver_error_is_answered_500 `{Platform} (env : Env)
    (handler : database → Request → database * outcome)
    (req : Request) (d d1 : database) (decoded : value) (m : string) :
  authenticated req decoded →
  handler d (with_user decoded req) = (d1, Next m) →
  audit_write_ok env d1 →
  let st := protected env handler req d in
  (∃ r, received st = [r] ∧ statusCode r = 500
        ∧ (m ≠ EmptyString → r = error 500 m)
        ∧ (m = EmptyString → r = error 500 "Internal Server Error"))
  ∧ (∃ a, audited st = [a] ∧ a !! "statusCode" = Some (VNum 500))
  ∧ ∀ n, n ≠ "actions" → collection (db st) n = collection d1 n.
Proof.
  intros Hauth Hnext Hok st. subst st.
  destruct (protected_audited env handler req d decoded Hauth) as (a & Ha & Hs & Hdb & Hr).
  { rewrite Hnext. exact Hok. }
  rewrite Hnext in Hs, Hdb, Hr. cbn [fst snd response_of] in Hs, Hdb, Hr.
  split; [|split].
  - exists (error_handler m). split; [exact Hr|]. split; [reflexivity|].
    unfold error_handler. split.
    + intros Hm. apply String.eqb_neq in Hm. rewrite Hm. reflexivity.
    + intros ->. reflexivity.
  - exists a. split; [exact Ha | exact Hs].
  - intros n Hn. rewrite Hdb, collection_insert, decide_False by congruence. reflexivity.
Qed.

Lemma driver_error_is_answered_500_witness :
  let req := Sample.request None "items" Sample.widget_id
               (Some (VObj {[ "skip" := VNum (-1) ]})) in
  @authenticated Sample.platform req Sample.alice
  ∧ received (@protected Sample.platform Sample.calm
                (@DbRoutes.post_find Sample.platform) req Sample.shop)
    = [error 500 "skip value must be non-negative"].
Proof.
  intros req.
  assert (Hauth : @authenticated Sample.platform req Sample.alice).
  { exists "Bearer alice.jwt". repeat split; vm_compute; reflexivity. }
  assert (Hok : audit_write_ok Sample.calm Sample.shop).
  { repeat split; [vm_compute; reflexivity .. | compute_done]. }
  assert (Hnext : @DbRoutes.post_find Sample.platform Sample.shop
                    (with_user Sample.alice req)
                  = (Sample.shop, Next "skip value must be non-negative")).
  { vm_compute. reflexivity. }
  split; [exact Hauth|].
  destruct (@driver_error_is_answered_500 Sample.platform Sample.calm
              (@DbRoutes.post_find Sample.platform) req Sample.shop Sample.shop
              Sample.alice "skip value must be non-negative" Hauth Hnext Hok)
    as ((r & Hr & _ & Hm & _) & _).
  rewrite Hr, Hm by discriminate. reflexivity.
Defined.
